(** * ezrecords: the [Database] access helper of [ezrecords/abstractdb.py]

    A shallow embedding of the query preparation, execution and SQL-builder
    pipeline of the abstract [Database] class, together with its transaction
    controller, and the properties of it that the specification states.

    Python strings are [string], Python integers are [Z], dictionaries are
    insertion-ordered association lists with unique keys (the order that
    [keys()], [values()] and [items()] enumerate), and a method of the class
    is a computation in a state-and-exception monad over the session
    record: an exception leaves behind the state reached when it was
    raised. *)

From Stdlib Require Import String Ascii List ZArith Bool Arith Lia.
From Stdlib Require Import Numbers.DecimalString.
Import ListNotations.

Local Open Scope string_scope.
Local Open Scope list_scope.

(* ================================================================== *)
(** * Strings *)
(* ================================================================== *)

Module Str.

(** [sep.join(parts)] *)
Fixpoint join (sep : string) (parts : list string) : string :=
  match parts with
  | [] => EmptyString
  | [p] => p
  | p :: rest => p ++ sep ++ join sep rest
  end.

(** [s[n:]] *)
Fixpoint drop (n : nat) (s : string) : string :=
  match n, s with
  | O, _ => s
  | S _, EmptyString => EmptyString
  | S k, String _ t => drop k t
  end.

(** [needle in s] *)
Fixpoint contains (needle s : string) : bool :=
  prefix needle s ||
  match s with
  | EmptyString => false
  | String _ t => contains needle t
  end.

(** Number of leading characters of [s] equal to [c]. *)
Fixpoint leading (c : ascii) (s : string) : nat :=
  match s with
  | EmptyString => O
  | String d t => if Ascii.eqb d c then S (leading c t) else O
  end.

(** [c * n] *)
Fixpoint replicate (n : nat) (c : ascii) : string :=
  match n with
  | O => EmptyString
  | S k => String c (replicate k c)
  end.

(** First and last character tests. *)
Definition starts_with_char (c : ascii) (s : string) : bool :=
  match s with
  | EmptyString => false
  | String d _ => Ascii.eqb d c
  end.

Fixpoint ends_with_char (c : ascii) (s : string) : bool :=
  match s with
  | EmptyString => false
  | String d EmptyString => Ascii.eqb d c
  | String _ t => ends_with_char c t
  end.

(** Leftmost, non-overlapping substitution: the scan that both
    [str.replace] and [re.sub] perform.  [m s] is the length of the match
    that starts at the head of [s], if there is one; [skip] counts the
    characters of the current match that are still to be consumed. *)
Fixpoint scan_from (m : string -> option nat) (repl : string)
         (skip : nat) (s : string) : string :=
  match s with
  | EmptyString => EmptyString
  | String c t =>
      match skip with
      | S k => scan_from m repl k t
      | O =>
          match m s with
          | Some (S k) => repl ++ scan_from m repl k t
          | _ => String c (scan_from m repl 0 t)
          end
      end
  end.

(** The text between the matches of the same scan: what [str.split] returns.
    The result is never empty; it is given as its first piece and the
    others. *)
Fixpoint pieces_from (m : string -> option nat) (skip : nat) (s : string)
  : string * list string :=
  match s with
  | EmptyString => (EmptyString, [])
  | String c t =>
      match skip with
      | S k => pieces_from m k t
      | O =>
          match m s with
          | Some (S k) =>
              let '(p, ps) := pieces_from m k t in (EmptyString, p :: ps)
          | _ =>
              let '(p, ps) := pieces_from m 0 t in (String c p, ps)
          end
      end
  end.

(** The matcher of a literal, non-empty search string. *)
Definition literal (search : string) (s : string) : option nat :=
  if prefix search s then Some (String.length search) else None.

(** [search.join(s)] for the empty search string: Python's [replace] puts
    the replacement before every character and at the end. *)
Fixpoint around_each (repl s : string) : string :=
  match s with
  | EmptyString => repl
  | String c t => repl ++ String c (around_each repl t)
  end.

(** Modelled from the spec: [str_replace(search, replace, subject)] of
    [ezrecords/util.py], which is not among the sources.  It is the
    replace-every-occurrence helper the normalizer's rules 1 to 4 are
    written with, [subject.replace(search, replace)]. *)
Definition str_replace (search replace subject : string) : string :=
  match search with
  | EmptyString => around_each replace subject
  | String _ _ => scan_from (literal search) replace 0 subject
  end.

(** [subject.split(search)] for a non-empty [search]. *)
Definition split (search subject : string) : list string :=
  let '(p, ps) := pieces_from (literal search) 0 subject in p :: ps.

(** The match of the pattern [(c)\1+] at the head of [s]: a [c] followed by
    one or more further [c], as many as there are (the quantifier is
    greedy). *)
Definition run_of (c : ascii) (s : string) : option nat :=
  let n := leading c s in
  if Nat.leb 2 n then Some n else None.

(** Modelled from the spec: [preg_replace(pattern, replacement, subject)] of
    [ezrecords/util.py], which is not among the sources, at the one pattern
    and replacement [prepare] calls it with, [(%)\1+] and [\1]: rule 5 of
    the normalizer, every run of two or more [%] becomes the captured
    single [%]. *)
Definition preg_replace_run (c : ascii) (subject : string) : string :=
  scan_from (run_of c) (String c EmptyString) 0 subject.

(** Number of non-overlapping occurrences, [s.count(needle)]. *)
Definition count (needle s : string) : nat :=
  List.length (split needle s) - 1.

End Str.

(* ================================================================== *)
(** * Python values *)
(* ================================================================== *)

(** The scalar values that travel as bound arguments and come back in
    result rows. *)
Inductive pyval : Type :=
| VNone
| VBool (b : bool)
| VInt (z : Z)
| VStr (s : string).

(** [v is None] *)
Definition is_none (v : pyval) : bool :=
  match v with
  | VNone => true
  | _ => false
  end.

(** [isinstance(v, numeric_types)] *)
Definition is_numeric (v : pyval) : bool :=
  match v with
  | VInt _ => true
  | VBool _ => true
  | _ => false
  end.

(** [str(v)] *)
Definition py_str (v : pyval) : string :=
  match v with
  | VNone => "None"
  | VBool true => "True"
  | VBool false => "False"
  | VInt z => NilZero.string_of_int (Z.to_int z)
  | VStr s => s
  end.

(** A [dict] with string keys, in insertion order; keys are unique. *)
Definition dict : Type := list (string * pyval).

(** [d[k] = v]: an existing key keeps its position, a new one goes last. *)
Fixpoint dict_set (k : string) (v : pyval) (d : dict) : dict :=
  match d with
  | [] => [(k, v)]
  | (k', v') :: rest =>
      if String.eqb k' k then (k', v) :: rest
      else (k', v') :: dict_set k v rest
  end.

(** [d.update(other)] *)
Definition dict_update (d other : dict) : dict :=
  fold_left (fun acc kv => dict_set (fst kv) (snd kv) acc) other d.

(** [d.get(k)] *)
Fixpoint dict_get (k : string) (d : dict) : option pyval :=
  match d with
  | [] => None
  | (k', v) :: rest => if String.eqb k' k then Some v else dict_get k rest
  end.

(** What a caller may pass where [update] expects a mapping. *)
Inductive pyobj : Type :=
| ODict (d : dict)
| OList (l : list pyval)
| OValue (v : pyval).

(** [isinstance(o, dict)] *)
Definition is_dict (o : pyobj) : bool :=
  match o with
  | ODict _ => true
  | _ => false
  end.

(** [o.items()] of an object that is a dict. *)
Definition items (o : pyobj) : dict :=
  match o with
  | ODict d => d
  | _ => []
  end.

(** The double quote character, and a text between double quotes. *)
Definition dq : string := String "034"%char EmptyString.

Definition quoted (s : string) : string := (dq ++ s ++ dq)%string.

(* ================================================================== *)
(** * Records *)
(* ================================================================== *)

(** A row as the driver hands it over: ordered keys with their values. *)
Definition row : Type := list (string * pyval).

(** Modelled from the spec: [Record] of [ezrecords/records.py], which is
    not among the sources: the ordered column names of one result row and
    the parallel list of values. *)
Record record : Type := mkRecord {
  rec_keys : list string;
  rec_values : list pyval
}.

(** [Record(list(row.keys()), list(row.values()))] *)
Definition record_of_row (r : row) : record :=
  mkRecord (map fst r) (map snd r).

(** [record.as_dict()] *)
Definition as_dict (r : record) : dict :=
  combine (rec_keys r) (rec_values r).

(** Modelled from the spec: [RecordCollection] of [ezrecords/records.py],
    which is not among the sources: the rows of one query in order, with
    positional indexing and first-row-or-null retrieval.  The rows are
    kept materialized. *)
Definition RecordCollection : Type := list record.

Definition first (rows : RecordCollection) : option record :=
  match rows with
  | [] => None
  | r :: _ => Some r
  end.

(** What [query] returns: nothing, one record, or a collection. *)
Inductive qresult : Type :=
| QNone
| QRecord (r : record)
| QRecords (rows : RecordCollection).

(** What [get_row] returns and [get_results] collects: a record, the
    mapping [row.as_dict()], the [row.dataset] view, an attribute-access
    object of the munch package, or [row.as_dict] itself, the bound method
    of the record, not called. *)
Inductive shaped : Type :=
| ShRecord (r : record)
| ShDict (d : dict)
| ShDataset (r : record)
| ShMunch (d : dict)
| ShAsDictMethod (r : record).

(** [Munch.fromDict] of the munch package: a mapping becomes an object
    with attribute access; a value that is neither a mapping nor a list
    nor a tuple is returned as it is. *)
Definition fromDict (x : shaped) : shaped :=
  match x with
  | ShDict d => ShMunch d
  | other => other
  end.

(* ================================================================== *)
(** * Exceptions and the driver *)
(* ================================================================== *)

Inductive exn : Type :=
| RuntimeError (msg : string)
| NameError (name : string)
| TypeError (msg : string)
| AttributeError (msg : string)
| IndexError
| DriverError (msg : string).

Inductive outcome (A : Type) : Type :=
| Ret (a : A)
| Raise (e : exn).

Arguments Ret {A} a.
Arguments Raise {A} e.

(** The calls the session makes on the driver, in the order made. *)
Inductive event : Type :=
| EvConnect
| EvCursor (c : nat)
| EvCallproc (c : nat) (name : string) (args : list pyval)
| EvExecute (c : nat) (sql : string) (args : list pyval)
| EvFetchall (c : nat)
| EvCursorClose (c : nat)
| EvBegin
| EvCommit
| EvRollback.

Definition is_cursor_event (e : event) : bool :=
  match e with
  | EvCursor _ => true
  | _ => false
  end.

(** How many cursors have been opened so far. *)
Definition cursors_opened (w : list event) : nat :=
  List.length (filter is_cursor_event w).

(** The DB-API driver under the session, and the clock and call stack the
    diagnostics read.  Each answer may depend on everything the driver has
    been asked so far; any call may fail.  [be_mogrify] is [None] for a
    cursor without a [mogrify] method, which PEP 249 does not require. *)
Record Backend : Type := mkBackend {
  be_mogrify : option (string -> list pyval -> outcome string);
  be_execute : list event -> string -> list pyval -> outcome (Z * pyval);
  be_callproc : list event -> string -> list pyval -> outcome (Z * pyval);
  be_fetchall : list event -> outcome (option (list row));
  be_begin : list event -> outcome unit;
  be_commit : list event -> outcome unit;
  be_rollback : list event -> outcome unit;
  be_timer : list event -> Z;
  be_format_timedelta : Z -> string;
  be_caller : string * string
}.

(** A cursor: its number on the connection and the metadata of the last
    statement run on it, [rowcount] and [lastrowid]. *)
Record cursor : Type := mkCursor {
  cur_id : nat;
  rowcount : Z;
  lastrowid : pyval
}.

(** The one connection a session owns. *)
Inductive connection : Type := Connection.

(* ================================================================== *)
(** * The session *)
(* ================================================================== *)

(** The attributes of a [Database] object that the modelled methods read
    or write.  [wire] is not an attribute of the class: it is the record of
    the calls made on the driver, kept to state what reached it. *)
Record Database : Type := mkDatabase {
  _connection : option connection;
  _in_transaction : bool;
  save_queries : bool;
  saved_queries : list (string * string * string);
  last_insert_id : pyval;
  last_query : pyval;
  last_error : string;
  _last_result : qresult;
  affected_rows : Z;
  queries_executed : Z;
  _time_start : option Z;
  _time_stop : option Z;
  _placeholder : string;
  wire : list event
}.

Definition set_connection (x : option connection) (db : Database) : Database :=
  mkDatabase x (_in_transaction db) (save_queries db) (saved_queries db)
    (last_insert_id db) (last_query db) (last_error db) (_last_result db)
    (affected_rows db) (queries_executed db) (_time_start db) (_time_stop db)
    (_placeholder db) (wire db) .

Definition set_in_transaction (x : bool) (db : Database) : Database :=
  mkDatabase (_connection db) x (save_queries db) (saved_queries db)
    (last_insert_id db) (last_query db) (last_error db) (_last_result db)
    (affected_rows db) (queries_executed db) (_time_start db) (_time_stop db)
    (_placeholder db) (wire db) .

Definition set_saved_queries (x : list (string * string * string))
           (db : Database) : Database :=
  mkDatabase (_connection db) (_in_transaction db) (save_queries db) x
    (last_insert_id db) (last_query db) (last_error db) (_last_result db)
    (affected_rows db) (queries_executed db) (_time_start db) (_time_stop db)
    (_placeholder db) (wire db) .

Definition set_last_insert_id (x : pyval) (db : Database) : Database :=
  mkDatabase (_connection db) (_in_transaction db) (save_queries db)
    (saved_queries db) x (last_query db) (last_error db) (_last_result db)
    (affected_rows db) (queries_executed db) (_time_start db) (_time_stop db)
    (_placeholder db) (wire db) .

Definition set_last_query (x : pyval) (db : Database) : Database :=
  mkDatabase (_connection db) (_in_transaction db) (save_queries db)
    (saved_queries db) (last_insert_id db) x (last_error db) (_last_result db)
    (affected_rows db) (queries_executed db) (_time_start db) (_time_stop db)
    (_placeholder db) (wire db) .

Definition set_last_result (x : qresult) (db : Database) : Database :=
  mkDatabase (_connection db) (_in_transaction db) (save_queries db)
    (saved_queries db) (last_insert_id db) (last_query db) (last_error db) x
    (affected_rows db) (queries_executed db) (_time_start db) (_time_stop db)
    (_placeholder db) (wire db) .

Definition set_affected_rows (x : Z) (db : Database) : Database :=
  mkDatabase (_connection db) (_in_transaction db) (save_queries db)
    (saved_queries db) (last_insert_id db) (last_query db) (last_error db)
    (_last_result db) x (queries_executed db) (_time_start db) (_time_stop db)
    (_placeholder db) (wire db) .

Definition set_queries_executed (x : Z) (db : Database) : Database :=
  mkDatabase (_connection db) (_in_transaction db) (save_queries db)
    (saved_queries db) (last_insert_id db) (last_query db) (last_error db)
    (_last_result db) (affected_rows db) x (_time_start db) (_time_stop db)
    (_placeholder db) (wire db) .

Definition set_time_start (x : option Z) (db : Database) : Database :=
  mkDatabase (_connection db) (_in_transaction db) (save_queries db)
    (saved_queries db) (last_insert_id db) (last_query db) (last_error db)
    (_last_result db) (affected_rows db) (queries_executed db) x
    (_time_stop db) (_placeholder db) (wire db) .

Definition set_time_stop (x : option Z) (db : Database) : Database :=
  mkDatabase (_connection db) (_in_transaction db) (save_queries db)
    (saved_queries db) (last_insert_id db) (last_query db) (last_error db)
    (_last_result db) (affected_rows db) (queries_executed db)
    (_time_start db) x (_placeholder db) (wire db) .

Definition set_wire (x : list event) (db : Database) : Database :=
  mkDatabase (_connection db) (_in_transaction db) (save_queries db)
    (saved_queries db) (last_insert_id db) (last_query db) (last_error db)
    (_last_result db) (affected_rows db) (queries_executed db)
    (_time_start db) (_time_stop db) (_placeholder db) x.

(** The attributes as [__init__] leaves them, before [connect()]. *)
Definition initial : Database :=
  mkDatabase None false false [] (VInt 0) VNone EmptyString QNone 0%Z 0%Z
             None None "%s" [].

(** ** The monad of methods

    A method takes the session and gives back its result, or the exception
    it raised, and the session as it then is. *)
Definition M (A : Type) : Type := Database -> outcome A * Database.

Definition ret {A : Type} (a : A) : M A := fun db => (Ret a, db).

Definition raise {A : Type} (e : exn) : M A := fun db => (Raise e, db).

Definition bind {A B : Type} (m : M A) (f : A -> M B) : M B :=
  fun db =>
    match m db with
    | (Ret a, db') => f a db'
    | (Raise e, db') => (Raise e, db')
    end.

Definition gets {A : Type} (f : Database -> A) : M A :=
  fun db => (Ret (f db), db).

Definition modify (f : Database -> Database) : M unit :=
  fun db => (Ret tt, f db).

(** [try: body  except <clause>: ...], where [handler] starts by evaluating
    the except clause. *)
Definition try_except {A : Type} (body : M A) (handler : exn -> M A) : M A :=
  fun db =>
    match body db with
    | (Ret a, db') => (Ret a, db')
    | (Raise e, db') => handler e db'
    end.

(** The answer of the driver to a call, lifted into a method. *)
Definition lift {A : Type} (o : outcome A) : M A :=
  match o with
  | Ret a => ret a
  | Raise e => raise e
  end.

Declare Scope py_scope.
Delimit Scope py_scope with py.
Notation "x <- m ;; k" := (bind m (fun x => k))
  (at level 61, m at next level, right associativity) : py_scope.
Notation "m ;; k" := (bind m (fun _ => k))
  (at level 61, right associativity) : py_scope.
Local Open Scope py_scope.

(** [when c m]: [if c: m] *)
Definition when (c : bool) (m : M unit) : M unit :=
  if c then m else ret tt.

(** One more call on the driver. *)
Definition emit (e : event) : M unit :=
  modify (fun db => set_wire (wire db ++ [e]) db).

(** ** Names

    The names bound at module level by the imports and the class
    statement, and the names of the builtins.  Python names are case
    sensitive. *)
Definition module_names : list string :=
  ["unicode_literals"; "print_function"; "absolute_import"; "with_statement";
   "os"; "inspect"; "codecs"; "ABCMeta"; "abstractmethod"; "timer";
   "warnings"; "logging"; "Munch"; "Record"; "RecordCollection";
   "parse_db_url"; "format_timedelta"; "preg_replace"; "str_replace";
   "force_unicode"; "numeric_types"; "Database"].

Definition builtin_names : list string :=
  ["ArithmeticError"; "AssertionError"; "AttributeError"; "BaseException";
   "BlockingIOError"; "BrokenPipeError"; "BufferError"; "BytesWarning";
   "ChildProcessError"; "ConnectionAbortedError"; "ConnectionError";
   "ConnectionRefusedError"; "ConnectionResetError"; "DeprecationWarning";
   "EOFError"; "Ellipsis"; "EnvironmentError"; "Exception"; "False";
   "FileExistsError"; "FileNotFoundError"; "FloatingPointError";
   "FutureWarning"; "GeneratorExit"; "IOError"; "ImportError";
   "ImportWarning"; "IndentationError"; "IndexError"; "InterruptedError";
   "IsADirectoryError"; "KeyError"; "KeyboardInterrupt"; "LookupError";
   "MemoryError"; "ModuleNotFoundError"; "NameError"; "None";
   "NotADirectoryError"; "NotImplemented"; "NotImplementedError"; "OSError";
   "OverflowError"; "PendingDeprecationWarning"; "PermissionError";
   "ProcessLookupError"; "RecursionError"; "ReferenceError";
   "ResourceWarning"; "RuntimeError"; "RuntimeWarning"; "StandardError";
   "StopAsyncIteration"; "StopIteration"; "SyntaxError"; "SyntaxWarning";
   "SystemError"; "SystemExit"; "TabError"; "TimeoutError"; "True";
   "TypeError"; "UnboundLocalError"; "UnicodeDecodeError";
   "UnicodeEncodeError"; "UnicodeError"; "UnicodeTranslateError";
   "UnicodeWarning"; "UserWarning"; "ValueError"; "Warning";
   "ZeroDivisionError"; "abs"; "all"; "any"; "ascii"; "bin"; "bool";
   "breakpoint"; "bytearray"; "bytes"; "callable"; "chr"; "classmethod";
   "compile"; "complex"; "copyright"; "credits"; "delattr"; "dict"; "dir";
   "divmod"; "enumerate"; "eval"; "exec"; "exit"; "filter"; "float";
   "format"; "frozenset"; "getattr"; "globals"; "hasattr"; "hash"; "help";
   "hex"; "id"; "input"; "int"; "isinstance"; "issubclass"; "iter"; "len";
   "license"; "list"; "locals"; "map"; "max"; "memoryview"; "min"; "next";
   "object"; "oct"; "open"; "ord"; "pow"; "print"; "property"; "quit";
   "range"; "repr"; "reversed"; "round"; "set"; "setattr"; "slice";
   "sorted"; "staticmethod"; "str"; "sum"; "super"; "tuple"; "type";
   "vars"; "zip"].

Definition bound_name (name : string) : bool :=
  existsb (String.eqb name) module_names
  || existsb (String.eqb name) builtin_names.

(** Evaluating a global name inside a method whose locals do not have
    it. *)
Definition load_name (name : string) : M unit :=
  if bound_name name then ret tt else raise (NameError name).

(* ================================================================== *)
(** * The methods of [Database] *)
(* ================================================================== *)

Section Methods.

Variable be : Backend.

(** ** Connection and cursors *)

(** Modelled from the spec: [_connect], the abstract hook a concrete
    backend supplies: it opens the connection of a session that has none
    and keeps the one of a session that has. *)
Definition _connect : M unit :=
  c <- gets _connection ;;
  match c with
  | Some _ => ret tt
  | None => emit EvConnect ;; modify (set_connection (Some Connection))
  end.

Definition connect : M unit := _connect.

(** [self._connection.cursor()]: cursors are numbered as they are opened. *)
Definition connection_cursor : M cursor :=
  c <- gets _connection ;;
  match c with
  | None => raise (AttributeError "'NoneType' object has no attribute 'cursor'")
  | Some _ =>
      w <- gets wire ;;
      let n := cursors_opened w in
      emit (EvCursor n) ;;
      ret (mkCursor n (-1) VNone)
  end.

(** [cursor.execute(sql, args)] *)
Definition cursor_execute (cur : cursor) (sql : string) (args : list pyval)
  : M cursor :=
  w <- gets wire ;;
  emit (EvExecute (cur_id cur) sql args) ;;
  meta <- lift (be_execute be w sql args) ;;
  ret (mkCursor (cur_id cur) (fst meta) (snd meta)).

(** [cursor.callproc(name, args)] *)
Definition cursor_callproc (cur : cursor) (name : string) (args : list pyval)
  : M cursor :=
  w <- gets wire ;;
  emit (EvCallproc (cur_id cur) name args) ;;
  meta <- lift (be_callproc be w name args) ;;
  ret (mkCursor (cur_id cur) (fst meta) (snd meta)).

(** [cursor.fetchall()] *)
Definition cursor_fetchall (cur : cursor) : M (option (list row)) :=
  w <- gets wire ;;
  emit (EvFetchall (cur_id cur)) ;;
  lift (be_fetchall be w).

(** [cursor.close()] *)
Definition cursor_close (cur : cursor) : M unit :=
  emit (EvCursorClose (cur_id cur)).

(** [cursor.mogrify(sql, args) if hasattr(cursor, 'mogrify') else sql] *)
Definition mogrify_or_sql (sql : string) (args : list pyval) : M string :=
  match be_mogrify be with
  | Some mogrify => lift (mogrify sql args)
  | None => ret sql
  end.

(** ** Timer *)

Definition timer_start : M unit :=
  w <- gets wire ;;
  modify (set_time_start (Some (be_timer be w))).

Definition timer_stop : M string :=
  w <- gets wire ;;
  modify (set_time_stop (Some (be_timer be w))) ;;
  start <- gets _time_start ;;
  match start with
  | Some t0 => ret (be_format_timedelta be (be_timer be w - t0))
  | None => raise (TypeError "unsupported operand type(s) for -")
  end.

(** ** [prepare] *)

Definition prepare (sql : option string) (args : list pyval)
  : M (option string) :=
  match sql with
  | None => ret None
  | Some sql =>
      connect ;;
      _ <- connection_cursor ;;
      placeholder <- gets _placeholder ;;
      let sql := Str.str_replace "'%s'" placeholder sql in
      let sql := Str.str_replace (quoted "%s") placeholder sql in
      let sql := Str.str_replace "%f" placeholder sql in
      let sql := Str.str_replace "%d" placeholder sql in
      let sql := Str.preg_replace_run "%" sql in
      let args := map (fun x => if is_numeric x then x else x) args in
      if Nat.eqb (List.length args) 0 then ret (Some sql)
      else
        clean_sql <- mogrify_or_sql sql args ;;
        ret (Some clean_sql)
  end.

(** ** [query]

    [prepare] gives [None] for a [None] template only, so the branch for
    it below is never taken.  The except clause of the fetch names
    [exception]; the body under it is not reached. *)

Definition query (sql : string) (args : list pyval) (proc one : bool)
  : M qresult :=
  connect ;;
  cur <- connection_cursor ;;
  cur <- (if proc then
            cur <- cursor_callproc cur sql args ;;
            modify (set_last_query
                      (VStr (sql ++ Str.join ", " (map py_str args)))) ;;
            ret cur
          else
            prepared <- prepare (Some sql) [] ;;
            match prepared with
            | None => raise (TypeError "prepare returned None")
            | Some sql =>
                shown <- mogrify_or_sql sql args ;;
                modify (set_last_query (VStr shown)) ;;
                saving <- gets save_queries ;;
                when saving timer_start ;;
                cur <- cursor_execute cur sql args ;;
                when saving
                  (elapsed_time <- timer_stop ;;
                   let caller := be_caller be in
                   let query_to_save :=
                     (shown, elapsed_time,
                      ("file " ++ fst caller ++ ", function "
                       ++ snd caller)%string) in
                   modify (fun db =>
                     set_saved_queries (saved_queries db ++ [query_to_save])
                                       db)) ;;
                modify (fun db =>
                  set_queries_executed (queries_executed db + 1)%Z db) ;;
                ret cur
            end) ;;
  modify (set_affected_rows (rowcount cur)) ;;
  modify (set_last_insert_id (lastrowid cur)) ;;
  rv <- try_except (cursor_fetchall cur)
                   (fun _ => load_name "exception" ;; ret None) ;;
  cursor_close cur ;;
  match rv with
  | None => ret QNone
  | Some rv =>
      let results : RecordCollection := map record_of_row rv in
      let last := if one then
                    match first results with
                    | Some r => QRecord r
                    | None => QNone
                    end
                  else QRecords results in
      modify (set_last_result last) ;;
      gets _last_result
  end.

Definition query_one (sql : string) (args : list pyval) : M qresult :=
  try_except (query sql args false true)
             (fun e => match e with
                       | IndexError => ret QNone
                       | _ => raise e
                       end).

Definition call_procedure (procedure : string) (args : list pyval)
  : M qresult :=
  query procedure args true false.

(** ** Shaped retrieval *)

(** Modelled from the spec: [rows[row_offset]], the positional indexing
    of [RecordCollection] in [ezrecords/records.py], which is not among
    the sources; a position past the last row is an [IndexError].  [query]
    without [one=True] returns [None] or a collection, never a single
    record. *)
Definition getitem (rows : qresult) (row_offset : nat) : M record :=
  match rows with
  | QNone => raise (TypeError "'NoneType' object is not subscriptable")
  | QRecord _ => raise (TypeError "a single record is not a collection")
  | QRecords rs =>
      match nth_error rs row_offset with
      | Some r => ret r
      | None => raise IndexError
      end
  end.

Definition get_row (query_ : string) (output_type : string)
           (row_offset : nat) : M (option shaped) :=
  rows <- query query_ [] false false ;;
  row <- getitem rows row_offset ;;
  if String.eqb output_type "record" then ret (Some (ShRecord row))
  else if String.eqb output_type "dict" then
         ret (Some (ShDict (as_dict row)))
  else if String.eqb output_type "dataset" then ret (Some (ShDataset row))
  else if String.eqb output_type "object" then
         ret (Some (fromDict (ShAsDictMethod row)))
  else ret None.

(** One turn of the loop of [get_results]. *)
Definition results_step (output_type : string) (output_rows : list shaped)
           (row : record) : list shaped :=
  if String.eqb output_type "record" then output_rows ++ [ShRecord row]
  else if String.eqb output_type "dict" then
         output_rows ++ [ShDict (as_dict row)]
  else if String.eqb output_type "dataset" then output_rows ++ [ShDataset row]
  else if String.eqb output_type "object" then
         output_rows ++ [fromDict (ShAsDictMethod row)]
  else output_rows.

Definition get_results (query_ : string) (output_type : string)
  : M (list shaped) :=
  rows <- query query_ [] false false ;;
  match rows with
  | QNone => raise (TypeError "'NoneType' object is not iterable")
  | QRecord _ => raise (TypeError "a single record is not a collection")
  | QRecords rs => ret (fold_left (results_step output_type) rs [])
  end.

(** ** SQL builders

    A format string applied with [%] to strings is written as the
    concatenation it produces. *)

Definition insert (table : string) (data : option dict) (kwargs : dict)
  : M Z :=
  let kwargs := match data with
                | Some data => dict_update kwargs data
                | None => kwargs
                end in
  let values := map snd kwargs in
  placeholder <- gets _placeholder ;;
  let sql := ("INSERT INTO " ++ table
              ++ " (" ++ Str.join ", " (map fst kwargs)
              ++ ") VALUES ("
              ++ Str.join ", " (repeat placeholder (List.length values))
              ++ ")")%string in
  _ <- query sql values false false ;;
  gets affected_rows.

Definition bulk_insert (table : string) (columns : list string)
           (values : list (list pyval)) : M Z :=
  placeholder <- gets _placeholder ;;
  let single_values :=
    ("(" ++ Str.join ", " (repeat placeholder (List.length columns))
     ++ ")")%string in
  let sql := ("INSERT INTO " ++ table
              ++ " (" ++ Str.join ", " columns
              ++ ") VALUES "
              ++ Str.join ", " (repeat single_values (List.length values)))
             %string in
  let all_values :=
    fold_left (fun all_values value => all_values ++ value) values [] in
  _ <- query sql all_values false false ;;
  gets affected_rows.

(** One turn of the loop over the WHERE items, in [delete] and in
    [update]: a [None] value appends an [IS NULL] test and goes on to the
    next item, any other value appends an equals test and its value. *)
Definition where_step (placeholder : string)
           (acc : list string * list pyval) (item : string * pyval)
  : list string * list pyval :=
  let '(conditions, values) := acc in
  let '(field, value) := item in
  if is_none value then
    (conditions ++ [(quoted field ++ " IS NULL")%string], values)
  else
    (conditions ++ [(quoted field ++ " = " ++ placeholder)%string],
     values ++ [value]).

(** One turn of the loop over the data items of [update]. *)
Definition set_step (placeholder : string)
           (acc : list string * list pyval) (item : string * pyval)
  : list string * list pyval :=
  let '(fields, values) := acc in
  let '(field, value) := item in
  if is_none value then
    (fields ++ [(quoted field ++ " = NULL")%string], values)
  else
    (fields ++ [(quoted field ++ " = " ++ placeholder)%string],
     values ++ [value]).

(** [bool(s)] of a string *)
Definition nonempty (s : string) : bool :=
  match s with
  | EmptyString => false
  | String _ _ => true
  end.

(** The statement and the arguments [delete] hands to [query]. *)
Definition delete_statement (placeholder table : string)
           (where_ : option dict) (kwargs : dict) : string * list pyval :=
  let kwargs := match where_ with
                | Some where_ => dict_update kwargs where_
                | None => kwargs
                end in
  let '(conditions, values) :=
    fold_left (where_step placeholder) kwargs ([], []) in
  let conditions := Str.join " AND" conditions in
  let sql := ("DELETE FROM " ++ quoted table ++ " ")%string in
  let sql := if nonempty conditions
             then (sql ++ " WHERE " ++ conditions)%string
             else sql in
  (sql, values).

Definition delete (table : string) (where_ : option dict) (kwargs : dict)
  : M Z :=
  placeholder <- gets _placeholder ;;
  let '(sql, values) := delete_statement placeholder table where_ kwargs in
  _ <- query sql values false false ;;
  gets affected_rows.

(** The statement and the arguments [update] hands to [query]. *)
Definition update_statement (placeholder table : string)
           (data where_ : dict) : string * list pyval :=
  let '(fields, values) :=
    fold_left (set_step placeholder) data ([], []) in
  let '(conditions, values) :=
    fold_left (where_step placeholder) where_ ([], values) in
  let fields := Str.join ", " fields in
  let conditions := Str.join " AND " conditions in
  let sql := ("UPDATE " ++ quoted table ++ " SET " ++ fields
              ++ " WHERE " ++ conditions)%string in
  (sql, values).

Definition update (table : string) (data where_ : pyobj) : M pyval :=
  if negb (is_dict data) || negb (is_dict where_) then ret (VBool false)
  else
    placeholder <- gets _placeholder ;;
    let '(sql, values) :=
      update_statement placeholder table (items data) (items where_) in
    _ <- query sql values false false ;;
    n <- gets affected_rows ;;
    ret (VInt n).

(** ** Transactions *)

(** [self._connection is None] *)
Definition no_connection (c : option connection) : bool :=
  match c with
  | None => true
  | Some _ => false
  end.

Definition begin_transaction : M unit :=
  c <- gets _connection ;;
  if no_connection c then
    raise (RuntimeError
      "Cannot BEGIN/START TRANSACTION on no connection. Connect first.")
  else
    w <- gets wire ;;
    emit EvBegin ;;
    lift (be_begin be w) ;;
    modify (set_in_transaction true).

Definition rollback : M unit :=
  c <- gets _connection ;;
  in_tx <- gets _in_transaction ;;
  if no_connection c || negb in_tx then
    raise (RuntimeError "Cannot ROLLBACK. There's no current connection")
  else
    w <- gets wire ;;
    emit EvRollback ;;
    lift (be_rollback be w) ;;
    modify (set_in_transaction false).

Definition commit : M unit :=
  c <- gets _connection ;;
  if no_connection c then
    raise (RuntimeError "Cannot COMMIT. There's no current connection.")
  else
    w <- gets wire ;;
    emit EvCommit ;;
    lift (be_commit be w) ;;
    modify (set_in_transaction false).

(** The [in_transaction] property. *)
Definition in_transaction (db : Database) : bool := _in_transaction db.

End Methods.

(* ================================================================== *)
(** * The specification's words *)
(* ================================================================== *)

(** The five rules of the placeholder normalizer, in the order the
    specification gives them, and their application one after the other
    over the whole template. *)
Definition normalizer_rules (marker : string) : list (string -> string) :=
  [Str.str_replace "'%s'" marker;
   Str.str_replace (quoted "%s") marker;
   Str.str_replace "%f" marker;
   Str.str_replace "%d" marker;
   Str.preg_replace_run "%"].

Definition apply_rules (rules : list (string -> string)) (template : string)
  : string :=
  fold_left (fun text rule => rule text) rules template.

Definition normalize (marker template : string) : string :=
  apply_rules (normalizer_rules marker) template.

(** The legacy markers that rules 1 to 4 rewrite. *)
Definition legacy_markers : list string :=
  ["'%s'"; quoted "%s"; "%f"; "%d"].

(** The statement text as it is recorded: what [mogrify] makes of it where
    the cursor has one. *)
Definition shown_text (be : Backend) (sql : string) (args : list pyval)
  : outcome string :=
  match be_mogrify be with
  | Some mogrify => mogrify sql args
  | None => Ret sql
  end.

(** The session once a connection is ensured. *)
Definition after_connect (db : Database) : Database :=
  match _connection db with
  | Some _ => db
  | None => set_connection (Some Connection)
                           (set_wire (wire db ++ [EvConnect]) db)
  end.

(** What the driver has seen when a plain statement reaches it: the
    connection, the cursor of [query] and the cursor of [prepare]. *)
Definition wire_before_execute (db : Database) : list event :=
  let n := cursors_opened (wire db) in
  wire (after_connect db) ++ [EvCursor n; EvCursor (S n)].

(** What the driver has seen when a procedure call reaches it. *)
Definition wire_before_callproc (db : Database) : list event :=
  wire (after_connect db) ++ [EvCursor (cursors_opened (wire db))].

(** What [query] returns for the rows fetched. *)
Definition result_of (one : bool) (rv : option (list row)) : qresult :=
  match rv with
  | None => QNone
  | Some rv =>
      if one then
        match first (map record_of_row rv) with
        | Some r => QRecord r
        | None => QNone
        end
      else QRecords (map record_of_row rv)
  end.

(** One entry of a SET clause and of a WHERE clause. *)
Definition set_clause (marker : string) (item : string * pyval) : string :=
  if is_none (snd item) then (quoted (fst item) ++ " = NULL")%string
  else (quoted (fst item) ++ " = " ++ marker)%string.

Definition where_clause (marker : string) (item : string * pyval) : string :=
  if is_none (snd item) then (quoted (fst item) ++ " IS NULL")%string
  else (quoted (fst item) ++ " = " ++ marker)%string.

(** The values of a mapping that are bound: all but [None]. *)
Definition bound (d : dict) : list pyval :=
  filter (fun v => negb (is_none v)) (map snd d).

(** The four shapes [get_row] and [get_results] document. *)
Definition known_shape (output_type : string) : bool :=
  existsb (String.eqb output_type) ["record"; "dict"; "dataset"; "object"].

(* ================================================================== *)
(** * Sample backends *)
(* ================================================================== *)

(** The statement or procedure the driver was last asked to run. *)
Fixpoint last_statement (w : list event) : option string :=
  match w with
  | [] => None
  | e :: rest =>
      match last_statement rest with
      | Some s => Some s
      | None =>
          match e with
          | EvExecute _ sql _ => Some sql
          | EvCallproc _ name _ => Some name
          | _ => None
          end
      end
  end.

Definition two_rows : list row :=
  [[("id", VInt 1); ("name", VStr "ann")];
   [("id", VInt 2); ("name", VStr "bob")]].

(** A driver in the manner of the MySQL ones: no [mogrify]; a statement
    that is not a SELECT reports one row per bound argument and fetches as
    an empty sequence. *)
Definition plain_backend : Backend :=
  mkBackend
    None
    (fun _ sql args =>
       if prefix "SELECT" sql then Ret (2%Z, VNone)
       else Ret (Z.of_nat (List.length args), VInt 7))
    (fun _ _ _ => Ret (0%Z, VNone))
    (fun w =>
       match last_statement w with
       | Some sql => if prefix "SELECT" sql then Ret (Some two_rows)
                     else Ret (Some [])
       | None => Ret (Some [])
       end)
    (fun _ => Ret tt) (fun _ => Ret tt) (fun _ => Ret tt)
    (fun w => Z.of_nat (List.length w))
    (fun d => NilZero.string_of_int (Z.to_int d))
    ("app.py", "main").

(** A driver in the manner of psycopg2: [mogrify] is there, and fetching
    from a statement that produced no result set is an error. *)
Definition strict_backend : Backend :=
  mkBackend
    (Some (fun sql _ => Ret sql))
    (fun _ sql args =>
       if prefix "SELECT" sql then Ret (2%Z, VNone)
       else Ret (1%Z, VNone))
    (fun _ _ _ => Ret (0%Z, VNone))
    (fun w =>
       match last_statement w with
       | Some sql => if prefix "SELECT" sql then Ret (Some two_rows)
                     else Raise (DriverError "no results to fetch")
       | None => Raise (DriverError "no results to fetch")
       end)
    (fun _ => Ret tt) (fun _ => Ret tt) (fun _ => Ret tt)
    (fun w => Z.of_nat (List.length w))
    (fun d => NilZero.string_of_int (Z.to_int d))
    ("app.py", "main").

(** A session that is connected, as the constructor leaves it. *)
Definition connected : Database :=
  set_connection (Some Connection) (set_wire [EvConnect] initial).


(** A session with the log switched on that holds the result of an
    earlier query. *)
Definition saving_session : Database :=
  mkDatabase (Some Connection) false true [] (VInt 0) VNone EmptyString
             (QRecords [mkRecord ["x"] [VInt 1]]) 0%Z 0%Z None None "%s"
             [EvConnect].

(** A driver that refuses every statement. *)
Definition refusing_backend : Backend :=
  mkBackend
    None
    (fun _ _ _ => Raise (DriverError "syntax error"))
    (fun _ _ _ => Raise (DriverError "no such procedure"))
    (fun _ => Ret None)
    (fun _ => Raise (DriverError "connection lost"))
    (fun _ => Raise (DriverError "connection lost"))
    (fun _ => Raise (DriverError "connection lost"))
    (fun w => Z.of_nat (List.length w))
    (fun d => NilZero.string_of_int (Z.to_int d))
    ("app.py", "main").

(** A driver whose [fetchall] gives [None] for a statement without a
    result set. *)
Definition silent_backend : Backend :=
  mkBackend
    None
    (fun _ sql args =>
       if prefix "SELECT" sql then Ret (2%Z, VNone) else Ret (1%Z, VNone))
    (fun _ _ _ => Ret (0%Z, VNone))
    (fun w =>
       match last_statement w with
       | Some sql => if prefix "SELECT" sql then Ret (Some two_rows)
                     else Ret None
       | None => Ret None
       end)
    (fun _ => Ret tt) (fun _ => Ret tt) (fun _ => Ret tt)
    (fun w => Z.of_nat (List.length w))
    (fun d => NilZero.string_of_int (Z.to_int d))
    ("app.py", "main").

(** A driver in front of tables that hold no rows: every statement runs
    and fetches as an empty sequence. *)
Definition empty_backend : Backend :=
  mkBackend
    None
    (fun _ _ _ => Ret (0%Z, VNone))
    (fun _ _ _ => Ret (0%Z, VNone))
    (fun _ => Ret (Some []))
    (fun _ => Ret tt) (fun _ => Ret tt) (fun _ => Ret tt)
    (fun w => Z.of_nat (List.length w))
    (fun d => NilZero.string_of_int (Z.to_int d))
    ("app.py", "main").

(* ================================================================== *)
(** * Further methods of [Database] *)
(* ================================================================== *)

Definition set_last_error (x : string) (db : Database) : Database :=
  mkDatabase (_connection db) (_in_transaction db) (save_queries db)
    (saved_queries db) (last_insert_id db) (last_query db) x
    (_last_result db) (affected_rows db) (queries_executed db)
    (_time_start db) (_time_stop db) (_placeholder db) (wire db).

(** [for x in l: ... f(x) ...], collecting the results; the first failure
    ends the loop. *)
Fixpoint map_m {A B : Type} (f : A -> M B) (l : list A) : M (list B) :=
  match l with
  | [] => ret []
  | x :: rest =>
      y <- f x ;;
      ys <- map_m f rest ;;
      ret (y :: ys)
  end.

(** Modelled from the spec: [record[column_offset]], the lookup by
    position of [Record] in [ezrecords/records.py], which is not among the
    sources; a position past the last column is an [IndexError]. *)
Definition record_getitem (r : record) (column_offset : nat) : M pyval :=
  match nth_error (rec_values r) column_offset with
  | Some v => ret v
  | None => raise IndexError
  end.

(** The digits and the dot. *)
Definition is_version_char (c : ascii) : bool :=
  let n := nat_of_ascii c in
  (Nat.leb 48 n && Nat.leb n 57) || Nat.eqb n 46.

(** Number of characters before the next line feed: what [.*] takes. *)
Fixpoint line_length (s : string) : nat :=
  match s with
  | EmptyString => O
  | String c t => if Ascii.eqb c "010"%char then O else S (line_length t)
  end.

(** The match of the pattern [[^0-9.].*] at the head of [s]: one character
    that is neither a digit nor a dot, and the rest of its line. *)
Definition junk_to_eol (s : string) : option nat :=
  match s with
  | EmptyString => None
  | String c t =>
      if is_version_char c then None else Some (S (line_length t))
  end.

(** Modelled from the spec: [preg_replace(pattern, replacement, subject)]
    of [ezrecords/util.py], which is not among the sources, at the pattern
    and replacement [db_version] calls it with, [[^0-9.].*] and the empty
    string. *)
Definition preg_replace_junk (subject : string) : string :=
  Str.scan_from junk_to_eol EmptyString 0 subject.

(** [s] up to its first character that [keep] rejects. *)
Fixpoint take_while (keep : ascii -> bool) (s : string) : string :=
  match s with
  | EmptyString => EmptyString
  | String c t => if keep c then String c (take_while keep t)
                  else EmptyString
  end.

(** Every character of [s] passes [keep]. *)
Fixpoint all_chars (keep : ascii -> bool) (s : string) : bool :=
  match s with
  | EmptyString => true
  | String c t => keep c && all_chars keep t
  end.

(** [s] has no percent sign. *)
Definition percent_free (s : string) : bool :=
  all_chars (fun c => negb (Ascii.eqb c "%"%char)) s.

Section MoreMethods.

Variable be : Backend.

Definition get_var (query_ : string) (column_offset row_offset : nat)
  : M pyval :=
  rows <- query be query_ [] false false ;;
  row <- getitem rows row_offset ;;
  record_getitem row column_offset.

Definition get_col (query_ : string) (column_offset : nat)
  : M (list pyval) :=
  rows <- query be query_ [] false false ;;
  match rows with
  | QNone => raise (TypeError "'NoneType' object is not iterable")
  | QRecord _ => raise (TypeError "a single record is not a collection")
  | QRecords rs => map_m (fun x => record_getitem x column_offset) rs
  end.

(** [db_version], over the abstract hook [_db_version] that a backend
    supplies. *)
Definition db_version (_db_version : M string) : M string :=
  version <- _db_version ;;
  let version := preg_replace_junk version in
  ret version.

Definition flush : M unit :=
  modify (set_last_error EmptyString) ;;
  modify (set_affected_rows 0%Z) ;;
  modify (set_last_query (VInt 0)) ;;
  modify (set_queries_executed 0%Z) ;;
  modify (set_saved_queries []).

(** The [last_query_elapsed_time] property. *)
Definition last_query_elapsed_time : M string :=
  stop <- gets _time_stop ;;
  start <- gets _time_start ;;
  match stop, start with
  | Some t1, Some t0 => ret (be_format_timedelta be (t1 - t0))
  | _, _ => raise (TypeError "unsupported operand type(s) for -")
  end.

(** ** Sequences of calls

    A caller that goes on after an exception: each call is run on the
    session the one before it left. *)
Inductive call : Type :=
| CallBegin
| CallCommit
| CallRollback
| CallQuery (sql : string) (args : list pyval) (proc one : bool)
| CallInsert (table : string) (data : option dict) (kwargs : dict)
| CallBulkInsert (table : string) (columns : list string)
                 (values : list (list pyval))
| CallDelete (table : string) (where_ : option dict) (kwargs : dict)
| CallUpdate (table : string) (data where_ : pyobj)
| CallGetRow (sql output_type : string) (row_offset : nat)
| CallGetResults (sql output_type : string)
| CallFlush.

Definition run_call (c : call) (db : Database) : Database :=
  match c with
  | CallBegin => snd (begin_transaction be db)
  | CallCommit => snd (commit be db)
  | CallRollback => snd (rollback be db)
  | CallQuery sql args proc one => snd (query be sql args proc one db)
  | CallInsert table data kwargs => snd (insert be table data kwargs db)
  | CallBulkInsert table columns values =>
      snd (bulk_insert be table columns values db)
  | CallDelete table where_ kwargs => snd (delete be table where_ kwargs db)
  | CallUpdate table data where_ => snd (update be table data where_ db)
  | CallGetRow sql output_type row_offset =>
      snd (get_row be sql output_type row_offset db)
  | CallGetResults sql output_type => snd (get_results be sql output_type db)
  | CallFlush => snd (flush db)
  end.

Definition run_calls (calls : list call) (db : Database) : Database :=
  fold_left (fun db c => run_call c db) calls db.

(** The statements of a list run one after the other through [query], as
    long as none fails. *)
Fixpoint query_all (statements : list (string * list pyval)) : M unit :=
  match statements with
  | [] => ret tt
  | (sql, args) :: rest =>
      _ <- query be sql args false false ;;
      query_all rest
  end.

End MoreMethods.

(** What the code makes of a row for one of the four documented output
    types.  For ['object'] the code hands [Munch.fromDict] the method
    [row.as_dict] where the ['dict'] branch calls it, so the row comes
    back as that method and not as an object with the columns as
    attributes. *)
Definition shaped_as (output_type : string) (row : record) : shaped :=
  if String.eqb output_type "record" then ShRecord row
  else if String.eqb output_type "dict" then ShDict (as_dict row)
  else if String.eqb output_type "dataset" then ShDataset row
  else ShAsDictMethod row.

(** The single and the double quote. *)
Definition is_quote (c : ascii) : bool :=
  Ascii.eqb c "'"%char || Ascii.eqb c "034"%char.

Definition starts_with_quote (s : string) : bool :=
  match s with
  | EmptyString => false
  | String c _ => is_quote c
  end.

(** Every percent sign of [s] opens a marker [%s] that no quote follows. *)
Fixpoint bare_markers_only (s : string) : bool :=
  match s with
  | EmptyString => true
  | String c t =>
      (if Ascii.eqb c "%"%char then
         match t with
         | EmptyString => false
         | String d u => Ascii.eqb d "s"%char && negb (starts_with_quote u)
         end
       else true)
      && bare_markers_only t
  end.

(** The statements the four builders hand to [query], for the marker
    [%s]. *)
Definition insert_sql (table : string) (columns : list string) : string :=
  ("INSERT INTO " ++ table
   ++ " (" ++ Str.join ", " columns
   ++ ") VALUES ("
   ++ Str.join ", " (repeat "%s" (List.length columns))
   ++ ")")%string.

Definition bulk_insert_sql (table : string) (columns : list string)
           (rows : nat) : string :=
  ("INSERT INTO " ++ table
   ++ " (" ++ Str.join ", " columns
   ++ ") VALUES "
   ++ Str.join ", "
        (repeat ("(" ++ Str.join ", " (repeat "%s" (List.length columns))
                 ++ ")")%string rows))%string.

Definition update_sql (table : string) (data where_ : dict) : string :=
  ("UPDATE " ++ quoted table
   ++ " SET " ++ Str.join ", " (map (set_clause "%s") data)
   ++ " WHERE " ++ Str.join " AND " (map (where_clause "%s") where_))
  %string.

Definition delete_sql (table : string) (conditions : dict) : string :=
  let clauses := Str.join " AND" (map (where_clause "%s") conditions) in
  if nonempty clauses
  then ("DELETE FROM " ++ quoted table ++ "  WHERE " ++ clauses)%string
  else ("DELETE FROM " ++ quoted table ++ " ")%string.

(** The identifiers of a statement have no percent sign. *)
Definition plain_names (names : list string) : bool :=
  forallb percent_free names.

(** A driver that never fails. *)
Definition cooperative (be : Backend) : Prop :=
  (forall w sql args, exists meta, be_execute be w sql args = Ret meta)
  /\ (forall w, exists rv, be_fetchall be w = Ret rv)
  /\ (forall mogrify sql args,
        be_mogrify be = Some mogrify ->
        exists shown, mogrify sql args = Ret shown).

(** The session keeps its flag and its connection in step: a transaction
    is open only on a live connection. *)
Definition flag_needs_connection (db : Database) : Prop :=
  _in_transaction db = true -> _connection db <> None.

(* ================================================================== *)
(** * Properties of the string operations *)
(* ================================================================== *)

Module StrFacts.
Import Str.

Example str_replace_tokens :
  str_replace "%d" "%s" "a=%d, b=%d" = "a=%s, b=%s".
Proof. reflexivity. Qed.

Example str_replace_leftmost :
  str_replace "'%s'" "%s" "x='%s'%s'" = "x=%s%s'".
Proof. reflexivity. Qed.

Example str_replace_empty_search : str_replace EmptyString "-" "abc" = "-a-b-c-".
Proof. reflexivity. Qed.

Example split_tokens : split "%d" "a=%d, b=%d" = ["a="; ", b="; EmptyString].
Proof. reflexivity. Qed.

Example preg_replace_runs :
  preg_replace_run "%" "a%%%b%c%%" = "a%b%c%".
Proof. reflexivity. Qed.

(** The rules run in their order: the quotes around a marker written with
    an escaped [%] are still there after the run has been collapsed. *)
Example rules_in_order : normalize "%s" "a = '%%s'" = "a = '%s'".
Proof. reflexivity. Qed.

Lemma append_empty_r (s : string) : (s ++ EmptyString)%string = s.
Proof. induction s as [|c s IH]; simpl; [reflexivity | now rewrite IH]. Qed.

Lemma append_assoc (a b c : string) :
  ((a ++ b) ++ c)%string = (a ++ (b ++ c))%string.
Proof. induction a as [|x a IH]; simpl; [reflexivity | now rewrite IH]. Qed.

Lemma drop_0 (s : string) : drop 0 s = s.
Proof. destruct s; reflexivity. Qed.

Lemma drop_empty (n : nat) : drop n EmptyString = EmptyString.
Proof. destruct n; reflexivity. Qed.

Lemma drop_app (a b : string) : drop (String.length a) (a ++ b) = b.
Proof. induction a as [|x a IH]; simpl; [apply drop_0 | exact IH]. Qed.

Lemma drop_app_le (k : nat) (a b : string) :
  k <= String.length a -> drop k (a ++ b) = (drop k a ++ b)%string.
Proof.
  revert k; induction a as [|x a IH]; intros [|k] Hk; simpl in *;
    try reflexivity; try lia.
  apply IH; lia.
Qed.

Lemma drop_length_le (k : nat) (s : string) :
  String.length (drop k s) <= String.length s.
Proof.
  revert k; induction s as [|x s IH]; intros [|k]; simpl; try lia.
  specialize (IH k); lia.
Qed.

(** ** Prefixes *)

Lemma prefix_split (p s : string) :
  prefix p s = true -> (p ++ drop (String.length p) s)%string = s.
Proof.
  revert s; induction p as [|x p IH]; intros s H; simpl.
  - apply drop_0.
  - destruct s as [|y s]; simpl in H; [discriminate|].
    destruct (ascii_dec x y) as [->|]; [|discriminate].
    simpl. now rewrite IH.
Qed.

Lemma prefix_app (p s : string) : prefix p (p ++ s) = true.
Proof.
  induction p as [|x p IH]; simpl; [now destruct s|].
  destruct (ascii_dec x x); [exact IH | congruence].
Qed.

Lemma prefix_weaken (p a b : string) :
  prefix p a = true -> prefix p (a ++ b) = true.
Proof.
  revert a; induction p as [|x p IH]; intros a H; simpl.
  - now destruct (a ++ b)%string.
  - destruct a as [|y a]; simpl in H; [discriminate|].
    simpl. destruct (ascii_dec x y); [now apply IH | discriminate].
Qed.

Lemma prefix_cons_empty (x : ascii) (p : string) :
  prefix (String x p) EmptyString = false.
Proof. reflexivity. Qed.

Lemma contains_cons (needle : string) (c : ascii) (s : string) :
  contains needle (String c s)
  = prefix needle (String c s) || contains needle s.
Proof. reflexivity. Qed.

(** ** Joining *)

Lemma join_cons (sep p : string) (q : string) (rest : list string) :
  join sep (p :: q :: rest) = (p ++ sep ++ join sep (q :: rest))%string.
Proof. reflexivity. Qed.

Lemma join_push (sep : string) (c : ascii) (p : string) (ps : list string) :
  join sep (String c p :: ps) = String c (join sep (p :: ps)).
Proof. destruct ps; reflexivity. Qed.

Lemma join_head (sep p : string) (ps : list string) :
  exists rest, join sep (p :: ps) = (p ++ rest)%string.
Proof.
  destruct ps as [|q ps].
  - exists EmptyString. simpl. now rewrite append_empty_r.
  - eexists. apply join_cons.
Qed.

(** ** The scan *)

Section Scan.

Variable m : string -> option nat.
Variable repl : string.

Lemma scan_from_drop (s : string) :
  forall k, scan_from m repl k s = scan_from m repl 0 (drop k s).
Proof.
  induction s as [|c t IH]; intros [|k]; try reflexivity.
  simpl scan_from at 1. simpl drop. apply IH.
Qed.

(** The two equations of the scan at a character. *)
Lemma scan_match (c : ascii) (t : string) (k : nat) :
  m (String c t) = Some (S k) ->
  scan_from m repl 0 (String c t)
  = (repl ++ scan_from m repl 0 (drop k t))%string.
Proof.
  intros H. simpl. rewrite H. now rewrite scan_from_drop.
Qed.

Lemma scan_nomatch (c : ascii) (t : string) :
  m (String c t) = None ->
  scan_from m repl 0 (String c t) = String c (scan_from m repl 0 t).
Proof. intros H. simpl. now rewrite H. Qed.

End Scan.

(** ** Replacing a literal *)

Section Literal.

Variable tok : string.
Hypothesis tok_nonempty : tok <> EmptyString.

Lemma literal_match (s : string) (k : nat) :
  literal tok s = Some k -> prefix tok s = true /\ k = String.length tok.
Proof.
  unfold literal. destruct (prefix tok s); [|discriminate].
  intros [= <-]. now split.
Qed.

Lemma literal_nomatch (s : string) :
  literal tok s = None -> prefix tok s = false.
Proof. unfold literal. now destruct (prefix tok s). Qed.

Lemma literal_positive (s : string) : literal tok s <> Some 0.
Proof.
  intros H. apply literal_match in H as [_ H].
  destruct tok; [now apply tok_nonempty | discriminate].
Qed.

Lemma contains_empty : contains tok EmptyString = false.
Proof.
  destruct tok as [|x p]; [now elim tok_nonempty|]. reflexivity.
Qed.

(** What the scan and its pieces have to do with each other, whatever
    is left of a match to skip. *)
Lemma pieces_spec (new s : string) :
  forall skip,
    let '(p, ps) := pieces_from (literal tok) skip s in
    join tok (p :: ps) = drop skip s
    /\ scan_from (literal tok) new skip s = join new (p :: ps)
    /\ Forall (fun piece => contains tok piece = false) (p :: ps).
Proof.
  induction s as [|c t IH]; intros skip.
  - simpl. rewrite drop_empty. repeat split.
    repeat constructor. apply contains_empty.
  - destruct skip as [|skip].
    + simpl pieces_from. simpl scan_from.
      destruct (literal tok (String c t)) as [[|k]|] eqn:E.
      * now apply literal_positive in E.
      * apply literal_match in E as [Hp Hk].
        specialize (IH k).
        destruct (pieces_from (literal tok) k t) as [p ps].
        destruct IH as (Hj & Hs & Hf).
        repeat split.
        -- rewrite join_cons, Hj. simpl.
           apply prefix_split in Hp. rewrite <- Hk in Hp. exact Hp.
        -- rewrite join_cons, Hs. reflexivity.
        -- constructor; [apply contains_empty | exact Hf].
      * apply literal_nomatch in E.
        specialize (IH 0).
        destruct (pieces_from (literal tok) 0 t) as [p ps].
        destruct IH as (Hj & Hs & Hf).
        rewrite drop_0 in Hj.
        repeat split.
        -- rewrite join_push, Hj. reflexivity.
        -- rewrite join_push, Hs. reflexivity.
        -- inversion Hf as [|? ? Hp Hps]; subst.
           constructor; [|exact Hps].
           rewrite contains_cons, Hp, orb_false_r.
           destruct (prefix tok (String c p)) eqn:Hpre; [|reflexivity].
           destruct (join_head tok p ps) as [rest Hrest].
           apply (prefix_weaken _ _ rest) in Hpre.
           change (String c p ++ rest)%string with (String c (p ++ rest))
             in Hpre.
           rewrite <- Hrest in Hpre. congruence.
    + simpl pieces_from. simpl scan_from. simpl drop. apply IH.
Qed.

(** [replace] is [join] after [split]; [split] loses nothing and leaves
    no occurrence inside a piece. *)
Lemma str_replace_split (new s : string) :
  str_replace tok new s = join new (split tok s)
  /\ join tok (split tok s) = s
  /\ Forall (fun piece => contains tok piece = false) (split tok s).
Proof.
  pose proof (pieces_spec new s 0) as H.
  unfold str_replace, split.
  destruct tok as [|x p] eqn:Et; [now elim tok_nonempty|]. rewrite <- Et in *.
  destruct (pieces_from (literal tok) 0 s) as [q qs].
  destruct H as (Hj & Hs & Hf). rewrite drop_0 in Hj. now repeat split.
Qed.

End Literal.

(** ** Collapsing runs *)

Section Runs.

Variable c : ascii.

Let cc : string := String c (String c EmptyString).

Lemma length_replicate (n : nat) : String.length (replicate n c) = n.
Proof. induction n as [|n IH]; simpl; [reflexivity | now rewrite IH]. Qed.

Lemma leading_replicate (n : nat) (b : string) :
  starts_with_char c b = false -> leading c (replicate n c ++ b) = n.
Proof.
  intros Hb. induction n as [|n IH]; simpl.
  - destruct b as [|d b]; [reflexivity|]. simpl in *. now rewrite Hb.
  - rewrite Ascii.eqb_refl. now rewrite IH.
Qed.

Lemma leading_le_length (s : string) : leading c s <= String.length s.
Proof.
  induction s as [|d s IH]; simpl; [lia|]. destruct (Ascii.eqb d c); lia.
Qed.

Lemma leading_app (a rest : string) :
  a <> EmptyString -> ends_with_char c a = false ->
  leading c (a ++ rest) = leading c a.
Proof.
  induction a as [|d a IH]; intros Hne He; [congruence|].
  simpl. destruct (Ascii.eqb d c) eqn:Ed; [|reflexivity].
  f_equal. destruct a as [|e a].
  - simpl in He. congruence.
  - apply IH; [discriminate | exact He].
Qed.

Lemma ends_with_tail (d : ascii) (a : string) :
  ends_with_char c (String d a) = false -> ends_with_char c a = false.
Proof. destruct a; [reflexivity | intros H; exact H]. Qed.

Lemma ends_with_drop (s : string) :
  forall k, ends_with_char c s = false -> ends_with_char c (drop k s) = false.
Proof.
  induction s as [|d s IH]; intros [|k] H; try exact H; try reflexivity.
  simpl drop. apply IH. now apply ends_with_tail in H.
Qed.

Lemma drop_leading (s : string) :
  starts_with_char c (drop (leading c s) s) = false.
Proof.
  induction s as [|d s IH]; [reflexivity|].
  simpl. destruct (Ascii.eqb d c) eqn:Ed; [exact IH | simpl; exact Ed].
Qed.

Lemma run_of_match (s : string) (n : nat) :
  run_of c s = Some n -> n = leading c s /\ 2 <= n.
Proof.
  unfold run_of. destruct (Nat.leb 2 (leading c s)) eqn:E; [|discriminate].
  intros [= <-]. apply Nat.leb_le in E. now split.
Qed.

Lemma run_of_nomatch (s : string) :
  run_of c s = None -> leading c s < 2.
Proof.
  unfold run_of. destruct (Nat.leb 2 (leading c s)) eqn:E; [discriminate|].
  intros _. now apply Nat.leb_gt in E.
Qed.

Lemma run_of_positive (s : string) : run_of c s <> Some 0.
Proof. intros H. apply run_of_match in H. lia. Qed.

(** The two equations of [preg_replace_run] at a character. *)
Lemma preg_run (d : ascii) (t : string) :
  2 <= leading c (String d t) ->
  d = c
  /\ preg_replace_run c (String d t)
     = String c (preg_replace_run c (drop (leading c t) t)).
Proof.
  intros H. simpl in H. destruct (Ascii.eqb d c) eqn:Ed; [|lia].
  apply Ascii.eqb_eq in Ed. subst d. split; [reflexivity|].
  unfold preg_replace_run.
  rewrite (scan_match _ _ c t (leading c t)); [reflexivity|].
  unfold run_of. simpl. rewrite Ascii.eqb_refl.
  destruct (leading c t) as [|k]; [lia | reflexivity].
Qed.

Lemma preg_norun (d : ascii) (t : string) :
  leading c (String d t) < 2 ->
  preg_replace_run c (String d t) = String d (preg_replace_run c t).
Proof.
  intros H. unfold preg_replace_run. apply scan_nomatch.
  unfold run_of. destruct (Nat.leb 2 (leading c (String d t))) eqn:E;
    [apply Nat.leb_le in E; lia | reflexivity].
Qed.

(** A run at the head of the text becomes one character. *)
Lemma preg_head_run (n : nat) (b : string) :
  1 <= n -> starts_with_char c b = false ->
  preg_replace_run c (replicate n c ++ b)
  = String c (preg_replace_run c b).
Proof.
  intros Hn Hb. destruct n as [|n]; [lia|]. simpl.
  destruct n as [|n].
  - rewrite preg_norun; [reflexivity|].
    simpl. rewrite Ascii.eqb_refl.
    change (leading c (EmptyString ++ b) < 1) with (leading c b < 1).
    destruct b as [|d b]; simpl in *; [lia | rewrite Hb; lia].
  - destruct (preg_run c (replicate (S n) c ++ b)) as [_ ->].
    + simpl. rewrite !Ascii.eqb_refl. lia.
    + rewrite (leading_replicate (S n) b Hb).
      rewrite <- (length_replicate (S n)) at 1. now rewrite drop_app.
Qed.

(** A run anywhere in the text becomes one character, and the text on its
    two sides is rewritten as it would be alone. *)
Lemma preg_run_inside (n : nat) (b : string) :
  1 <= n -> starts_with_char c b = false ->
  forall a, ends_with_char c a = false ->
  preg_replace_run c (a ++ replicate n c ++ b)
  = (preg_replace_run c a ++ String c (preg_replace_run c b))%string.
Proof.
  intros Hn Hb a.
  remember (String.length a) as len eqn:Hlen. revert a Hlen.
  induction len as [len IH] using lt_wf_ind. intros a Hlen Ha.
  destruct a as [|d a].
  - simpl. now apply preg_head_run.
  - set (rest := (replicate n c ++ b)%string).
    change (String d a ++ rest)%string with (String d (a ++ rest)).
    destruct (Nat.leb 2 (leading c (String d a))) eqn:E.
    + apply Nat.leb_le in E.
      assert (Hne : a <> EmptyString).
      { intros ->. simpl in E. destruct (Ascii.eqb d c); lia. }
      assert (Hta : ends_with_char c a = false) by now apply ends_with_tail in Ha.
      assert (E' : 2 <= leading c (String d (a ++ rest))).
      { simpl in E |- *. destruct (Ascii.eqb d c); [|lia].
        now rewrite leading_app. }
      destruct (preg_run d a E) as [-> ->].
      destruct (preg_run c (a ++ rest) E') as [_ ->].
      rewrite (leading_app a rest Hne Hta).
      rewrite drop_app_le by apply leading_le_length.
      simpl. f_equal.
      apply (IH (String.length (drop (leading c a) a))).
      * subst len. simpl. pose proof (drop_length_le (leading c a) a). lia.
      * reflexivity.
      * now apply ends_with_drop.
    + apply Nat.leb_gt in E.
      assert (E' : leading c (String d (a ++ rest)) < 2).
      { pose proof (ends_with_tail d a Ha) as Hta.
        simpl in E |- *. destruct (Ascii.eqb d c) eqn:Ed; [|lia].
        destruct a as [|e a].
        - simpl in Ha. congruence.
        - rewrite leading_app; [exact E | discriminate | exact Hta]. }
      rewrite (preg_norun d a E), (preg_norun d (a ++ rest) E').
      simpl. f_equal.
      apply (IH (String.length a)).
      * subst len. simpl. lia.
      * reflexivity.
      * now apply ends_with_tail in Ha.
Qed.

(** The result starts with the character exactly when the text does. *)
Lemma preg_starts (s : string) :
  starts_with_char c (preg_replace_run c s) = starts_with_char c s.
Proof.
  destruct s as [|d t]; [reflexivity|].
  destruct (Nat.leb 2 (leading c (String d t))) eqn:E.
  - apply Nat.leb_le in E. destruct (preg_run d t E) as [-> ->].
    reflexivity.
  - apply Nat.leb_gt in E. now rewrite preg_norun.
Qed.

Lemma prefix_cc (d : ascii) (s : string) :
  prefix cc (String d s) = Ascii.eqb d c && starts_with_char c s.
Proof.
  unfold cc. simpl.
  destruct (Ascii.eqb_spec d c) as [Hd|Hd].
  - subst d. destruct (ascii_dec c c); [|congruence].
    destruct s as [|x s]; [reflexivity|]. simpl.
    destruct (Ascii.eqb_spec x c) as [Hx|Hx].
    + subst x. destruct (ascii_dec c c); [now destruct s | congruence].
    + destruct (ascii_dec c x); [congruence | reflexivity].
  - destruct (ascii_dec c d); [congruence | reflexivity].
Qed.

(** No run of two is left. *)
Lemma preg_no_run (s : string) :
  contains cc (preg_replace_run c s) = false.
Proof.
  remember (String.length s) as len eqn:Hlen. revert s Hlen.
  induction len as [len IH] using lt_wf_ind. intros s Hlen.
  destruct s as [|d t]; [reflexivity|].
  destruct (Nat.leb 2 (leading c (String d t))) eqn:E.
  - apply Nat.leb_le in E. destruct (preg_run d t E) as [-> ->].
    rewrite contains_cons, prefix_cc, preg_starts, drop_leading.
    rewrite andb_false_r. simpl orb.
    apply (IH (String.length (drop (leading c t) t))); [|reflexivity].
    subst len. simpl. pose proof (drop_length_le (leading c t) t). lia.
  - apply Nat.leb_gt in E. rewrite (preg_norun d t E).
    rewrite contains_cons, prefix_cc, preg_starts.
    replace (Ascii.eqb d c && starts_with_char c t) with false.
    + simpl orb. apply (IH (String.length t)); [|reflexivity].
      subst len. simpl. lia.
    + simpl in E. destruct (Ascii.eqb d c); [|reflexivity].
      destruct t as [|e t]; [reflexivity|].
      simpl in *. destruct (Ascii.eqb e c); [lia | reflexivity].
Qed.

End Runs.

End StrFacts.

(* ================================================================== *)
(** * Properties of the engine *)
(* ================================================================== *)

Section EngineFacts.

Variable be : Backend.

Lemma cursors_opened_app (w1 w2 : list event) :
  cursors_opened (w1 ++ w2) = cursors_opened w1 + cursors_opened w2.
Proof. unfold cursors_opened. now rewrite filter_app, length_app. Qed.

Lemma cursors_opened_cursor (w : list event) (k : nat) :
  cursors_opened (w ++ [EvCursor k]) = S (cursors_opened w).
Proof. rewrite cursors_opened_app. unfold cursors_opened. simpl. lia. Qed.

Lemma cursors_opened_connect (w : list event) :
  cursors_opened (w ++ [EvConnect]) = cursors_opened w.
Proof. rewrite cursors_opened_app. unfold cursors_opened. simpl. lia. Qed.

Ltac crunch := cbn -[normalize cursors_opened Z.add Z.sub prepare].

Ltac crunch_all :=
  cbn -[normalize cursors_opened Z.add Z.sub prepare] in *.

Ltac run_methods :=
  unfold query, bind, connect, _connect, connection_cursor, gets,
    modify, emit, ret, raise, mogrify_or_sql, cursor_execute,
    cursor_callproc, cursor_fetchall, cursor_close, try_except, lift, when,
    timer_start, timer_stop, load_name;
  crunch.

Ltac tidy_wire :=
  repeat rewrite cursors_opened_cursor in *;
  repeat rewrite cursors_opened_connect in *;
  repeat rewrite <- app_assoc in *;
  cbn [app] in *.

(** [prepare] without arguments always returns: the template rewritten by
    the five rules, after one more cursor has been opened. *)
Lemma prepare_eq (db : Database) (sql : string) :
  prepare be (Some sql) [] db
  = (Ret (Some (normalize (_placeholder db) sql)),
     set_wire (wire (after_connect db)
               ++ [EvCursor (cursors_opened (wire (after_connect db)))])
              (after_connect db)).
Proof.
  destruct db as [conn intx sv svd lii lq le lr ar qe ts tp ph w].
  unfold prepare, after_connect, normalize, apply_rules, normalizer_rules,
    bind, connect, _connect, connection_cursor, gets, modify, emit, ret.
  destruct conn as [[]|];
    cbn -[Str.str_replace Str.preg_replace_run cursors_opened];
    reflexivity.
Qed.

Lemma query_plain_ok (db : Database) (sql : string) (args : list pyval)
      (one : bool) (rc : Z) (lid : pyval) (rv : option (list row))
      (shown : string) :
  let sql' := normalize (_placeholder db) sql in
  let n := cursors_opened (wire db) in
  let W := wire_before_execute db in
  shown_text be sql' args = Ret shown ->
  be_execute be W sql' args = Ret (rc, lid) ->
  be_fetchall be (W ++ [EvExecute n sql' args]) = Ret rv ->
  exists db',
    query be sql args false one db = (Ret (result_of one rv), db')
    /\ affected_rows db' = rc
    /\ last_insert_id db' = lid
    /\ queries_executed db' = (queries_executed db + 1)%Z
    /\ last_query db' = VStr shown
    /\ wire db' = W ++ [EvExecute n sql' args; EvFetchall n; EvCursorClose n].
Proof.
  intros sql' n W. subst sql' n W.
  unfold wire_before_execute, shown_text.
  destruct db as [conn intx sv svd lii lq le lr ar qe ts tp ph w].
  destruct be as [mog exe cp fa bg cm rb tm fmt clr] eqn:Ebe.
  unfold after_connect. crunch. intros Hs He Hf.
  rewrite <- Ebe. run_methods.
  destruct conn as [[]|]; crunch; rewrite prepare_eq; unfold after_connect;
    crunch; tidy_wire; rewrite Ebe; crunch_all; tidy_wire.
  all: destruct mog as [mogrify|]; [rewrite Hs | injection Hs as <-]; crunch.
  all: destruct sv; crunch; tidy_wire; rewrite He; crunch; tidy_wire; rewrite Hf; crunch.
  all: unfold result_of; destruct rv as [rows|]; crunch; tidy_wire.
  all: eexists; repeat split; crunch; tidy_wire; reflexivity.
Qed.
(** When fetching fails after the statement ran, the except clause of
    [query] is evaluated: it names [exception], which nothing binds. *)
Lemma query_fetch_raises (db : Database) (sql : string) (args : list pyval)
      (one : bool) (rc : Z) (lid : pyval) (e : exn) (shown : string) :
  let sql' := normalize (_placeholder db) sql in
  let n := cursors_opened (wire db) in
  let W := wire_before_execute db in
  shown_text be sql' args = Ret shown ->
  be_execute be W sql' args = Ret (rc, lid) ->
  be_fetchall be (W ++ [EvExecute n sql' args]) = Raise e ->
  exists db',
    query be sql args false one db = (Raise (NameError "exception"), db')
    /\ affected_rows db' = rc
    /\ queries_executed db' = (queries_executed db + 1)%Z
    /\ wire db' = W ++ [EvExecute n sql' args; EvFetchall n].
Proof.
  intros sql' n W. subst sql' n W.
  unfold wire_before_execute, shown_text.
  destruct db as [conn intx sv svd lii lq le lr ar qe ts tp ph w].
  destruct be as [mog exe cp fa bg cm rb tm fmt clr] eqn:Ebe.
  unfold after_connect. crunch. intros Hs He Hf.
  rewrite <- Ebe. run_methods.
  destruct conn as [[]|]; crunch; rewrite prepare_eq; unfold after_connect;
    crunch; tidy_wire; rewrite Ebe; crunch_all; tidy_wire.
  all: destruct mog as [mogrify|]; [rewrite Hs | injection Hs as <-]; crunch.
  all: destruct sv; crunch; tidy_wire; rewrite He; crunch; tidy_wire;
    rewrite Hf; crunch.
  all: eexists; repeat split; crunch; tidy_wire; reflexivity.
Qed.

(** The stored-procedure path, when the driver runs the procedure and
    hands over its rows. *)
Lemma query_proc_ok (db : Database) (name : string) (args : list pyval)
      (one : bool) (rc : Z) (lid : pyval) (rv : option (list row)) :
  let n := cursors_opened (wire db) in
  let W := wire_before_callproc db in
  be_callproc be W name args = Ret (rc, lid) ->
  be_fetchall be (W ++ [EvCallproc n name args]) = Ret rv ->
  exists db',
    query be name args true one db = (Ret (result_of one rv), db')
    /\ affected_rows db' = rc
    /\ last_insert_id db' = lid
    /\ queries_executed db' = queries_executed db
    /\ last_query db'
       = VStr (name ++ Str.join ", " (map py_str args))
    /\ wire db' = W ++ [EvCallproc n name args; EvFetchall n; EvCursorClose n].
Proof.
  intros n W. subst n W. unfold wire_before_callproc.
  destruct db as [conn intx sv svd lii lq le lr ar qe ts tp ph w].
  destruct be as [mog exe cp fa bg cm rb tm fmt clr] eqn:Ebe.
  unfold after_connect. crunch. intros Hc Hf.
  rewrite <- Ebe. run_methods. rewrite Ebe.
  destruct conn as [[]|]; crunch_all; tidy_wire; rewrite Hc; crunch;
    tidy_wire; rewrite Hf; crunch.
  all: unfold result_of; destruct rv as [rows|]; crunch; tidy_wire.
  all: eexists; repeat split; crunch; tidy_wire; reflexivity.
Qed.

(** The stored-procedure path never touches the counter of executed
    queries, whatever the driver answers. *)
Lemma query_proc_counter (db : Database) (name : string) (args : list pyval)
      (one : bool) :
  queries_executed (snd (query be name args true one db))
  = queries_executed db.
Proof.
  destruct db as [conn intx sv svd lii lq le lr ar qe ts tp ph w].
  destruct be as [mog exe cp fa bg cm rb tm fmt clr] eqn:Ebe.
  rewrite <- Ebe. run_methods. rewrite Ebe.
  destruct conn as [[]|]; crunch.
  all: destruct (cp _ name args) as [[rc lid]|e]; crunch; try reflexivity.
  all: destruct (fa _) as [[rows|]|e]; crunch; reflexivity.
Qed.

End EngineFacts.

(* ================================================================== *)
(** * The placeholder normalizer *)
(* ================================================================== *)

Lemma legacy_marker_nonempty (tok : string) :
  In tok legacy_markers -> tok <> EmptyString.
Proof.
  unfold legacy_markers, quoted, dq. simpl.
  intros [<-|[<-|[<-|[<-|[]]]]]; discriminate.
Qed.

(** The arguments go through [prepare] unchanged, numeric or not. *)
Lemma arguments_pass_through (args : list pyval) :
  map (fun x => if is_numeric x then x else x) args = args.
Proof.
  induction args as [|a args IH]; [reflexivity|].
  simpl. rewrite IH. now destruct (is_numeric a).
Qed.

Lemma prepare_with_arguments (be : Backend) (db : Database) (sql : string)
      (args : list pyval) :
  args <> [] ->
  fst (prepare be (Some sql) args db)
  = match shown_text be (normalize (_placeholder db) sql) args with
    | Ret shown => Ret (Some shown)
    | Raise e => Raise e
    end.
Proof.
  intros Hargs. destruct args as [|a args]; [congruence|].
  destruct db as [conn intx sv svd lii lq le lr ar qe ts tp ph w].
  unfold prepare, shown_text, normalize, apply_rules, normalizer_rules,
    bind, connect, _connect, connection_cursor, gets, modify, emit, ret,
    mogrify_or_sql, lift, raise.
  rewrite arguments_pass_through.
  destruct conn as [[]|], (be_mogrify be) as [mogrify|];
    cbn -[Str.str_replace Str.preg_replace_run cursors_opened];
    try reflexivity.
  all: destruct (mogrify _ _); reflexivity.
Qed.

(** C1. For every non-null template, [prepare] returns the template
    rewritten by the five rules in their order: the single-quoted marker,
    the double-quoted marker, [%f] and [%d] are each replaced by the bare
    marker, and then every run of two or more [%] is collapsed to one.
    Each replacement puts the marker where a token was and leaves the text
    between the tokens as it is and in its order, so the tokens keep their
    order and count; a run of two or more [%] between other text becomes
    exactly one [%], and no run of two is left. *)
Theorem prepare_normalizes (be : Backend) (db : Database) (sql : string) :
  let marker := _placeholder db in
  fst (prepare be (Some sql) [] db) = Ret (Some (normalize marker sql))
  /\ normalize marker sql
     = Str.preg_replace_run "%"
         (Str.str_replace "%d" marker
            (Str.str_replace "%f" marker
               (Str.str_replace (quoted "%s") marker
                  (Str.str_replace "'%s'" marker sql))))
  /\ (forall args, args <> [] ->
        fst (prepare be (Some sql) args db)
        = match shown_text be (normalize marker sql) args with
          | Ret shown => Ret (Some shown)
          | Raise e => Raise e
          end)
  /\ (forall tok text, In tok legacy_markers ->
        Str.str_replace tok marker text
        = Str.join marker (Str.split tok text)
        /\ Str.join tok (Str.split tok text) = text
        /\ Forall (fun piece => Str.contains tok piece = false)
                  (Str.split tok text))
  /\ (forall (a b : string) (n : nat),
        2 <= n ->
        Str.ends_with_char "%" a = false ->
        Str.starts_with_char "%" b = false ->
        Str.preg_replace_run "%" (a ++ Str.replicate n "%" ++ b)
        = (Str.preg_replace_run "%" a
           ++ "%" ++ Str.preg_replace_run "%" b)%string)
  /\ (forall text,
        Str.contains "%%" (Str.preg_replace_run "%" text) = false).
Proof.
  intros marker.
  split. { unfold marker. now rewrite prepare_eq. }
  split. { reflexivity. }
  split. { intros args Hargs. now apply prepare_with_arguments. }
  split.
  { intros tok text Hin. apply StrFacts.str_replace_split.
    now apply legacy_marker_nonempty. }
  split.
  { intros a b n Hn Ha Hb. apply StrFacts.preg_run_inside;
      [lia | assumption | assumption]. }
  intros text. apply StrFacts.preg_no_run.
Qed.

Lemma prepare_normalizes_witness :
  fst (prepare plain_backend
               (Some "SELECT * FROM t WHERE a='%s' AND b=%d AND c LIKE 'x%%%'")
               [] connected)
  = Ret (Some "SELECT * FROM t WHERE a=%s AND b=%s AND c LIKE 'x%'")
  /\ Str.split "%d" "b=%d, c=%d" = ["b="; ", c="; EmptyString]
  /\ Str.str_replace "%d" "%s" "b=%d, c=%d" = "b=%s, c=%s"
  /\ Str.preg_replace_run "%" ("LIKE 'x" ++ Str.replicate 3 "%" ++ "'")
     = "LIKE 'x%'".
Proof.
  destruct (prepare_normalizes plain_backend connected
              "SELECT * FROM t WHERE a='%s' AND b=%d AND c LIKE 'x%%%'")
    as (H1 & _ & _ & H4 & H5 & _).
  split; [rewrite H1; reflexivity|].
  split; [reflexivity|].
  split.
  - destruct (H4 "%d" "b=%d, c=%d") as (H & _ & _).
    + unfold legacy_markers. simpl. tauto.
    + simpl _placeholder in H. rewrite H. reflexivity.
  - rewrite (H5 "LIKE 'x" "'" 3); [reflexivity | lia | reflexivity
                                   | reflexivity].
Defined.

(* ================================================================== *)
(** * The transaction controller *)
(* ================================================================== *)

Lemma bind_ret {A B : Type} (m : M A) (f : A -> M B) (db db' : Database)
      (a : A) :
  m db = (Ret a, db') -> bind m f db = f a db'.
Proof. unfold bind. now intros ->. Qed.

Lemma bind_raise {A B : Type} (m : M A) (f : A -> M B) (db db' : Database)
      (e : exn) :
  m db = (Raise e, db') -> bind m f db = (Raise e, db').
Proof. unfold bind. now intros ->. Qed.

Section Transactions.

Variable be : Backend.

Lemma begin_transaction_eq (db : Database) (c : connection) :
  _connection db = Some c ->
  be_begin be (wire db) = Ret tt ->
  begin_transaction be db
  = (Ret tt, set_in_transaction true (set_wire (wire db ++ [EvBegin]) db)).
Proof.
  intros Hc Hb.
  unfold begin_transaction, bind, gets, emit, modify, lift, ret. simpl.
  rewrite Hc. simpl. now rewrite Hb.
Qed.

Lemma commit_eq (db : Database) (c : connection) :
  _connection db = Some c ->
  be_commit be (wire db) = Ret tt ->
  commit be db
  = (Ret tt, set_in_transaction false (set_wire (wire db ++ [EvCommit]) db)).
Proof.
  intros Hc Hb.
  unfold commit, bind, gets, emit, modify, lift, ret. simpl.
  rewrite Hc. simpl. now rewrite Hb.
Qed.

Lemma rollback_eq (db : Database) (c : connection) :
  _connection db = Some c ->
  _in_transaction db = true ->
  be_rollback be (wire db) = Ret tt ->
  rollback be db
  = (Ret tt,
     set_in_transaction false (set_wire (wire db ++ [EvRollback]) db)).
Proof.
  intros Hc Ht Hb.
  unfold rollback, bind, gets, emit, modify, lift, ret. simpl.
  rewrite Hc, Ht. simpl. now rewrite Hb.
Qed.

Lemma rollback_idle (db : Database) :
  _in_transaction db = false ->
  rollback be db
  = (Raise (RuntimeError "Cannot ROLLBACK. There's no current connection"),
     db).
Proof.
  intros Ht. unfold rollback, bind, gets, raise. simpl.
  rewrite Ht, orb_true_r. reflexivity.
Qed.

(** C2. From any session with a live connection, while the driver accepts
    the calls: [begin_transaction] then [rollback] leaves the
    in-transaction flag false, and so does [begin_transaction] then
    [commit]; [commit] alone succeeds and leaves the flag false;
    [rollback] with no transaction begun raises the usage error and leaves
    the session, and so the flag, as it was. *)
Theorem transaction_round_trip (db : Database) (c : connection) :
  _connection db = Some c ->
  (be_begin be (wire db) = Ret tt ->
   be_rollback be (wire db ++ [EvBegin]) = Ret tt ->
   exists db',
     (begin_transaction be ;; rollback be) db = (Ret tt, db')
     /\ in_transaction db' = false)
  /\ (be_begin be (wire db) = Ret tt ->
      be_commit be (wire db ++ [EvBegin]) = Ret tt ->
      exists db',
        (begin_transaction be ;; commit be) db = (Ret tt, db')
        /\ in_transaction db' = false)
  /\ (be_commit be (wire db) = Ret tt ->
      exists db',
        commit be db = (Ret tt, db') /\ in_transaction db' = false)
  /\ (in_transaction db = false ->
      exists msg,
        rollback be db = (Raise (RuntimeError msg), db)
        /\ in_transaction (snd (rollback be db)) = in_transaction db).
Proof.
  intros Hc.
  split.
  { intros Hb Hr. eexists.
    rewrite (bind_ret _ _ _ _ _ (begin_transaction_eq db c Hc Hb)).
    rewrite (rollback_eq _ c); [split; reflexivity | exact Hc | reflexivity
                               | exact Hr]. }
  split.
  { intros Hb Hm. eexists.
    rewrite (bind_ret _ _ _ _ _ (begin_transaction_eq db c Hc Hb)).
    rewrite (commit_eq _ c); [split; reflexivity | exact Hc | exact Hm]. }
  split.
  { intros Hm. eexists. rewrite (commit_eq db c Hc Hm).
    split; reflexivity. }
  intros Ht. eexists. rewrite (rollback_idle db Ht). split; reflexivity.
Qed.

End Transactions.

Lemma transaction_round_trip_witness :
  (exists db',
      (begin_transaction plain_backend ;; rollback plain_backend) connected
      = (Ret tt, db') /\ in_transaction db' = false)
  /\ (exists db',
         (begin_transaction plain_backend ;; commit plain_backend) connected
         = (Ret tt, db') /\ in_transaction db' = false)
  /\ (exists db',
         commit plain_backend connected = (Ret tt, db')
         /\ in_transaction db' = false)
  /\ (exists msg,
         rollback plain_backend connected = (Raise (RuntimeError msg), connected)
         /\ in_transaction (snd (rollback plain_backend connected))
            = in_transaction connected).
Proof.
  destruct (transaction_round_trip plain_backend connected Connection
              eq_refl) as (H1 & H2 & H3 & H4).
  split; [apply H1; reflexivity|].
  split; [apply H2; reflexivity|].
  split; [apply H3; reflexivity|].
  apply H4; reflexivity.
Defined.

(* ================================================================== *)
(** * The SQL builders *)
(* ================================================================== *)

(** The loops of [update] and [delete] append one clause per item, and
    one value per item that is not [None]. *)
Lemma set_loop (marker : string) (data : dict) :
  forall fields values,
    fold_left (set_step marker) data (fields, values)
    = (fields ++ map (set_clause marker) data, values ++ bound data).
Proof.
  induction data as [|[field value] data IH]; intros fields values.
  - simpl. unfold bound. simpl. now rewrite !app_nil_r.
  - cbn [fold_left set_step]. unfold bound in *.
    cbn [map filter snd fst].
    replace (set_clause marker (field, value))
      with (if is_none value then (quoted field ++ " = NULL")%string
            else (quoted field ++ " = " ++ marker)%string) by reflexivity.
    destruct (is_none value); cbn [negb]; rewrite IH;
      rewrite <- !app_assoc; reflexivity.
Qed.

Lemma where_loop (marker : string) (where_ : dict) :
  forall conditions values,
    fold_left (where_step marker) where_ (conditions, values)
    = (conditions ++ map (where_clause marker) where_,
       values ++ bound where_).
Proof.
  induction where_ as [|[field value] where_ IH]; intros conditions values.
  - simpl. unfold bound. simpl. now rewrite !app_nil_r.
  - cbn [fold_left where_step]. unfold bound in *.
    cbn [map filter snd fst].
    replace (where_clause marker (field, value))
      with (if is_none value then (quoted field ++ " IS NULL")%string
            else (quoted field ++ " = " ++ marker)%string) by reflexivity.
    destruct (is_none value); cbn [negb]; rewrite IH;
      rewrite <- !app_assoc; reflexivity.
Qed.

Lemma update_statement_eq (marker table : string) (data where_ : dict) :
  update_statement marker table data where_
  = (("UPDATE " ++ quoted table
      ++ " SET " ++ Str.join ", " (map (set_clause marker) data)
      ++ " WHERE " ++ Str.join " AND " (map (where_clause marker) where_))
     %string,
     bound data ++ bound where_).
Proof.
  unfold update_statement. rewrite set_loop. rewrite where_loop.
  reflexivity.
Qed.

(** C8. For every call of [update] with two mappings, the statement that
    goes to [query] has one SET entry per data item, a literal [= NULL]
    for a [None] value and an equals-placeholder for any other, and one
    WHERE entry per condition; the bound arguments are the data values
    that are not [None], in order, followed by the condition values that
    are not [None], in order: a NULL assignment binds nothing, every other
    entry binds exactly its one value, data before conditions. *)
Theorem update_null_and_bound_arguments
        (be : Backend) (db : Database) (table : string) (data where_ : dict) :
  let marker := _placeholder db in
  let sql := ("UPDATE " ++ quoted table
              ++ " SET " ++ Str.join ", " (map (set_clause marker) data)
              ++ " WHERE "
              ++ Str.join " AND " (map (where_clause marker) where_))%string in
  let values := bound data ++ bound where_ in
  update be table (ODict data) (ODict where_) db
  = (_ <- query be sql values false false ;;
     n <- gets affected_rows ;; ret (VInt n)) db
  /\ (forall field, set_clause marker (field, VNone)
                    = (quoted field ++ " = NULL")%string)
  /\ (forall field value, value <> VNone ->
        set_clause marker (field, value)
        = (quoted field ++ " = " ++ marker)%string
        /\ where_clause marker (field, value)
           = (quoted field ++ " = " ++ marker)%string)
  /\ List.length values
     = List.length (filter (fun kv => negb (is_none (snd kv))) data)
       + List.length (filter (fun kv => negb (is_none (snd kv))) where_).
Proof.
  intros marker sql values.
  split.
  { unfold update. cbn [is_dict negb orb items].
    unfold bind at 1, gets at 1.
    rewrite update_statement_eq. reflexivity. }
  split. { reflexivity. }
  split.
  { intros field value Hv. unfold set_clause, where_clause. simpl.
    destruct value; [congruence | | |]; split; reflexivity. }
  unfold values, bound. rewrite length_app.
  f_equal.
  - induction data as [|[f v] data IH]; [reflexivity|].
    simpl. destruct (negb (is_none v)); simpl; now rewrite IH.
  - induction where_ as [|[f v] where_ IH]; [reflexivity|].
    simpl. destruct (negb (is_none v)); simpl; now rewrite IH.
Qed.

(** C9. When the data argument or the where argument of [update] is not a
    mapping, [update] returns [False] at once: no query is run and the
    session is left exactly as it was, so last query, affected-row count,
    executed-query counter and what the driver has seen are unchanged. *)
Theorem update_rejects_non_mappings
        (be : Backend) (db : Database) (table : string) (data where_ : pyobj) :
  is_dict data = false \/ is_dict where_ = false ->
  update be table data where_ db = (Ret (VBool false), db).
Proof.
  intros [H|H]; unfold update; rewrite H; simpl;
    [|rewrite orb_true_r]; reflexivity.
Qed.

Lemma update_rejects_non_mappings_witness :
  update strict_backend "t" (OList [VInt 1]) (ODict [("id", VInt 1)])
         connected
  = (Ret (VBool false), connected)
  /\ update strict_backend "t" (ODict [("a", VInt 1)]) (OValue (VStr "id=1"))
            connected
     = (Ret (VBool false), connected).
Proof.
  split.
  - apply (update_rejects_non_mappings strict_backend connected "t"
             (OList [VInt 1]) (ODict [("id", VInt 1)])).
    left. reflexivity.
  - apply (update_rejects_non_mappings strict_backend connected "t"
             (ODict [("a", VInt 1)]) (OValue (VStr "id=1"))).
    right. reflexivity.
Defined.

Lemma update_null_and_bound_arguments_witness :
  update plain_backend "t" (ODict [("a", VNone); ("c", VInt 5)])
         (ODict [("id", VInt 7)]) connected
  = (_ <- query plain_backend
                ("UPDATE " ++ quoted "t" ++ " SET " ++ quoted "a"
                 ++ " = NULL, " ++ quoted "c" ++ " = %s WHERE "
                 ++ quoted "id" ++ " = %s")
                [VInt 5; VInt 7] false false ;;
     n <- gets affected_rows ;; ret (VInt n)) connected
  /\ VInt 5 <> VNone
  /\ set_clause "%s" ("c", VInt 5) = (quoted "c" ++ " = %s")%string.
Proof.
  destruct (update_null_and_bound_arguments
              plain_backend connected "t"
              [("a", VNone); ("c", VInt 5)] [("id", VInt 7)])
    as (H1 & _ & H3 & _).
  split; [exact H1|].
  split; [discriminate|].
  destruct (H3 "c" (VInt 5)) as [H _]; [discriminate | exact H].
Defined.

(* ================================================================== *)
(** * Shaped retrieval *)
(* ================================================================== *)

Lemma unknown_shape_tests (output_type : string) :
  known_shape output_type = false ->
  String.eqb output_type "record" = false
  /\ String.eqb output_type "dict" = false
  /\ String.eqb output_type "dataset" = false
  /\ String.eqb output_type "object" = false.
Proof.
  unfold known_shape. cbn [existsb]. rewrite orb_false_r.
  intros H. repeat (apply orb_false_iff in H as [? H]). now repeat split.
Qed.

Lemma results_loop_unknown (output_type : string) (rows : list record) :
  known_shape output_type = false ->
  forall output_rows,
    fold_left (results_step output_type) rows output_rows = output_rows.
Proof.
  intros H. apply unknown_shape_tests in H as (H1 & H2 & H3 & H4).
  induction rows as [|row rows IH]; intros output_rows; [reflexivity|].
  cbn [fold_left]. unfold results_step at 2. rewrite H1, H2, H3, H4.
  apply IH.
Qed.

(** C10, as amended. For an output type that is none of ['record'],
    ['dict'], ['dataset'] and ['object'], whenever the query gives a
    collection: [get_results] has run the query and returns the empty
    list; [get_row] has run the same query and indexed the requested row
    before it looks at the output type, so it returns [None] when the
    collection holds the row and raises [IndexError] when it does not. *)
Theorem unknown_shape_fallbacks
        (be : Backend) (db db' : Database) (sql output_type : string)
        (row_offset : nat) (rows : RecordCollection) :
  known_shape output_type = false ->
  query be sql [] false false db = (Ret (QRecords rows), db') ->
  get_results be sql output_type db = (Ret [], db')
  /\ (row_offset < List.length rows ->
      get_row be sql output_type row_offset db = (Ret None, db'))
  /\ (List.length rows <= row_offset ->
      get_row be sql output_type row_offset db = (Raise IndexError, db')).
Proof.
  intros Hshape Hq.
  split; [|split].
  - unfold get_results. rewrite (bind_ret _ _ _ _ _ Hq).
    now rewrite results_loop_unknown.
  - intros Hlt. apply nth_error_Some in Hlt.
    unfold get_row. rewrite (bind_ret _ _ _ _ _ Hq).
    unfold getitem.
    destruct (nth_error rows row_offset) as [row|]; [|congruence].
    unfold bind, ret.
    apply unknown_shape_tests in Hshape as (-> & -> & -> & ->).
    reflexivity.
  - intros Hle. apply nth_error_None in Hle.
    unfold get_row. rewrite (bind_ret _ _ _ _ _ Hq).
    unfold getitem. rewrite Hle. reflexivity.
Qed.

Lemma unknown_shape_fallbacks_witness :
  fst (get_results plain_backend "SELECT * FROM people" "tuple" connected)
  = Ret []
  /\ fst (get_row plain_backend "SELECT * FROM people" "tuple" 1 connected)
     = Ret None
  /\ fst (get_row plain_backend "SELECT * FROM people" "tuple" 2 connected)
     = Raise IndexError.
Proof.
  assert (Hq : exists rows db',
             query plain_backend "SELECT * FROM people" [] false false
                   connected
             = (Ret (QRecords rows), db')
             /\ List.length rows = 2).
  { vm_compute. do 2 eexists. split; reflexivity. }
  destruct Hq as (rows & db' & Hq & Hlen).
  destruct (unknown_shape_fallbacks
              plain_backend connected db' "SELECT * FROM people" "tuple" 1
              rows eq_refl Hq) as (H1 & H2 & _).
  destruct (unknown_shape_fallbacks
              plain_backend connected db' "SELECT * FROM people" "tuple" 2
              rows eq_refl Hq) as (_ & _ & H3).
  rewrite H1, H2, H3 by (rewrite Hlen; lia).
  repeat split.
Defined.

(** C10, as worded, fails on a query that gives no rows: with the output
    type ['tuple'] and the default row offset, [get_results] returns the
    empty list but [get_row] raises [IndexError] and returns nothing. *)
Lemma unknown_shape_fallbacks_counterexample :
  known_shape "tuple" = false
  /\ fst (query empty_backend "SELECT * FROM people" [] false false
                connected)
     = Ret (QRecords [])
  /\ fst (get_results empty_backend "SELECT * FROM people" "tuple"
                      connected)
     = Ret []
  /\ fst (get_row empty_backend "SELECT * FROM people" "tuple" 0 connected)
     = Raise IndexError
  /\ fst (get_row empty_backend "SELECT * FROM people" "tuple" 0 connected)
     <> Ret None.
Proof.
  assert (E : fst (get_row empty_backend "SELECT * FROM people" "tuple" 0
                           connected)
              = Raise IndexError) by (vm_compute; reflexivity).
  split; [reflexivity|].
  split; [vm_compute; reflexivity|].
  split; [vm_compute; reflexivity|].
  split; [exact E|].
  rewrite E. discriminate.
Qed.

(* ================================================================== *)
(** * Insert and bulk insert *)
(* ================================================================== *)

Lemma dict_get_set_same (k : string) (v : pyval) (d : dict) :
  dict_get k (dict_set k v d) = Some v.
Proof.
  induction d as [|[k' v'] d IH]; simpl.
  - now rewrite String.eqb_refl.
  - destruct (String.eqb k' k) eqn:E; simpl; rewrite E; [reflexivity | exact IH].
Qed.

Lemma dict_get_set_other (k k' : string) (v : pyval) (d : dict) :
  k' <> k -> dict_get k (dict_set k' v d) = dict_get k d.
Proof.
  intros Hne. induction d as [|[k'' v''] d IH]; simpl.
  - apply String.eqb_neq in Hne. now rewrite Hne.
  - destruct (String.eqb k'' k') eqn:E; simpl.
    + apply String.eqb_eq in E. subst k''.
      apply String.eqb_neq in Hne. now rewrite Hne.
    + destruct (String.eqb k'' k); [reflexivity | exact IH].
Qed.

Lemma dict_update_absent (k : string) (other : dict) :
  ~ In k (map fst other) ->
  forall d, dict_get k (dict_update d other) = dict_get k d.
Proof.
  unfold dict_update.
  induction other as [|[k' v'] other IH]; intros Hk d; [reflexivity|].
  simpl in *. rewrite IH by tauto.
  apply dict_get_set_other. tauto.
Qed.

(** The mapping given last wins: after [kwargs.update(data)] every key of
    [data] has the value [data] gives it. *)
Lemma dict_update_wins (k : string) (v : pyval) (other : dict) :
  NoDup (map fst other) ->
  dict_get k other = Some v ->
  forall d, dict_get k (dict_update d other) = Some v.
Proof.
  induction other as [|[k' v'] other IH]; intros Hnd Hget d;
    [discriminate|].
  simpl in Hget. inversion Hnd as [|? ? Hnotin Hnd']; subst.
  destruct (String.eqb k' k) eqn:E.
  - apply String.eqb_eq in E. subst k'. injection Hget as ->.
    change (dict_update d ((k, v) :: other))
      with (dict_update (dict_set k v d) other).
    rewrite dict_update_absent by exact Hnotin.
    apply dict_get_set_same.
  - change (dict_update d ((k', v') :: other))
      with (dict_update (dict_set k' v' d) other).
    now apply IH.
Qed.

Lemma extend_loop (values : list (list pyval)) :
  forall all_values,
    fold_left (fun all_values value => all_values ++ value) values all_values
    = all_values ++ concat values.
Proof.
  induction values as [|value values IH]; intros all_values; simpl.
  - now rewrite app_nil_r.
  - rewrite IH. now rewrite app_assoc.
Qed.

Section Builders.

Variable be : Backend.

(** A builder returns the affected-row count that [query] has just
    recorded. *)
Lemma returns_affected_rows (db db' : Database) (sql : string)
      (args : list pyval) (r : qresult) :
  query be sql args false false db = (Ret r, db') ->
  (_ <- query be sql args false false ;; gets affected_rows) db
  = (Ret (affected_rows db'), db').
Proof. intros H. now rewrite (bind_ret _ _ _ _ _ H). Qed.

(** C6. [insert] with the mapping [{a: 1, b: 2}] hands [query] the
    statement [INSERT INTO t (a, b) VALUES (%s, %s)], with exactly two
    placeholders, and the arguments [(1, 2)] in the order of the mapping;
    when the driver runs the statement and fetching does not fail, the
    call returns the affected-row count the session then holds, which is
    the cursor's.  When a mapping and keyword pairs are both given, the
    columns and values are those of the keywords updated with the mapping,
    where every key of the mapping has the mapping's value. *)
Theorem insert_statement_and_arguments
        (db : Database) (table : string) (shown : string) (rc : Z)
        (lid : pyval) (rv : option (list row)) :
  let data := [("a", VInt 1); ("b", VInt 2)] in
  let sql := ("INSERT INTO " ++ table ++ " (a, b) VALUES (%s, %s)")%string in
  let args := [VInt 1; VInt 2] in
  let n := cursors_opened (wire db) in
  _placeholder db = "%s" ->
  shown_text be (normalize "%s" sql) args = Ret shown ->
  be_execute be (wire_before_execute db) (normalize "%s" sql) args
  = Ret (rc, lid) ->
  be_fetchall be (wire_before_execute db
                  ++ [EvExecute n (normalize "%s" sql) args]) = Ret rv ->
  insert be table (Some data) [] db
  = (_ <- query be sql args false false ;; gets affected_rows) db
  /\ Str.count "%s" "INSERT INTO t (a, b) VALUES (%s, %s)" = 2
  /\ Str.count "%s" "(%s, %s)" = 2
  /\ (exists db',
        insert be table (Some data) [] db = (Ret rc, db')
        /\ affected_rows db' = rc
        /\ wire db' = wire_before_execute db
                      ++ [EvExecute n (normalize "%s" sql) args;
                          EvFetchall n; EvCursorClose n])
  /\ (forall (mapping kwargs : dict),
        let merged := dict_update kwargs mapping in
        insert be table (Some mapping) kwargs db
        = (_ <- query be
                   ("INSERT INTO " ++ table
                    ++ " (" ++ Str.join ", " (map fst merged)
                    ++ ") VALUES ("
                    ++ Str.join ", " (repeat "%s" (List.length merged))
                    ++ ")")
                   (map snd merged) false false ;;
           gets affected_rows) db
        /\ (NoDup (map fst mapping) ->
            forall key value,
              dict_get key mapping = Some value ->
              dict_get key merged = Some value)).
Proof.
  intros data sql args n Hph Hs He Hf.
  assert (Heq : insert be table (Some data) [] db
                = (_ <- query be sql args false false ;; gets affected_rows)
                    db).
  { unfold insert. unfold bind at 1, gets at 1. rewrite Hph. reflexivity. }
  split; [exact Heq|].
  split; [reflexivity|].
  split; [reflexivity|].
  split.
  - rewrite <- Hph in Hs, He, Hf.
    destruct (query_plain_ok be db sql args false rc lid rv shown Hs He Hf)
      as (db' & Hq & Har & _ & _ & _ & Hw).
    exists db'. rewrite Heq, (returns_affected_rows _ _ _ _ _ Hq), Har.
    rewrite Hph in Hw. now repeat split.
  - intros mapping kwargs merged. split.
    + unfold insert. unfold bind at 1, gets at 1. rewrite Hph.
      unfold merged. now rewrite length_map.
    + intros Hnd key value Hget. now apply dict_update_wins.
Qed.

(** C7. [bulk_insert] with the columns [[a, b]] and the rows
    [[(1, 2), (3, 4)]] hands [query] a statement whose VALUES clause is two
    parenthesized groups of two placeholders each, and the arguments
    [(1, 2, 3, 4)]: the rows flattened left to right, row by row; when the
    driver runs the statement and fetching does not fail, the call returns
    the affected-row count.  For any columns and rows there is one group
    per row and the arguments are the rows concatenated. *)
Theorem bulk_insert_statement_and_arguments
        (db : Database) (table : string) (shown : string) (rc : Z)
        (lid : pyval) (rv : option (list row)) :
  let columns := ["a"; "b"] in
  let values := [[VInt 1; VInt 2]; [VInt 3; VInt 4]] in
  let sql := ("INSERT INTO " ++ table
              ++ " (a, b) VALUES (%s, %s), (%s, %s)")%string in
  let args := [VInt 1; VInt 2; VInt 3; VInt 4] in
  let n := cursors_opened (wire db) in
  _placeholder db = "%s" ->
  shown_text be (normalize "%s" sql) args = Ret shown ->
  be_execute be (wire_before_execute db) (normalize "%s" sql) args
  = Ret (rc, lid) ->
  be_fetchall be (wire_before_execute db
                  ++ [EvExecute n (normalize "%s" sql) args]) = Ret rv ->
  bulk_insert be table columns values db
  = (_ <- query be sql args false false ;; gets affected_rows) db
  /\ Str.split "(%s, %s)" "(%s, %s), (%s, %s)" = [EmptyString; ", "; EmptyString]
  /\ Str.count "(%s, %s)" "(%s, %s), (%s, %s)" = 2
  /\ Str.count "%s" "(%s, %s)" = 2
  /\ (exists db',
        bulk_insert be table columns values db = (Ret rc, db')
        /\ affected_rows db' = rc
        /\ wire db' = wire_before_execute db
                      ++ [EvExecute n (normalize "%s" sql) args;
                          EvFetchall n; EvCursorClose n])
  /\ (forall (columns : list string) (values : list (list pyval)),
        let group :=
          ("(" ++ Str.join ", " (repeat "%s" (List.length columns)) ++ ")")
          %string in
        bulk_insert be table columns values db
        = (_ <- query be
                   ("INSERT INTO " ++ table
                    ++ " (" ++ Str.join ", " columns
                    ++ ") VALUES "
                    ++ Str.join ", " (repeat group (List.length values)))
                   (concat values) false false ;;
           gets affected_rows) db).
Proof.
  intros columns values sql args n Hph Hs He Hf.
  assert (Heq : bulk_insert be table columns values db
                = (_ <- query be sql args false false ;; gets affected_rows)
                    db).
  { unfold bulk_insert. unfold bind at 1, gets at 1. rewrite Hph.
    reflexivity. }
  split; [exact Heq|].
  split; [reflexivity|].
  split; [reflexivity|].
  split; [reflexivity|].
  split.
  - rewrite <- Hph in Hs, He, Hf.
    destruct (query_plain_ok be db sql args false rc lid rv shown Hs He Hf)
      as (db' & Hq & Har & _ & _ & _ & Hw).
    exists db'. rewrite Heq, (returns_affected_rows _ _ _ _ _ Hq), Har.
    rewrite Hph in Hw. now repeat split.
  - intros columns' values' group.
    unfold bulk_insert. unfold bind at 1, gets at 1. rewrite Hph.
    rewrite extend_loop. reflexivity.
Qed.

End Builders.

Lemma insert_statement_and_arguments_witness :
  exists db',
    insert plain_backend "t" (Some [("a", VInt 1); ("b", VInt 2)]) []
           connected
    = (Ret 2%Z, db')
    /\ affected_rows db' = 2%Z
    /\ wire db'
       = [EvConnect; EvCursor 0; EvCursor 1;
          EvExecute 0 "INSERT INTO t (a, b) VALUES (%s, %s)"
                    [VInt 1; VInt 2];
          EvFetchall 0; EvCursorClose 0].
Proof.
  destruct (insert_statement_and_arguments
              plain_backend connected "t"
              "INSERT INTO t (a, b) VALUES (%s, %s)" 2%Z (VInt 7) (Some [])
              eq_refl eq_refl eq_refl eq_refl)
    as (_ & _ & _ & (db' & H1 & H2 & H3) & _).
  exists db'. split; [exact H1|]. split; [exact H2|].
  rewrite H3. reflexivity.
Defined.

Lemma bulk_insert_statement_and_arguments_witness :
  exists db',
    bulk_insert plain_backend "t" ["a"; "b"]
                [[VInt 1; VInt 2]; [VInt 3; VInt 4]] connected
    = (Ret 4%Z, db')
    /\ affected_rows db' = 4%Z
    /\ wire db'
       = [EvConnect; EvCursor 0; EvCursor 1;
          EvExecute 0 "INSERT INTO t (a, b) VALUES (%s, %s), (%s, %s)"
                    [VInt 1; VInt 2; VInt 3; VInt 4];
          EvFetchall 0; EvCursorClose 0].
Proof.
  destruct (bulk_insert_statement_and_arguments
              plain_backend connected "t"
              "INSERT INTO t (a, b) VALUES (%s, %s), (%s, %s)" 4%Z (VInt 7)
              (Some []) eq_refl eq_refl eq_refl eq_refl)
    as (_ & _ & _ & _ & (db' & H1 & H2 & H3) & _).
  exists db'. split; [exact H1|]. split; [exact H2|].
  rewrite H3. reflexivity.
Defined.

(* ================================================================== *)
(** * Where the code departs from the specification *)
(* ================================================================== *)

Section Departures.

Variable be : Backend.

(** C3. What [query] records after the statement has run.  On the plain
    path the affected-row count and the last generated key are the
    cursor's, the counter of executed queries has gone up by one and the
    statement text is the last query.  On the stored-procedure path the
    count, the key and the last query are recorded too, but the counter of
    executed queries stays where it was: the increment is written inside
    the branch of the plain path. *)
Theorem stored_procedure_call_not_counted
        (db : Database) (sql : string) (args : list pyval) (one : bool)
        (rc : Z) (lid : pyval) (rv : option (list row)) (shown : string) :
  let n := cursors_opened (wire db) in
  (shown_text be (normalize (_placeholder db) sql) args = Ret shown ->
   be_execute be (wire_before_execute db)
              (normalize (_placeholder db) sql) args = Ret (rc, lid) ->
   be_fetchall be (wire_before_execute db
                   ++ [EvExecute n (normalize (_placeholder db) sql) args])
   = Ret rv ->
   exists db',
     query be sql args false one db = (Ret (result_of one rv), db')
     /\ affected_rows db' = rc
     /\ last_insert_id db' = lid
     /\ queries_executed db' = (queries_executed db + 1)%Z
     /\ last_query db' = VStr shown)
  /\ (be_callproc be (wire_before_callproc db) sql args = Ret (rc, lid) ->
      be_fetchall be (wire_before_callproc db ++ [EvCallproc n sql args])
      = Ret rv ->
      exists db',
        query be sql args true one db = (Ret (result_of one rv), db')
        /\ affected_rows db' = rc
        /\ last_insert_id db' = lid
        /\ last_query db' = VStr (sql ++ Str.join ", " (map py_str args))
        /\ queries_executed db' = queries_executed db
        /\ queries_executed db' <> (queries_executed db + 1)%Z)
  /\ queries_executed (snd (query be sql args true one db))
     = queries_executed db.
Proof.
  intros n. split; [|split].
  - intros Hs He Hf.
    destruct (query_plain_ok be db sql args one rc lid rv shown Hs He Hf)
      as (db' & Hq & Har & Hli & Hqe & Hlq & _).
    exists db'. now repeat split.
  - intros Hc Hf.
    destruct (query_proc_ok be db sql args one rc lid rv Hc Hf)
      as (db' & Hq & Har & Hli & Hqe & Hlq & _).
    exists db'. repeat split; try assumption. rewrite Hqe. lia.
  - apply query_proc_counter.
Qed.

(** C5. The cursor of [query] and a failing fetch.  When fetching
    succeeds, closing the cursor is the last thing the driver is asked
    before [query] returns.  When fetching fails after the statement ran,
    [query] does not return: evaluating the except clause raises
    [NameError], and the driver is asked nothing after the fetch, so the
    cursor stays open. *)
Theorem fetch_failure_leaves_cursor_open
        (db : Database) (sql : string) (args : list pyval) (one : bool)
        (rc : Z) (lid : pyval) (shown : string) :
  let sql' := normalize (_placeholder db) sql in
  let n := cursors_opened (wire db) in
  shown_text be sql' args = Ret shown ->
  be_execute be (wire_before_execute db) sql' args = Ret (rc, lid) ->
  (forall rv,
      be_fetchall be (wire_before_execute db ++ [EvExecute n sql' args])
      = Ret rv ->
      exists db',
        query be sql args false one db = (Ret (result_of one rv), db')
        /\ wire db' = wire (after_connect db)
                      ++ [EvCursor n; EvCursor (S n); EvExecute n sql' args;
                          EvFetchall n; EvCursorClose n])
  /\ (forall e,
         be_fetchall be (wire_before_execute db ++ [EvExecute n sql' args])
         = Raise e ->
         exists db',
           query be sql args false one db
           = (Raise (NameError "exception"), db')
           /\ wire db' = wire (after_connect db)
                         ++ [EvCursor n; EvCursor (S n);
                             EvExecute n sql' args; EvFetchall n]
           /\ existsb (fun ev => match ev with
                                 | EvCursorClose _ => true
                                 | _ => false
                                 end)
                      [EvCursor n; EvCursor (S n); EvExecute n sql' args;
                       EvFetchall n] = false).
Proof.
  intros sql' n Hs He. split.
  - intros rv Hf.
    destruct (query_plain_ok be db sql args one rc lid rv shown Hs He Hf)
      as (db' & Hq & _ & _ & _ & _ & Hw).
    exists db'. split; [exact Hq|]. rewrite Hw.
    unfold wire_before_execute. now rewrite <- app_assoc.
  - intros e Hf.
    destruct (query_fetch_raises be db sql args one rc lid e shown Hs He Hf)
      as (db' & Hq & _ & _ & Hw).
    exists db'. split; [exact Hq|]. split; [|reflexivity]. rewrite Hw.
    unfold wire_before_execute. now rewrite <- app_assoc.
Qed.

(** The statement of [delete] for any conditions: the tests are joined by
    [" AND"], with no space after it. *)
Lemma delete_statement_eq (marker table : string) (kwargs : dict) :
  let conditions := Str.join " AND" (map (where_clause marker) kwargs) in
  delete_statement marker table None kwargs
  = (if nonempty conditions
     then ("DELETE FROM " ++ quoted table ++ " " ++ " WHERE " ++ conditions)
          %string
     else ("DELETE FROM " ++ quoted table ++ " ")%string,
     bound kwargs).
Proof.
  unfold delete_statement. rewrite where_loop. simpl.
  destruct (nonempty (Str.join " AND" (map (where_clause marker) kwargs)));
    [|reflexivity].
  now rewrite !StrFacts.append_assoc.
Qed.

(** C4. The statement of [delete].  With no condition there is no WHERE
    clause.  With [where={a: None, b: 5}] the bound arguments are [(5,)],
    the [None] value gives an IS NULL test that binds nothing, but the
    tests are joined by [" AND"] without the space after it, so the clause
    reads ["a" IS NULL AND"b" = %s] and not ["a" IS NULL AND "b" = %s]. *)
Theorem delete_joins_conditions_without_space (db : Database) :
  let where_ := [("a", VNone); ("b", VInt 5)] in
  let built := ("DELETE FROM " ++ quoted "t" ++ "  WHERE "
                ++ quoted "a" ++ " IS NULL AND" ++ quoted "b" ++ " = %s")
               %string in
  let claimed := (quoted "a" ++ " IS NULL AND " ++ quoted "b" ++ " = %s")
                 %string in
  delete_statement "%s" "t" (Some where_) [] = (built, [VInt 5])
  /\ Str.contains claimed built = false
  /\ Str.contains (quoted "a" ++ " IS NULL AND" ++ quoted "b" ++ " = %s")
                  built = true
  /\ (_placeholder db = "%s" ->
      delete be "t" (Some where_) [] db
      = (_ <- query be built [VInt 5] false false ;; gets affected_rows) db)
  /\ (forall marker table,
        delete_statement marker table (Some []) []
        = (("DELETE FROM " ++ quoted table ++ " ")%string, [])
        /\ delete_statement marker table None []
           = (("DELETE FROM " ++ quoted table ++ " ")%string, [])).
Proof.
  intros where_ built claimed.
  split; [reflexivity|].
  split; [reflexivity|].
  split; [reflexivity|].
  split.
  - intros Hph. unfold delete. unfold bind at 1, gets at 1. rewrite Hph.
    reflexivity.
  - intros marker table. split; reflexivity.
Qed.

End Departures.

Lemma stored_procedure_call_not_counted_witness :
  exists db',
    query plain_backend "sum_values" [VInt 1; VInt 2] true false connected
    = (Ret (QRecords []), db')
    /\ affected_rows db' = 0%Z
    /\ last_query db' = VStr "sum_values1, 2"
    /\ queries_executed db' = 0%Z.
Proof.
  destruct (stored_procedure_call_not_counted
              plain_backend connected "sum_values" [VInt 1; VInt 2] false
              0%Z VNone (Some []) "sum_values")
    as (_ & H & _).
  destruct (H eq_refl eq_refl) as (db' & H1 & H2 & _ & H4 & H5 & _).
  exists db'. split; [exact H1|]. split; [exact H2|].
  split; [exact H4 | exact H5].
Defined.

Lemma fetch_failure_leaves_cursor_open_witness :
  exists db',
    query strict_backend "INSERT INTO t (a) VALUES ('%s')" [VInt 1]
          false false connected
    = (Raise (NameError "exception"), db')
    /\ wire db'
       = [EvConnect; EvCursor 0; EvCursor 1;
          EvExecute 0 "INSERT INTO t (a) VALUES (%s)" [VInt 1];
          EvFetchall 0].
Proof.
  destruct (fetch_failure_leaves_cursor_open
              strict_backend connected "INSERT INTO t (a) VALUES ('%s')"
              [VInt 1] false 1%Z VNone "INSERT INTO t (a) VALUES (%s)"
              eq_refl eq_refl)
    as (_ & H).
  destruct (H (DriverError "no results to fetch") eq_refl)
    as (db' & H1 & H2 & _).
  exists db'. split; [exact H1|]. rewrite H2. reflexivity.
Defined.

Lemma delete_joins_conditions_without_space_witness :
  delete plain_backend "t" (Some [("a", VNone); ("b", VInt 5)]) [] connected
  = (_ <- query plain_backend
                ("DELETE FROM " ++ quoted "t" ++ "  WHERE "
                 ++ quoted "a" ++ " IS NULL AND" ++ quoted "b" ++ " = %s")
                [VInt 5] false false ;;
     gets affected_rows) connected.
Proof.
  destruct (delete_joins_conditions_without_space plain_backend connected)
    as (_ & _ & _ & H & _).
  apply H. reflexivity.
Defined.

(* ================================================================== *)
(** * More on the normalizer *)
(* ================================================================== *)

Module NormalizerFacts.
Import Str StrFacts.

Lemma all_chars_app (keep : ascii -> bool) (a b : string) :
  all_chars keep (a ++ b) = all_chars keep a && all_chars keep b.
Proof.
  induction a as [|c a IH]; simpl; [reflexivity|].
  rewrite IH. now rewrite andb_assoc.
Qed.

Lemma all_chars_drop (keep : ascii -> bool) (s : string) :
  forall k, all_chars keep s = true -> all_chars keep (drop k s) = true.
Proof.
  induction s as [|c s IH]; intros [|k] H; try exact H; try reflexivity.
  simpl in *. apply andb_true_iff in H as [_ H]. now apply IH.
Qed.

(** A scan that finds no match anywhere gives the text back. *)
Lemma scan_identity (m : string -> option nat) (repl s : string) :
  (forall k, m (drop k s) = None) -> scan_from m repl 0 s = s.
Proof.
  induction s as [|c t IH]; intros H; [reflexivity|].
  rewrite scan_nomatch by exact (H 0).
  f_equal. apply IH. intros k. exact (H (S k)).
Qed.

Lemma literal_percent_free (tok s : string) :
  percent_free tok = false -> percent_free s = true ->
  literal tok s = None.
Proof.
  intros Htok Hs. unfold literal.
  destruct (prefix tok s) eqn:E; [|reflexivity].
  apply prefix_split in E. rewrite <- E in Hs.
  unfold percent_free in *. rewrite all_chars_app in Hs.
  apply andb_true_iff in Hs as [Hs _]. congruence.
Qed.

Lemma run_of_percent_free (s : string) :
  percent_free s = true -> run_of "%" s = None.
Proof.
  intros Hs. unfold run_of.
  destruct s as [|c t]; [reflexivity|].
  simpl in *. apply andb_true_iff in Hs as [Hc _].
  apply negb_true_iff in Hc. now rewrite Hc.
Qed.

Lemma str_replace_percent_free (tok marker s : string) :
  percent_free tok = false -> percent_free s = true ->
  str_replace tok marker s = s.
Proof.
  intros Htok Hs. unfold str_replace.
  destruct tok as [|x tok]; [discriminate|].
  apply scan_identity. intros k.
  apply literal_percent_free; [exact Htok | now apply all_chars_drop].
Qed.

(** A template without a percent sign goes through the five rules
    unchanged, whatever the marker is. *)
Theorem normalize_percent_free (marker sql : string) :
  percent_free sql = true -> normalize marker sql = sql.
Proof.
  intros H. unfold normalize, apply_rules, normalizer_rules.
  cbn [fold_left].
  rewrite (str_replace_percent_free "'%s'") by (reflexivity || exact H).
  rewrite (str_replace_percent_free (quoted "%s"))
    by (reflexivity || exact H).
  rewrite (str_replace_percent_free "%f") by (reflexivity || exact H).
  rewrite (str_replace_percent_free "%d") by (reflexivity || exact H).
  unfold preg_replace_run. apply scan_identity. intros k.
  apply run_of_percent_free. now apply all_chars_drop.
Qed.

Lemma normalize_percent_free_witness :
  percent_free "SELECT id, name FROM people ORDER BY 'name'" = true
  /\ normalize "%s" "SELECT id, name FROM people ORDER BY 'name'"
     = "SELECT id, name FROM people ORDER BY 'name'".
Proof.
  split; [reflexivity|].
  apply (normalize_percent_free
           "%s" "SELECT id, name FROM people ORDER BY 'name'").
  reflexivity.
Defined.

Lemma contains_drop (tok s : string) :
  forall k, contains tok (drop k s) = true -> contains tok s = true.
Proof.
  induction s as [|d s IH]; intros [|k] H; try exact H.
  simpl drop in H. rewrite contains_cons. apply IH in H. rewrite H.
  apply orb_true_r.
Qed.

Lemma contains_tail (tok : string) (d : ascii) (s : string) :
  contains tok (String d s) = false -> contains tok s = false.
Proof.
  rewrite contains_cons. intros H. now apply orb_false_iff in H as [_ H].
Qed.

Section Directives.

(** [c] is the percent sign, [z] the letter of the marker. *)
Variables c z : ascii.

Let pair (y : ascii) : string := String c (String y EmptyString).

Lemma prefix_pair (y d : ascii) (s : string) :
  prefix (pair y) (String d s) = Ascii.eqb d c && starts_with_char y s.
Proof.
  unfold pair. simpl.
  destruct (Ascii.eqb_spec d c) as [Hd|Hd].
  - subst d. destruct (ascii_dec c c); [|congruence].
    destruct s as [|h s]; [reflexivity|]. simpl.
    destruct (Ascii.eqb_spec h y) as [Hh|Hh].
    + subst h. destruct (ascii_dec y y); [now destruct s | congruence].
    + destruct (ascii_dec y h); [congruence | reflexivity].
  - destruct (ascii_dec c d); [congruence | reflexivity].
Qed.

Lemma literal_pair (x d : ascii) (s : string) :
  literal (pair x) (String d s)
  = if Ascii.eqb d c && starts_with_char x s then Some 2 else None.
Proof. unfold literal. now rewrite prefix_pair. Qed.

(** Replacing the directive [c x] by the marker [c z]. *)
Let replace (x : ascii) (s : string) : string :=
  scan_from (literal (pair x)) (pair z) 0 s.

Lemma replace_match (x : ascii) (s : string) :
  starts_with_char x s = true ->
  replace x (String c s)
  = String c (String z (replace x (drop 1 s))).
Proof.
  intros H. unfold replace.
  rewrite (scan_match _ _ c s 1); [reflexivity|].
  now rewrite literal_pair, Ascii.eqb_refl, H.
Qed.

Lemma replace_nomatch (x d : ascii) (s : string) :
  Ascii.eqb d c && starts_with_char x s = false ->
  replace x (String d s) = String d (replace x s).
Proof.
  intros H. unfold replace. apply scan_nomatch.
  now rewrite literal_pair, H.
Qed.

Lemma replace_head (x y : ascii) (s : string) :
  y <> c ->
  starts_with_char y (replace x s) = true -> starts_with_char y s = true.
Proof.
  intros Hy. destruct s as [|d s]; [intros H; exact H|].
  destruct (Ascii.eqb d c && starts_with_char x s) eqn:E.
  - apply andb_true_iff in E as [Ed Ex]. apply Ascii.eqb_eq in Ed. subst d.
    rewrite (replace_match x s Ex). simpl.
    intros H. apply Ascii.eqb_eq in H. congruence.
  - rewrite (replace_nomatch x d s E). intros H. exact H.
Qed.

(** After the replacement the text has the directive [c y] nowhere, if
    [c y] is the directive replaced or the text had none before. *)
Lemma replace_no_directive (x y : ascii) :
  z <> c -> y <> c -> y <> z ->
  forall s,
    y = x \/ contains (pair y) s = false ->
    contains (pair y) (replace x s) = false.
Proof.
  intros Hzc Hyc Hyz s.
  remember (String.length s) as len eqn:Hlen. revert s Hlen.
  induction len as [len IH] using lt_wf_ind. intros s Hlen H.
  destruct s as [|d s]; [reflexivity|].
  destruct (Ascii.eqb d c && starts_with_char x s) eqn:E.
  - apply andb_true_iff in E as [Ed Ex]. apply Ascii.eqb_eq in Ed. subst d.
    rewrite (replace_match x s Ex).
    rewrite contains_cons, prefix_pair, Ascii.eqb_refl.
    cbn [starts_with_char andb].
    replace (Ascii.eqb z y) with false
      by (symmetry; apply Ascii.eqb_neq; congruence).
    rewrite contains_cons, prefix_pair.
    replace (Ascii.eqb z c) with false
      by (symmetry; now apply Ascii.eqb_neq).
    cbn [orb andb].
    apply (IH (String.length (drop 1 s))); [|reflexivity|].
    + subst len. pose proof (drop_length_le 1 s).
      cbn [String.length]. lia.
    + destruct H as [H|H]; [now left | right].
      destruct (contains (pair y) (drop 1 s)) eqn:Ec; [|reflexivity].
      apply contains_drop in Ec. apply contains_tail in H. congruence.
  - rewrite (replace_nomatch x d s E).
    rewrite contains_cons, prefix_pair.
    replace (Ascii.eqb d c && starts_with_char y (replace x s)) with false.
    + cbn [orb]. apply (IH (String.length s)); [|reflexivity|].
      * subst len. simpl. lia.
      * destruct H as [H|H]; [now left | right].
        now apply contains_tail in H.
    + symmetry. destruct (Ascii.eqb d c) eqn:Ed; [|reflexivity].
      cbn [andb] in *.
      destruct (starts_with_char y (replace x s)) eqn:Es; [|reflexivity].
      apply (replace_head x y _ Hyc) in Es.
      destruct H as [H|H].
      * subst y. congruence.
      * rewrite contains_cons, prefix_pair, Ed, Es in H. discriminate.
Qed.

(** Collapsing the runs of [c] brings in no directive [c y]. *)
Lemma preg_head (y : ascii) (s : string) :
  starts_with_char y (preg_replace_run c s) = starts_with_char y s.
Proof.
  destruct s as [|d t]; [reflexivity|].
  destruct (Nat.leb 2 (leading c (String d t))) eqn:E.
  - apply Nat.leb_le in E. destruct (preg_run c d t E) as [-> ->].
    reflexivity.
  - apply Nat.leb_gt in E. now rewrite preg_norun.
Qed.

Lemma leading_next (s : string) (k : nat) :
  leading c s = S k -> drop k s = String c (drop (S k) s).
Proof.
  revert k. induction s as [|d s IH]; intros k H; [discriminate|].
  simpl in H. destruct (Ascii.eqb_spec d c) as [Hd|Hd]; [|discriminate].
  subst d. injection H as H. destruct k as [|k].
  - reflexivity.
  - simpl drop. now apply IH.
Qed.

Lemma preg_no_directive (y : ascii) :
  y <> c ->
  forall s,
    contains (pair y) s = false ->
    contains (pair y) (preg_replace_run c s) = false.
Proof.
  intros Hyc s.
  remember (String.length s) as len eqn:Hlen. revert s Hlen.
  induction len as [len IH] using lt_wf_ind. intros s Hlen H.
  destruct s as [|d t]; [reflexivity|].
  destruct (Nat.leb 2 (leading c (String d t))) eqn:E.
  - apply Nat.leb_le in E. destruct (preg_run c d t E) as [-> ->].
    rewrite contains_cons, prefix_pair, Ascii.eqb_refl, preg_head.
    cbn [andb].
    assert (Hk : exists k, leading c t = S k).
    { simpl in E. rewrite Ascii.eqb_refl in E.
      destruct (leading c t) as [|k]; [lia | now exists k]. }
    destruct Hk as [k Hk].
    assert (Hrest : contains (pair y) (drop (leading c t) t) = false).
    { destruct (contains (pair y) (drop (leading c t) t)) eqn:Ec;
        [|reflexivity].
      apply contains_drop in Ec. apply contains_tail in H. congruence. }
    replace (starts_with_char y (drop (leading c t) t)) with false.
    + cbn [orb].
      apply (IH (String.length (drop (leading c t) t))); [|reflexivity|].
      * subst len. pose proof (drop_length_le (leading c t) t).
        cbn [String.length]. lia.
      * exact Hrest.
    + symmetry.
      destruct (starts_with_char y (drop (leading c t) t)) eqn:Es;
        [|reflexivity].
      apply contains_tail in H.
      assert (Hc : contains (pair y) (drop k t) = true).
      { rewrite (leading_next t k Hk), contains_cons, prefix_pair.
        rewrite Ascii.eqb_refl. rewrite <- Hk. now rewrite Es. }
      apply contains_drop in Hc. congruence.
  - apply Nat.leb_gt in E. rewrite (preg_norun c d t E).
    rewrite contains_cons, prefix_pair, preg_head.
    rewrite contains_cons, prefix_pair in H.
    apply orb_false_iff in H as [H1 H2]. rewrite H1. cbn [orb].
    apply (IH (String.length t)); [|reflexivity|exact H2].
    subst len. simpl. lia.
Qed.

End Directives.

(** With the marker [%s], the text [prepare] makes of any template has
    no [%d], no [%f] and no [%%] left. *)
Theorem normalize_leaves_no_legacy_directive (sql : string) :
  contains "%d" (normalize "%s" sql) = false
  /\ contains "%f" (normalize "%s" sql) = false
  /\ contains "%%" (normalize "%s" sql) = false.
Proof.
  unfold normalize, apply_rules, normalizer_rules. cbn [fold_left].
  set (s2 := str_replace (quoted "%s") "%s" (str_replace "'%s'" "%s" sql)).
  assert (H3 : contains "%f" (str_replace "%f" "%s" s2) = false).
  { apply (replace_no_directive "%" "s" "f" "f");
      [discriminate | discriminate | discriminate | now left]. }
  set (s3 := str_replace "%f" "%s" s2) in *.
  assert (H4d : contains "%d" (str_replace "%d" "%s" s3) = false).
  { apply (replace_no_directive "%" "s" "d" "d");
      [discriminate | discriminate | discriminate | now left]. }
  assert (H4f : contains "%f" (str_replace "%d" "%s" s3) = false).
  { apply (replace_no_directive "%" "s" "d" "f");
      [discriminate | discriminate | discriminate | now right]. }
  set (s4 := str_replace "%d" "%s" s3) in *.
  split; [|split].
  - apply (preg_no_directive "%" "d"); [discriminate | exact H4d].
  - apply (preg_no_directive "%" "f"); [discriminate | exact H4f].
  - apply preg_no_run.
Qed.

End NormalizerFacts.

(* ================================================================== *)
(** * The server version *)
(* ================================================================== *)

Module VersionFacts.
Import Str StrFacts.

Lemma line_feed_is_junk : is_version_char "010"%char = false.
Proof. reflexivity. Qed.

(** What [.*] leaves is empty or starts at a line feed. *)
Lemma after_line (s : string) :
  drop (line_length s) s = EmptyString
  \/ starts_with_char "010"%char (drop (line_length s) s) = true.
Proof.
  induction s as [|c t IH]; [now left|].
  simpl line_length. destruct (Ascii.eqb c "010"%char) eqn:E.
  - right. simpl. exact E.
  - simpl drop. exact IH.
Qed.

(** From a character that is neither digit nor dot on, nothing is kept. *)
Lemma junk_removed (s : string) :
  s = EmptyString
  \/ (exists c t, s = String c t /\ is_version_char c = false) ->
  preg_replace_junk s = EmptyString.
Proof.
  remember (String.length s) as len eqn:Hlen. revert s Hlen.
  induction len as [len IH] using lt_wf_ind. intros s Hlen H.
  destruct H as [->|(c & t & -> & Hc)]; [reflexivity|].
  unfold preg_replace_junk.
  rewrite (scan_match _ _ c t (line_length t));
    [|simpl; now rewrite Hc].
  simpl append.
  apply (IH (String.length (drop (line_length t) t))); [|reflexivity|].
  - subst len. pose proof (drop_length_le (line_length t) t).
    cbn [String.length]. lia.
  - destruct (after_line t) as [E|E]; [now left | right].
    destruct (drop (line_length t) t) as [|d r]; [discriminate|].
    exists d, r. split; [reflexivity|].
    simpl in E. apply Ascii.eqb_eq in E. subst d. reflexivity.
Qed.

Lemma preg_replace_junk_eq (s : string) :
  preg_replace_junk s = take_while is_version_char s.
Proof.
  induction s as [|c t IH]; [reflexivity|].
  simpl take_while. destruct (is_version_char c) eqn:Hc.
  - unfold preg_replace_junk in *. rewrite scan_nomatch.
    + now rewrite IH.
    + simpl. now rewrite Hc.
  - apply junk_removed. right. now exists c, t.
Qed.

Lemma take_while_all (keep : ascii -> bool) (s : string) :
  all_chars keep (take_while keep s) = true.
Proof.
  induction s as [|c t IH]; [reflexivity|].
  simpl. destruct (keep c) eqn:E; [|reflexivity].
  simpl. now rewrite E.
Qed.

Lemma take_while_prefix (keep : ascii -> bool) (s : string) :
  prefix (take_while keep s) s = true.
Proof.
  induction s as [|c t IH]; [reflexivity|].
  simpl. destruct (keep c); [|reflexivity].
  simpl. destruct (ascii_dec c c); [exact IH | congruence].
Qed.

Lemma take_while_kept (keep : ascii -> bool) (s : string) :
  all_chars keep s = true -> take_while keep s = s.
Proof.
  induction s as [|c t IH]; [reflexivity|].
  simpl. intros H. apply andb_true_iff in H as [Hc Ht].
  rewrite Hc. now rewrite IH.
Qed.

(** [db_version] gives the raw version string up to its first character
    that is neither a digit nor a dot: the result is a prefix of the raw
    string made of digits and dots only, a raw string of digits and dots
    is given back whole, and the session is as the hook left it. *)
Theorem db_version_keeps_leading_number
        (hook : M string) (db db' : Database) (raw : string) :
  hook db = (Ret raw, db') ->
  db_version hook db = (Ret (take_while is_version_char raw), db')
  /\ all_chars is_version_char (take_while is_version_char raw) = true
  /\ prefix (take_while is_version_char raw) raw = true
  /\ (all_chars is_version_char raw = true ->
      db_version hook db = (Ret raw, db')).
Proof.
  intros H.
  assert (E : db_version hook db
              = (Ret (take_while is_version_char raw), db')).
  { unfold db_version, bind. rewrite H. unfold ret.
    now rewrite preg_replace_junk_eq. }
  split; [exact E|].
  split; [apply take_while_all|].
  split; [apply take_while_prefix|].
  intros Hall. rewrite E. now rewrite take_while_kept.
Qed.

Lemma db_version_keeps_leading_number_witness :
  db_version (ret "5.7.15-0ubuntu0.16.04.1-log") connected
  = (Ret "5.7.15", connected).
Proof.
  destruct (db_version_keeps_leading_number
              (ret "5.7.15-0ubuntu0.16.04.1-log")
              connected connected "5.7.15-0ubuntu0.16.04.1-log" eq_refl)
    as (H & _).
  rewrite H. reflexivity.
Defined.

End VersionFacts.

(* ================================================================== *)
(** * More on the engine *)
(* ================================================================== *)

Section EngineMore.

Variable be : Backend.

Ltac simp := cbn -[normalize cursors_opened Z.add Z.sub prepare].

Ltac simp_all := cbn -[normalize cursors_opened Z.add Z.sub prepare] in *.

Ltac run :=
  unfold query, bind, connect, _connect, connection_cursor, gets,
    modify, emit, ret, raise, mogrify_or_sql, cursor_execute,
    cursor_callproc, cursor_fetchall, cursor_close, try_except, lift, when,
    timer_start, timer_stop, load_name;
  simp.

Ltac tidy :=
  repeat rewrite cursors_opened_cursor in *;
  repeat rewrite cursors_opened_connect in *;
  repeat rewrite <- app_assoc in *;
  cbn [app] in *.

Lemma query_state_kept
      (db : Database) (sql : string) (args : list pyval)
      (proc one : bool) :
  let db' := snd (query be sql args proc one db) in
  _in_transaction db' = _in_transaction db
  /\ _connection db' = Some Connection
  /\ _placeholder db' = _placeholder db
  /\ save_queries db' = save_queries db
  /\ last_error db' = last_error db.
Proof.
  destruct db as [conn intx sv svd lii lq le lr ar qe ts tp ph w].
  destruct be as [mog exe cp fa bg cm rb tm fmt clr] eqn:Ebe.
  rewrite <- Ebe. run.
  destruct proc.
  - rewrite Ebe. destruct conn as [[]|]; simp.
    all: destruct (cp _ sql args) as [[rc lid]|e]; simp;
      [|now repeat split].
    all: destruct (fa _) as [[rows|]|e]; simp; now repeat split.
  - destruct conn as [[]|]; simp; rewrite prepare_eq; unfold after_connect;
      simp; rewrite Ebe; simp.
    all: destruct mog as [mogrify|];
      [destruct (mogrify _ args) as [shown|e]; simp; [|now repeat split]|];
      simp.
    all: destruct sv; simp.
    all: destruct (exe _ _ args) as [[rc lid]|e]; simp; [|now repeat split].
    all: destruct (fa _) as [[rows|]|e]; simp; now repeat split.
Qed.

(** Whatever the driver answers, [query] leaves the transaction flag, the
    marker, the logging switch and the last error text as they were, and
    the session connected. *)
Theorem query_keeps_transaction_state
        (db : Database) (sql : string) (args : list pyval)
        (proc one : bool) :
  let db' := snd (query be sql args proc one db) in
  _in_transaction db' = _in_transaction db
  /\ _connection db' = Some Connection
  /\ _placeholder db' = _placeholder db
  /\ save_queries db' = save_queries db
  /\ last_error db' = last_error db.
Proof. apply query_state_kept. Qed.

(** The plain path in full, when the driver runs the statement and hands
    over its rows. *)
Lemma query_plain_state (db : Database) (sql : string) (args : list pyval)
      (one : bool) (rc : Z) (lid : pyval) (rv : option (list row))
      (shown : string) :
  let sql' := normalize (_placeholder db) sql in
  let n := cursors_opened (wire db) in
  let W := wire_before_execute db in
  let elapsed :=
    be_format_timedelta be
      (be_timer be (W ++ [EvExecute n sql' args]) - be_timer be W) in
  shown_text be sql' args = Ret shown ->
  be_execute be W sql' args = Ret (rc, lid) ->
  be_fetchall be (W ++ [EvExecute n sql' args]) = Ret rv ->
  exists db',
    query be sql args false one db = (Ret (result_of one rv), db')
    /\ saved_queries db'
       = (if save_queries db
          then saved_queries db
               ++ [(shown, elapsed,
                    ("file " ++ fst (be_caller be) ++ ", function "
                     ++ snd (be_caller be))%string)]
          else saved_queries db)
    /\ _last_result db'
       = match rv with
         | None => _last_result db
         | Some _ => result_of one rv
         end
    /\ last_query db' = VStr shown
    /\ (save_queries db = true ->
        last_query_elapsed_time be db' = (Ret elapsed, db')).
Proof.
  intros sql' n W elapsed. subst sql' n W elapsed.
  unfold wire_before_execute, shown_text.
  destruct db as [conn intx sv svd lii lq le lr ar qe ts tp ph w].
  destruct be as [mog exe cp fa bg cm rb tm fmt clr] eqn:Ebe.
  unfold after_connect. simp. intros Hs He Hf.
  rewrite <- Ebe. run.
  destruct conn as [[]|]; simp; rewrite prepare_eq; unfold after_connect;
    simp; tidy; rewrite Ebe; simp_all; tidy.
  all: destruct mog as [mogrify|]; [rewrite Hs | injection Hs as <-]; simp.
  all: destruct sv; simp; tidy; rewrite He; simp; tidy; rewrite Hf; simp.
  all: unfold result_of; destruct rv as [rows|]; simp; tidy.
  all: eexists; repeat split; simp; tidy; try reflexivity;
    try discriminate.
Qed.

(** When the driver refuses the statement, [query] raises what the driver
    raised.  The statement text is by then recorded as the last query;
    the counter of executed queries, the affected-row count and the log
    are as they were; and the cursor opened for the statement is never
    closed: the refused statement is the last thing the driver is asked. *)
Theorem query_execute_failure
        (db : Database) (sql : string) (args : list pyval) (one : bool)
        (e : exn) (shown : string) :
  let sql' := normalize (_placeholder db) sql in
  let n := cursors_opened (wire db) in
  let W := wire_before_execute db in
  shown_text be sql' args = Ret shown ->
  be_execute be W sql' args = Raise e ->
  exists db',
    query be sql args false one db = (Raise e, db')
    /\ last_query db' = VStr shown
    /\ queries_executed db' = queries_executed db
    /\ affected_rows db' = affected_rows db
    /\ last_insert_id db' = last_insert_id db
    /\ saved_queries db' = saved_queries db
    /\ _last_result db' = _last_result db
    /\ wire db' = W ++ [EvExecute n sql' args].
Proof.
  intros sql' n W. subst sql' n W.
  unfold wire_before_execute, shown_text.
  destruct db as [conn intx sv svd lii lq le lr ar qe ts tp ph w].
  destruct be as [mog exe cp fa bg cm rb tm fmt clr] eqn:Ebe.
  unfold after_connect. simp. intros Hs He.
  rewrite <- Ebe. run.
  destruct conn as [[]|]; simp; rewrite prepare_eq; unfold after_connect;
    simp; tidy; rewrite Ebe; simp_all; tidy.
  all: destruct mog as [mogrify|]; [rewrite Hs | injection Hs as <-]; simp.
  all: destruct sv; simp; tidy; rewrite He; simp; tidy.
  all: eexists; repeat split; simp; tidy; reflexivity.
Qed.

(** With [save_queries] on, a statement that runs adds exactly one entry
    to the log: the text recorded as last query, the elapsed time between
    the two timer readings around the statement, and the caller; the
    [last_query_elapsed_time] view then gives that same elapsed time.  With
    [save_queries] off the log is left alone. *)
Theorem query_logs_one_entry
        (db : Database) (sql : string) (args : list pyval) (one : bool)
        (rc : Z) (lid : pyval) (rv : option (list row)) (shown : string) :
  let sql' := normalize (_placeholder db) sql in
  let n := cursors_opened (wire db) in
  let W := wire_before_execute db in
  let elapsed :=
    be_format_timedelta be
      (be_timer be (W ++ [EvExecute n sql' args]) - be_timer be W) in
  shown_text be sql' args = Ret shown ->
  be_execute be W sql' args = Ret (rc, lid) ->
  be_fetchall be (W ++ [EvExecute n sql' args]) = Ret rv ->
  exists db',
    query be sql args false one db = (Ret (result_of one rv), db')
    /\ last_query db' = VStr shown
    /\ (save_queries db = false -> saved_queries db' = saved_queries db)
    /\ (save_queries db = true ->
        saved_queries db'
        = saved_queries db
          ++ [(shown, elapsed,
               ("file " ++ fst (be_caller be) ++ ", function "
                ++ snd (be_caller be))%string)]
        /\ last_query_elapsed_time be db' = (Ret elapsed, db')).
Proof.
  intros sql' n W elapsed Hs He Hf.
  destruct (query_plain_state db sql args one rc lid rv shown Hs He Hf)
    as (db' & Hq & Hlog & _ & Hlq & Hel).
  exists db'. split; [exact Hq|]. split; [exact Hlq|]. split.
  - intros Hoff. now rewrite Hlog, Hoff.
  - intros Hon. split; [now rewrite Hlog, Hon | now apply Hel].
Qed.

(** A statement that produces no result set makes [query] return [None]
    with the counters updated, and the session goes on holding the result
    of an earlier query as its last result; a statement that produces
    rows makes the returned value the last result. *)
Theorem query_without_result_set_keeps_last_result
        (db : Database) (sql : string) (args : list pyval) (one : bool)
        (rc : Z) (lid : pyval) (rv : option (list row)) (shown : string) :
  let sql' := normalize (_placeholder db) sql in
  let n := cursors_opened (wire db) in
  let W := wire_before_execute db in
  shown_text be sql' args = Ret shown ->
  be_execute be W sql' args = Ret (rc, lid) ->
  be_fetchall be (W ++ [EvExecute n sql' args]) = Ret rv ->
  exists r db',
    query be sql args false one db = (Ret r, db')
    /\ affected_rows db' = rc
    /\ queries_executed db' = (queries_executed db + 1)%Z
    /\ (rv = None -> r = QNone /\ _last_result db' = _last_result db)
    /\ (rv <> None -> _last_result db' = r).
Proof.
  intros sql' n W Hs He Hf.
  destruct (query_plain_state db sql args one rc lid rv shown Hs He Hf)
    as (db' & Hq & _ & Hlr & _).
  destruct (query_plain_ok be db sql args one rc lid rv shown Hs He Hf)
    as (db'' & Hq' & Har & _ & Hqe & _).
  rewrite Hq in Hq'. injection Hq' as <-.
  exists (result_of one rv), db'.
  split; [exact Hq|]. split; [exact Har|]. split; [exact Hqe|]. split.
  - intros ->. now split.
  - intros Hrv. rewrite Hlr. destruct rv; [reflexivity | congruence].
Qed.

(** [call_procedure] hands the driver the procedure name and the
    arguments as given, with no rewriting of placeholders, through one
    cursor that it opens and closes; the last query is the name directly
    followed by the arguments joined with commas. *)
Theorem call_procedure_passes_name_verbatim
        (db : Database) (procedure : string) (args : list pyval)
        (rc : Z) (lid : pyval) (rv : option (list row)) :
  let n := cursors_opened (wire db) in
  be_callproc be (wire_before_callproc db) procedure args = Ret (rc, lid) ->
  be_fetchall be (wire_before_callproc db ++ [EvCallproc n procedure args])
  = Ret rv ->
  exists db',
    call_procedure be procedure args db = (Ret (result_of false rv), db')
    /\ wire db' = wire (after_connect db)
                  ++ [EvCursor n; EvCallproc n procedure args;
                      EvFetchall n; EvCursorClose n]
    /\ last_query db'
       = VStr (procedure ++ Str.join ", " (map py_str args))
    /\ affected_rows db' = rc.
Proof.
  intros n Hc Hf.
  destruct (query_proc_ok be db procedure args false rc lid rv Hc Hf)
    as (db' & Hq & Har & _ & _ & Hlq & Hw).
  exists db'. split; [exact Hq|]. split.
  - rewrite Hw. unfold wire_before_callproc. now rewrite <- app_assoc.
  - now split.
Qed.

(** [query_one] gives the record of the first row, or [None] when the
    statement produced no row or no result set. *)
Theorem query_one_first_or_none
        (db : Database) (sql : string) (args : list pyval)
        (rc : Z) (lid : pyval) (rv : option (list row)) (shown : string) :
  let sql' := normalize (_placeholder db) sql in
  let n := cursors_opened (wire db) in
  let W := wire_before_execute db in
  shown_text be sql' args = Ret shown ->
  be_execute be W sql' args = Ret (rc, lid) ->
  be_fetchall be (W ++ [EvExecute n sql' args]) = Ret rv ->
  exists db',
    query_one be sql args db
    = (Ret match rv with
           | Some (r :: _) => QRecord (record_of_row r)
           | _ => QNone
           end, db')
    /\ query be sql args false true db = query_one be sql args db.
Proof.
  intros sql' n W Hs He Hf.
  destruct (query_plain_ok be db sql args true rc lid rv shown Hs He Hf)
    as (db' & Hq & _).
  exists db'. unfold query_one, try_except. rewrite Hq. split.
  - f_equal. f_equal. destruct rv as [[|r rows]|]; reflexivity.
  - reflexivity.
Qed.

(** With a driver that never fails, the statements of any list all run,
    and the counter of executed queries goes up by their number. *)
Theorem query_all_counts
        (statements : list (string * list pyval)) :
  cooperative be ->
  forall db,
  exists db',
    query_all be statements db = (Ret tt, db')
    /\ queries_executed db'
       = (queries_executed db + Z.of_nat (List.length statements))%Z.
Proof.
  intros (Hexe & Hfetch & Hmog).
  induction statements as [|[sql args] rest IH]; intros db.
  - exists db. split; [reflexivity|]. simpl. lia.
  - set (sql' := normalize (_placeholder db) sql).
    assert (Hs : exists shown, shown_text be sql' args = Ret shown).
    { unfold shown_text. destruct (be_mogrify be) as [mogrify|] eqn:E.
      - now apply (Hmog mogrify).
      - now exists sql'. }
    destruct Hs as [shown Hs].
    destruct (Hexe (wire_before_execute db) sql' args) as [[rc lid] He].
    destruct (Hfetch (wire_before_execute db
                      ++ [EvExecute (cursors_opened (wire db)) sql' args]))
      as [rv Hf].
    destruct (query_plain_ok be db sql args false rc lid rv shown Hs He Hf)
      as (db1 & Hq & _ & _ & Hqe & _).
    destruct (IH db1) as (db' & Hall & Hcount).
    exists db'. split.
    + cbn [query_all]. now rewrite (bind_ret _ _ _ _ _ Hq).
    + rewrite Hcount, Hqe. cbn [List.length]. lia.
Qed.

End EngineMore.

Lemma plain_backend_cooperative : cooperative plain_backend.
Proof.
  split; [|split].
  - intros w sql args. simpl. destruct (prefix "SELECT" sql); eauto.
  - intros w. simpl. destruct (last_statement w) as [sql|]; [|eauto].
    destruct (prefix "SELECT" sql); eauto.
  - intros mogrify sql args H. discriminate.
Qed.

Lemma query_execute_failure_witness :
  exists db',
    query refusing_backend "DELETE FROM t WHERE id = %d" [VInt 3] false
          false connected
    = (Raise (DriverError "syntax error"), db')
    /\ last_query db' = VStr "DELETE FROM t WHERE id = %s"
    /\ queries_executed db' = 0%Z
    /\ wire db' = [EvConnect; EvCursor 0; EvCursor 1;
                   EvExecute 0 "DELETE FROM t WHERE id = %s" [VInt 3]].
Proof.
  destruct (query_execute_failure
              refusing_backend connected "DELETE FROM t WHERE id = %d"
              [VInt 3] false (DriverError "syntax error")
              "DELETE FROM t WHERE id = %s" eq_refl eq_refl)
    as (db' & H1 & H2 & H3 & _ & _ & _ & _ & H8).
  exists db'. split; [exact H1|]. split; [exact H2|].
  split; [exact H3|]. rewrite H8. reflexivity.
Defined.

Lemma query_logs_one_entry_witness :
  exists db',
    query plain_backend "SELECT * FROM people" [] false false saving_session
    = (Ret (QRecords (map record_of_row two_rows)), db')
    /\ saved_queries db'
       = [("SELECT * FROM people", "1", "file app.py, function main")]
    /\ last_query_elapsed_time plain_backend db' = (Ret "1", db').
Proof.
  destruct (query_logs_one_entry
              plain_backend saving_session "SELECT * FROM people" [] false
              2%Z VNone (Some two_rows) "SELECT * FROM people"
              eq_refl eq_refl eq_refl)
    as (db' & H1 & _ & _ & H4).
  destruct (H4 eq_refl) as [H5 H6].
  exists db'. split; [exact H1|]. split; [rewrite H5; reflexivity|].
  rewrite H6. reflexivity.
Defined.

Lemma query_without_result_set_keeps_last_result_witness :
  exists db',
    query silent_backend "DELETE FROM people" [] false false saving_session
    = (Ret QNone, db')
    /\ affected_rows db' = 1%Z
    /\ _last_result db' = QRecords [mkRecord ["x"] [VInt 1]].
Proof.
  destruct (query_without_result_set_keeps_last_result
              silent_backend saving_session "DELETE FROM people" [] false
              1%Z VNone None "DELETE FROM people" eq_refl eq_refl eq_refl)
    as (r & db' & H1 & H2 & _ & H4 & _).
  destruct (H4 eq_refl) as [-> H5].
  exists db'. split; [exact H1|]. split; [exact H2|].
  rewrite H5. reflexivity.
Defined.

Lemma call_procedure_passes_name_verbatim_witness :
  exists db',
    call_procedure plain_backend "add_%d" [VInt 1; VInt 2] connected
    = (Ret (QRecords []), db')
    /\ wire db' = [EvConnect; EvCursor 0;
                   EvCallproc 0 "add_%d" [VInt 1; VInt 2];
                   EvFetchall 0; EvCursorClose 0]
    /\ last_query db' = VStr "add_%d1, 2".
Proof.
  destruct (call_procedure_passes_name_verbatim
              plain_backend connected "add_%d" [VInt 1; VInt 2]
              0%Z VNone (Some []) eq_refl eq_refl)
    as (db' & H1 & H2 & H3 & _).
  exists db'. split; [exact H1|]. split; [rewrite H2 | rewrite H3];
    reflexivity.
Defined.

Lemma query_one_first_or_none_witness :
  exists db',
    query_one plain_backend "SELECT * FROM people" [] connected
    = (Ret (QRecord (mkRecord ["id"; "name"] [VInt 1; VStr "ann"])), db').
Proof.
  destruct (query_one_first_or_none
              plain_backend connected "SELECT * FROM people" []
              2%Z VNone (Some two_rows) "SELECT * FROM people"
              eq_refl eq_refl eq_refl)
    as (db' & H1 & _).
  exists db'. rewrite H1. reflexivity.
Defined.

Lemma query_all_counts_witness :
  exists db',
    query_all plain_backend
              [("INSERT INTO t (a) VALUES (%d)", [VInt 1]);
               ("SELECT * FROM t", []);
               ("DELETE FROM t", [])] connected
    = (Ret tt, db')
    /\ queries_executed db' = 3%Z.
Proof.
  destruct (query_all_counts
              plain_backend
              [("INSERT INTO t (a) VALUES (%d)", [VInt 1]);
               ("SELECT * FROM t", []);
               ("DELETE FROM t", [])]
              plain_backend_cooperative connected)
    as (db' & H1 & H2).
  exists db'. split; [exact H1|]. rewrite H2. reflexivity.
Defined.

(* ================================================================== *)
(** * More on shaped retrieval *)
(* ================================================================== *)

Section RetrievalFacts.

Variable be : Backend.

Lemma results_loop_known (output_type : string) (rows : list record) :
  known_shape output_type = true ->
  forall output_rows,
    fold_left (results_step output_type) rows output_rows
    = output_rows ++ map (shaped_as output_type) rows.
Proof.
  intros Hk. induction rows as [|row rows IH]; intros output_rows.
  - simpl. now rewrite app_nil_r.
  - cbn [fold_left map]. rewrite IH.
    replace (results_step output_type output_rows row)
      with (output_rows ++ [shaped_as output_type row]).
    + now rewrite <- app_assoc.
    + unfold results_step, shaped_as, known_shape in *.
      cbn [existsb] in Hk. rewrite orb_false_r in Hk.
      destruct (String.eqb output_type "record"); [reflexivity|].
      destruct (String.eqb output_type "dict"); [reflexivity|].
      destruct (String.eqb output_type "dataset"); [reflexivity|].
      destruct (String.eqb output_type "object"); [reflexivity|].
      discriminate.
Qed.

(** For one of the four documented output types, whenever the query gives
    a collection: [get_results] returns one element per row, in order,
    and [get_row] at a position of the collection returns the element
    that [get_results] has at that position.  For ['object'] that element
    is the method [as_dict] of the row, not called, where ['dict'] gives
    the mapping the method returns. *)
Theorem get_row_is_a_row_of_get_results
        (db db' : Database) (sql output_type : string) (row_offset : nat)
        (rows : RecordCollection) (row : record) :
  known_shape output_type = true ->
  query be sql [] false false db = (Ret (QRecords rows), db') ->
  nth_error rows row_offset = Some row ->
  exists results,
    get_results be sql output_type db = (Ret results, db')
    /\ List.length results = List.length rows
    /\ get_row be sql output_type row_offset db
       = (Ret (nth_error results row_offset), db')
    /\ nth_error results row_offset = Some (shaped_as output_type row)
    /\ (output_type = "object" -> results = map ShAsDictMethod rows)
    /\ (output_type = "dict" ->
        results = map (fun r => ShDict (as_dict r)) rows).
Proof.
  intros Hk Hq Hrow.
  exists (map (shaped_as output_type) rows).
  split; [|split; [|split; [|split; [|split]]]];
    [ | | | | intros ->; reflexivity | intros ->; reflexivity].
  - unfold get_results. rewrite (bind_ret _ _ _ _ _ Hq).
    now rewrite results_loop_known.
  - apply length_map.
  - unfold get_row. rewrite (bind_ret _ _ _ _ _ Hq).
    unfold getitem. rewrite Hrow. unfold bind, ret.
    rewrite nth_error_map, Hrow. cbn [option_map].
    unfold shaped_as, known_shape in *.
    cbn [existsb] in Hk. rewrite orb_false_r in Hk.
    destruct (String.eqb output_type "record"); [reflexivity|].
    destruct (String.eqb output_type "dict"); [reflexivity|].
    destruct (String.eqb output_type "dataset"); [reflexivity|].
    destruct (String.eqb output_type "object"); [reflexivity|].
    discriminate.
  - now rewrite nth_error_map, Hrow.
Qed.

Lemma column_loop (column_offset : nat) (rows : list record) :
  forall db col db',
    map_m (fun x => record_getitem x column_offset) rows db
    = (Ret col, db') ->
    db' = db
    /\ List.length col = List.length rows
    /\ forall i row, nth_error rows i = Some row ->
                     nth_error (rec_values row) column_offset
                     = nth_error col i.
Proof.
  induction rows as [|r rows IH]; intros db col db' H.
  - cbn [map_m] in H. unfold ret in H. injection H as <- <-.
    repeat split. intros [|i] row Hi; discriminate.
  - cbn [map_m] in H. unfold bind in H.
    unfold record_getitem at 1 in H.
    destruct (nth_error (rec_values r) column_offset) as [v|] eqn:Ev;
      [|discriminate].
    unfold ret in H.
    destruct (map_m (fun x => record_getitem x column_offset) rows db)
      as [[vs|e] db1] eqn:Em; [|discriminate].
    injection H as <- <-.
    destruct (IH db vs db1 Em) as (-> & Hlen & Hnth).
    split; [reflexivity|]. split; [simpl; now rewrite Hlen|].
    intros [|i] row Hi.
    + injection Hi as <-. exact Ev.
    + now apply Hnth.
Qed.

(** Whenever [get_col] returns a column, it has one value per row, and
    [get_var] at a row of the collection returns the value the column has
    at that row. *)
Theorem get_var_is_a_value_of_get_col
        (db db' db'' : Database) (sql : string)
        (column_offset row_offset : nat) (rows : RecordCollection)
        (row : record) (col : list pyval) :
  query be sql [] false false db = (Ret (QRecords rows), db') ->
  get_col be sql column_offset db = (Ret col, db'') ->
  nth_error rows row_offset = Some row ->
  db'' = db'
  /\ List.length col = List.length rows
  /\ exists v,
       nth_error col row_offset = Some v
       /\ get_var be sql column_offset row_offset db = (Ret v, db').
Proof.
  intros Hq Hc Hrow.
  unfold get_col in Hc. rewrite (bind_ret _ _ _ _ _ Hq) in Hc.
  destruct (column_loop column_offset rows db' col db'' Hc)
    as (-> & Hlen & Hnth).
  split; [reflexivity|]. split; [exact Hlen|].
  assert (Hi : row_offset < List.length col).
  { rewrite Hlen. apply nth_error_Some. congruence. }
  destruct (nth_error col row_offset) as [v|] eqn:Ev;
    [|apply nth_error_None in Ev; lia].
  exists v. split; [reflexivity|].
  unfold get_var. rewrite (bind_ret _ _ _ _ _ Hq).
  unfold getitem. rewrite Hrow. unfold bind at 1, ret at 1.
  unfold record_getitem. rewrite (Hnth row_offset row Hrow), Ev.
  reflexivity.
Qed.

(** A statement without a result set leaves nothing to index or to walk:
    [get_var], [get_row], [get_col] and [get_results] raise [TypeError]
    after the statement has run. *)
Theorem retrieval_needs_a_result_set
        (db db' : Database) (sql output_type : string)
        (column_offset row_offset : nat) :
  query be sql [] false false db = (Ret QNone, db') ->
  (exists msg, get_var be sql column_offset row_offset db
               = (Raise (TypeError msg), db'))
  /\ (exists msg, get_row be sql output_type row_offset db
                  = (Raise (TypeError msg), db'))
  /\ (exists msg, get_col be sql column_offset db
                  = (Raise (TypeError msg), db'))
  /\ (exists msg, get_results be sql output_type db
                  = (Raise (TypeError msg), db')).
Proof.
  intros Hq. repeat split; eexists.
  - unfold get_var. rewrite (bind_ret _ _ _ _ _ Hq). reflexivity.
  - unfold get_row. rewrite (bind_ret _ _ _ _ _ Hq). reflexivity.
  - unfold get_col. rewrite (bind_ret _ _ _ _ _ Hq). reflexivity.
  - unfold get_results. rewrite (bind_ret _ _ _ _ _ Hq). reflexivity.
Qed.

End RetrievalFacts.

Lemma get_row_is_a_row_of_get_results_witness :
  fst (get_row plain_backend "SELECT * FROM people" "dict" 1 connected)
  = Ret (Some (ShDict [("id", VInt 2); ("name", VStr "bob")]))
  /\ fst (get_row plain_backend "SELECT * FROM people" "object" 1 connected)
     = Ret (Some (ShAsDictMethod
                    (mkRecord ["id"; "name"] [VInt 2; VStr "bob"]))).
Proof.
  assert (Hq : exists rows db' row,
             query plain_backend "SELECT * FROM people" [] false false
                   connected
             = (Ret (QRecords rows), db')
             /\ nth_error rows 1 = Some row
             /\ row = mkRecord ["id"; "name"] [VInt 2; VStr "bob"]).
  { vm_compute. do 3 eexists. repeat split; reflexivity. }
  destruct Hq as (rows & db' & row & Hq & Hrow & Erow).
  destruct (get_row_is_a_row_of_get_results
              plain_backend connected db' "SELECT * FROM people" "dict" 1
              rows row eq_refl Hq Hrow)
    as (results & _ & _ & H3 & H4 & _).
  destruct (get_row_is_a_row_of_get_results
              plain_backend connected db' "SELECT * FROM people" "object" 1
              rows row eq_refl Hq Hrow)
    as (results' & _ & _ & H3' & H4' & _).
  rewrite H3, H4, H3', H4'. subst row. split; reflexivity.
Defined.

Lemma get_var_is_a_value_of_get_col_witness :
  fst (get_col plain_backend "SELECT * FROM people" 1 connected)
  = Ret [VStr "ann"; VStr "bob"]
  /\ fst (get_var plain_backend "SELECT * FROM people" 1 0 connected)
     = Ret (VStr "ann").
Proof.
  assert (Hq : exists rows db' row col,
             query plain_backend "SELECT * FROM people" [] false false
                   connected
             = (Ret (QRecords rows), db')
             /\ get_col plain_backend "SELECT * FROM people" 1 connected
                = (Ret col, db')
             /\ nth_error rows 0 = Some row
             /\ col = [VStr "ann"; VStr "bob"]).
  { vm_compute. do 4 eexists. repeat split; reflexivity. }
  destruct Hq as (rows & db' & row & col & Hq & Hc & Hrow & Hcol).
  destruct (get_var_is_a_value_of_get_col
              plain_backend connected db' db' "SELECT * FROM people" 1 0
              rows row col Hq Hc Hrow)
    as (_ & _ & v & Hv & Hvar).
  rewrite Hvar, Hc. subst col. injection Hv as <-. split; reflexivity.
Defined.

Lemma retrieval_needs_a_result_set_witness :
  exists msg,
    fst (get_var silent_backend "DELETE FROM people" 0 0 connected)
    = Raise (TypeError msg).
Proof.
  assert (Hq : exists db',
             query silent_backend "DELETE FROM people" [] false false
                   connected = (Ret QNone, db')).
  { vm_compute. eexists. reflexivity. }
  destruct Hq as (db' & Hq).
  destruct (retrieval_needs_a_result_set
              silent_backend connected db' "DELETE FROM people" "record"
              0 0 Hq)
    as ((msg & H) & _).
  exists msg. now rewrite H.
Defined.

(* ================================================================== *)
(** * More on the transaction controller *)
(* ================================================================== *)

Section TransactionFacts.

Variable be : Backend.

(** Without a connection [begin_transaction], [commit] and [rollback] all
    raise [RuntimeError]; the driver is asked nothing and the session is
    as it was. *)
Theorem transactions_need_a_connection (db : Database) :
  _connection db = None ->
  (exists msg, begin_transaction be db = (Raise (RuntimeError msg), db))
  /\ (exists msg, commit be db = (Raise (RuntimeError msg), db))
  /\ (exists msg, rollback be db = (Raise (RuntimeError msg), db)).
Proof.
  intros H. unfold begin_transaction, commit, rollback, bind, gets, raise.
  rewrite H. simpl. repeat split; eexists; reflexivity.
Qed.

(** When the driver fails a transaction call, its exception is what the
    method raises, and the in-transaction flag keeps the value it had: a
    failed BEGIN does not open a transaction, a failed COMMIT or ROLLBACK
    leaves the session marked as in a transaction. *)
Theorem failed_transaction_call_keeps_flag
        (db : Database) (c : connection) (e : exn) :
  _connection db = Some c ->
  (be_begin be (wire db) = Raise e ->
   exists db',
     begin_transaction be db = (Raise e, db')
     /\ in_transaction db' = in_transaction db
     /\ wire db' = wire db ++ [EvBegin])
  /\ (be_commit be (wire db) = Raise e ->
      exists db',
        commit be db = (Raise e, db')
        /\ in_transaction db' = in_transaction db
        /\ wire db' = wire db ++ [EvCommit])
  /\ (in_transaction db = true ->
      be_rollback be (wire db) = Raise e ->
      exists db',
        rollback be db = (Raise e, db')
        /\ in_transaction db' = true
        /\ wire db' = wire db ++ [EvRollback]).
Proof.
  intros Hc. split; [|split].
  - intros Hb. eexists.
    unfold begin_transaction, bind, gets, emit, modify, lift, raise. simpl.
    rewrite Hc. simpl. rewrite Hb. repeat split.
  - intros Hb. eexists.
    unfold commit, bind, gets, emit, modify, lift, raise. simpl.
    rewrite Hc. simpl. rewrite Hb. repeat split.
  - intros Ht Hb. eexists.
    unfold rollback, bind, gets, emit, modify, lift, raise. simpl.
    unfold in_transaction in Ht. rewrite Hc, Ht. simpl. rewrite Hb.
    repeat split. exact Ht.
Qed.

(** [begin_transaction] is not guarded against a transaction already
    open: while the driver accepts it, a second call succeeds, sends a
    second BEGIN and leaves the flag set; one [commit] then clears it. *)
Theorem begin_twice_is_not_guarded (db : Database) (c : connection) :
  _connection db = Some c ->
  be_begin be (wire db) = Ret tt ->
  be_begin be (wire db ++ [EvBegin]) = Ret tt ->
  be_commit be (wire db ++ [EvBegin; EvBegin]) = Ret tt ->
  exists db2 db3,
    (begin_transaction be ;; begin_transaction be) db = (Ret tt, db2)
    /\ in_transaction db2 = true
    /\ wire db2 = wire db ++ [EvBegin; EvBegin]
    /\ commit be db2 = (Ret tt, db3)
    /\ in_transaction db3 = false.
Proof.
  intros Hc H1 H2 H3. do 2 eexists.
  rewrite (bind_ret _ _ _ _ _ (begin_transaction_eq be db c Hc H1)).
  rewrite (begin_transaction_eq be _ c); [|exact Hc|exact H2].
  split; [reflexivity|]. split; [reflexivity|]. split.
  { simpl. now rewrite <- app_assoc. }
  rewrite (commit_eq be _ c); [now split | exact Hc |].
  simpl. now rewrite <- app_assoc.
Qed.

(** ** The flag and the connection across any sequence of calls *)

Lemma snd_bind_pure {A B : Type} (m : M A) (k : A -> M B) (db : Database) :
  (forall a db1, snd (k a db1) = db1) ->
  snd (bind m k db) = snd (m db).
Proof.
  intros Hk. unfold bind. destruct (m db) as [[a|e] db1]; [apply Hk|].
  reflexivity.
Qed.

Lemma insert_state (table : string) (data : option dict) (kwargs : dict)
      (db : Database) :
  exists sql args,
    snd (insert be table data kwargs db)
    = snd (query be sql args false false db).
Proof.
  unfold insert. unfold bind at 1, gets at 1. do 2 eexists.
  now apply snd_bind_pure.
Qed.

Lemma bulk_insert_state (table : string) (columns : list string)
      (values : list (list pyval)) (db : Database) :
  exists sql args,
    snd (bulk_insert be table columns values db)
    = snd (query be sql args false false db).
Proof.
  unfold bulk_insert. unfold bind at 1, gets at 1. do 2 eexists.
  now apply snd_bind_pure.
Qed.

Lemma delete_state (table : string) (where_ : option dict) (kwargs : dict)
      (db : Database) :
  exists sql args,
    snd (delete be table where_ kwargs db)
    = snd (query be sql args false false db).
Proof.
  unfold delete. unfold bind at 1, gets at 1.
  destruct (delete_statement (_placeholder db) table where_ kwargs)
    as [sql values].
  exists sql, values. now apply snd_bind_pure.
Qed.

Lemma update_state (table : string) (data where_ : pyobj) (db : Database) :
  snd (update be table data where_ db) = db
  \/ exists sql args,
       snd (update be table data where_ db)
       = snd (query be sql args false false db).
Proof.
  unfold update.
  destruct (negb (is_dict data) || negb (is_dict where_)); [now left|].
  right. unfold bind at 1, gets at 1.
  destruct (update_statement (_placeholder db) table (items data)
                             (items where_)) as [sql values].
  exists sql, values. apply snd_bind_pure. intros a db1. reflexivity.
Qed.

Lemma get_row_state (sql output_type : string) (row_offset : nat)
      (db : Database) :
  snd (get_row be sql output_type row_offset db)
  = snd (query be sql [] false false db).
Proof.
  unfold get_row. apply snd_bind_pure. intros rows db1.
  unfold getitem, bind.
  destruct rows as [|r|rs]; try reflexivity.
  destruct (nth_error rs row_offset); [|reflexivity].
  unfold ret at 1.
  destruct (String.eqb output_type "record"); [reflexivity|].
  destruct (String.eqb output_type "dict"); [reflexivity|].
  destruct (String.eqb output_type "dataset"); [reflexivity|].
  destruct (String.eqb output_type "object"); reflexivity.
Qed.

Lemma get_results_state (sql output_type : string) (db : Database) :
  snd (get_results be sql output_type db)
  = snd (query be sql [] false false db).
Proof.
  unfold get_results. apply snd_bind_pure. intros rows db1.
  destruct rows; reflexivity.
Qed.

Lemma transaction_call_state (db : Database) :
  (_connection (snd (begin_transaction be db)) = _connection db
   /\ (_connection db = None ->
       _in_transaction (snd (begin_transaction be db))
       = _in_transaction db))
  /\ (_connection (snd (commit be db)) = _connection db
      /\ (_connection db = None ->
          _in_transaction (snd (commit be db)) = _in_transaction db))
  /\ (_connection (snd (rollback be db)) = _connection db
      /\ (_connection db = None ->
          _in_transaction (snd (rollback be db)) = _in_transaction db)).
Proof.
  unfold begin_transaction, commit, rollback, bind, gets, emit, modify,
    lift, raise, ret.
  destruct db as [conn intx sv svd lii lq le lr ar qe ts tp ph w]. simpl.
  destruct conn as [c|]; simpl.
  - destruct (be_begin be w) as [[]|e1], (be_commit be w) as [[]|e2],
      intx; simpl; try destruct (be_rollback be w) as [[]|e3]; simpl;
      repeat split; intros; discriminate.
  - repeat split.
Qed.

(** Whatever calls are made in whatever order, and whatever the driver
    answers or raises, the session never holds the in-transaction flag
    without a connection, and a connection once made is never dropped. *)
Theorem flag_needs_connection_invariant (calls : list call) :
  forall db,
    flag_needs_connection db ->
    flag_needs_connection (run_calls be calls db)
    /\ (_connection db <> None ->
        _connection (run_calls be calls db) <> None).
Proof.
  assert (Hq : forall db sql args proc one,
             flag_needs_connection (snd (query be sql args proc one db))
             /\ _connection (snd (query be sql args proc one db)) <> None).
  { intros db sql args proc one.
    destruct (query_state_kept be db sql args proc one)
      as (_ & Hc & _).
    unfold flag_needs_connection. rewrite Hc. split; [intros _|];
      discriminate. }
  assert (Hstep : forall c db,
             flag_needs_connection db ->
             flag_needs_connection (run_call be c db)
             /\ (_connection db <> None ->
                 _connection (run_call be c db) <> None)).
  { intros c db Hinv.
    destruct (transaction_call_state db)
      as ((Hb1 & Hb2) & (Hc1 & Hc2) & (Hr1 & Hr2)).
    destruct c; cbn [run_call].
    - split; [|now rewrite Hb1].
      unfold flag_needs_connection in *. rewrite Hb1.
      destruct (_connection db) eqn:E; [discriminate|].
      rewrite (Hb2 eq_refl). exact Hinv.
    - split; [|now rewrite Hc1].
      unfold flag_needs_connection in *. rewrite Hc1.
      destruct (_connection db) eqn:E; [discriminate|].
      rewrite (Hc2 eq_refl). exact Hinv.
    - split; [|now rewrite Hr1].
      unfold flag_needs_connection in *. rewrite Hr1.
      destruct (_connection db) eqn:E; [discriminate|].
      rewrite (Hr2 eq_refl). exact Hinv.
    - destruct (Hq db sql args proc one) as [H1 H2]. now split.
    - destruct (insert_state table data kwargs db) as (sql & args & ->).
      destruct (Hq db sql args false false) as [H1 H2]. now split.
    - destruct (bulk_insert_state table columns values db)
        as (sql & args & ->).
      destruct (Hq db sql args false false) as [H1 H2]. now split.
    - destruct (delete_state table where_ kwargs db) as (sql & args & ->).
      destruct (Hq db sql args false false) as [H1 H2]. now split.
    - destruct (update_state table data where_ db)
        as [->|(sql & args & ->)]; [now split|].
      destruct (Hq db sql args false false) as [H1 H2]. now split.
    - rewrite get_row_state.
      destruct (Hq db sql [] false false) as [H1 H2]. now split.
    - rewrite get_results_state.
      destruct (Hq db sql [] false false) as [H1 H2]. now split.
    - split; [exact Hinv | intros H; exact H]. }
  induction calls as [|c calls IH]; intros db Hinv.
  - split; [exact Hinv | intros H; exact H].
  - cbn [run_calls fold_left].
    destruct (Hstep c db Hinv) as [H1 H2].
    destruct (IH (run_call be c db) H1) as [H3 H4].
    split; [exact H3|]. intros H. apply H4. now apply H2.
Qed.

End TransactionFacts.

Lemma transactions_need_a_connection_witness :
  exists msg, commit plain_backend initial = (Raise (RuntimeError msg), initial).
Proof.
  destruct (transactions_need_a_connection plain_backend initial eq_refl)
    as (_ & H & _).
  exact H.
Defined.

Lemma failed_transaction_call_keeps_flag_witness :
  exists db',
    begin_transaction refusing_backend connected
    = (Raise (DriverError "connection lost"), db')
    /\ in_transaction db' = false
    /\ wire db' = [EvConnect; EvBegin].
Proof.
  destruct (failed_transaction_call_keeps_flag
              refusing_backend connected Connection
              (DriverError "connection lost") eq_refl)
    as (H & _).
  destruct (H eq_refl) as (db' & H1 & H2 & H3).
  exists db'. split; [exact H1|]. split; [exact H2|].
  rewrite H3. reflexivity.
Defined.

Lemma begin_twice_is_not_guarded_witness :
  exists db2,
    (begin_transaction plain_backend ;; begin_transaction plain_backend)
      connected = (Ret tt, db2)
    /\ in_transaction db2 = true
    /\ wire db2 = [EvConnect; EvBegin; EvBegin].
Proof.
  destruct (begin_twice_is_not_guarded
              plain_backend connected Connection eq_refl eq_refl eq_refl
              eq_refl)
    as (db2 & db3 & H1 & H2 & H3 & _).
  exists db2. split; [exact H1|]. split; [exact H2|].
  rewrite H3. reflexivity.
Defined.

Lemma flag_needs_connection_invariant_witness :
  flag_needs_connection
    (run_calls strict_backend
               [CallRollback; CallBegin;
                CallInsert "t" (Some [("a", VInt 1)]) [];
                CallBegin; CallCommit; CallFlush]
               initial).
Proof.
  apply (flag_needs_connection_invariant
           strict_backend
           [CallRollback; CallBegin;
            CallInsert "t" (Some [("a", VInt 1)]) [];
            CallBegin; CallCommit; CallFlush]
           initial).
  unfold flag_needs_connection. simpl. discriminate.
Defined.

(* ================================================================== *)
(** * Diagnostics, cursors and connections *)
(* ================================================================== *)

Section DiagnosticsFacts.

Variable be : Backend.

(** [flush] always returns.  It empties the log and the last error text
    and sets the affected-row count and the counter of executed queries
    to zero; the last query becomes the integer [0], not [None] as at
    construction.  The rest of the session is left as it was. *)
Lemma flush_state (db : Database) :
  exists db',
    flush db = (Ret tt, db')
    /\ last_error db' = EmptyString
    /\ affected_rows db' = 0%Z
    /\ queries_executed db' = 0%Z
    /\ saved_queries db' = []
    /\ last_query db' = VInt 0
    /\ _last_result db' = _last_result db
    /\ last_insert_id db' = last_insert_id db
    /\ _in_transaction db' = _in_transaction db
    /\ _connection db' = _connection db
    /\ wire db' = wire db
    /\ flush db' = (Ret tt, db').
Proof.
  eexists. split; [reflexivity|]. repeat split.
Qed.

(** [timer_stop] with no [timer_start] before it raises [TypeError],
    having already recorded the stop reading.  After a [timer_start],
    [timer_stop] returns, and [last_query_elapsed_time] then gives the
    text [timer_stop] returned, as often as it is read; before both
    readings exist it raises [TypeError]. *)
Theorem timer_round_trip (db : Database) :
  (_time_start db = None ->
   exists msg db',
     timer_stop be db = (Raise (TypeError msg), db')
     /\ _time_stop db' = Some (be_timer be (wire db)))
  /\ (exists elapsed db',
        (timer_start be ;; timer_stop be) db = (Ret elapsed, db')
        /\ last_query_elapsed_time be db' = (Ret elapsed, db')
        /\ (last_query_elapsed_time be ;; last_query_elapsed_time be) db'
           = (Ret elapsed, db'))
  /\ (_time_start db = None \/ _time_stop db = None ->
      exists msg,
        last_query_elapsed_time be db = (Raise (TypeError msg), db)).
Proof.
  split; [|split].
  - intros H. do 2 eexists.
    unfold timer_stop, bind, gets, modify, raise. simpl. rewrite H.
    split; reflexivity.
  - do 2 eexists.
    unfold timer_start, timer_stop, last_query_elapsed_time, bind, gets,
      modify, ret. simpl. repeat split.
  - intros H. eexists.
    unfold last_query_elapsed_time, bind, gets, raise. simpl.
    destruct H as [H|H]; rewrite H; [destruct (_time_stop db)|];
      reflexivity.
Qed.

End DiagnosticsFacts.

Lemma timer_round_trip_witness :
  exists msg db',
    timer_stop plain_backend connected = (Raise (TypeError msg), db')
    /\ _time_stop db' = Some 1%Z.
Proof.
  destruct (timer_round_trip plain_backend connected) as (H & _).
  destruct (H eq_refl) as (msg & db' & H1 & H2).
  exists msg, db'. split; [exact H1|]. rewrite H2. reflexivity.
Defined.

(* ================================================================== *)
(** * The builders and the normalizer *)
(* ================================================================== *)

Module BuilderFacts.
Import Str StrFacts NormalizerFacts.

(** ** Statements that the normalizer leaves alone *)

Lemma bare_drop (s : string) :
  forall k, bare_markers_only s = true ->
            bare_markers_only (drop k s) = true.
Proof.
  induction s as [|c s IH]; intros [|k] H; try exact H; try reflexivity.
  simpl drop. apply IH. simpl in H. now apply andb_true_iff in H as [_ H].
Qed.

Lemma bare_skip (a r : string) :
  percent_free a = true ->
  bare_markers_only (a ++ r) = bare_markers_only r.
Proof.
  induction a as [|c a IH]; intros H; [reflexivity|].
  simpl in H. apply andb_true_iff in H as [Hc Ha].
  apply negb_true_iff in Hc.
  change (String c a ++ r)%string with (String c (a ++ r)).
  cbn [bare_markers_only]. rewrite Hc. now rewrite IH.
Qed.

Lemma bare_marker (r : string) :
  bare_markers_only ("%s" ++ r)
  = negb (starts_with_quote r) && bare_markers_only r.
Proof. reflexivity. Qed.

Lemma bare_no_literal (tok s : string) :
  (forall r, bare_markers_only (tok ++ r) = false) ->
  bare_markers_only s = true -> literal tok s = None.
Proof.
  intros Htok Hs. unfold literal.
  destruct (prefix tok s) eqn:E; [|reflexivity].
  apply prefix_split in E. rewrite <- E, Htok in Hs. discriminate.
Qed.

Lemma bare_no_run (s : string) :
  bare_markers_only s = true -> run_of "%" s = None.
Proof.
  intros Hs. unfold run_of.
  destruct s as [|c [|d u]]; try reflexivity.
  - simpl. now destruct (Ascii.eqb c "%").
  - simpl leading. destruct (Ascii.eqb c "%") eqn:Ec; [|reflexivity].
    destruct (Ascii.eqb d "%") eqn:Ed; [|reflexivity].
    simpl in Hs. rewrite Ec in Hs. apply Ascii.eqb_eq in Ed. subst d.
    simpl in Hs. discriminate.
Qed.

Lemma bare_replace (tok s : string) :
  tok <> EmptyString ->
  (forall r, bare_markers_only (tok ++ r) = false) ->
  bare_markers_only s = true ->
  str_replace tok "%s" s = s.
Proof.
  intros Hne Htok Hs. unfold str_replace.
  destruct tok as [|x tok]; [congruence|].
  apply scan_identity. intros k.
  apply bare_no_literal; [exact Htok | now apply bare_drop].
Qed.

(** A text whose percent signs all open a marker [%s] that no quote
    follows goes through the five rules unchanged. *)
Lemma normalize_bare (s : string) :
  bare_markers_only s = true -> normalize "%s" s = s.
Proof.
  intros H. unfold normalize, apply_rules, normalizer_rules.
  cbn [fold_left].
  rewrite (bare_replace "'%s'");
    [|discriminate | intros r; reflexivity | exact H].
  rewrite (bare_replace (quoted "%s"));
    [|discriminate | intros r; reflexivity | exact H].
  rewrite (bare_replace "%f");
    [|discriminate | intros r; reflexivity | exact H].
  rewrite (bare_replace "%d");
    [|discriminate | intros r; reflexivity | exact H].
  unfold preg_replace_run. apply scan_identity. intros k.
  apply bare_no_run. now apply bare_drop.
Qed.

Lemma percent_free_app (a b : string) :
  percent_free (a ++ b) = percent_free a && percent_free b.
Proof. apply all_chars_app. Qed.

Lemma percent_free_join (sep : string) (names : list string) :
  percent_free sep = true -> plain_names names = true ->
  percent_free (join sep names) = true.
Proof.
  intros Hsep. induction names as [|p [|q rest] IH]; intros H.
  - reflexivity.
  - simpl in *. now apply andb_true_iff in H as [H _].
  - rewrite join_cons, !percent_free_app, Hsep.
    cbn [plain_names forallb] in H. apply andb_true_iff in H as [Hp H].
    rewrite Hp. cbn [andb]. now apply IH.
Qed.

Lemma percent_free_quoted (name : string) :
  percent_free name = true -> percent_free (quoted name) = true.
Proof.
  intros H. unfold quoted. rewrite !percent_free_app, H. reflexivity.
Qed.

Lemma markers_bare (n : nat) (r : string) :
  starts_with_quote r = false -> bare_markers_only r = true ->
  bare_markers_only (join ", " (repeat "%s" n) ++ r) = true.
Proof.
  intros Hq Hr. induction n as [|n IH]; [exact Hr|].
  destruct n as [|n].
  - cbn [repeat join]. now rewrite bare_marker, Hq, Hr.
  - change (repeat "%s" (S (S n))) with ("%s" :: repeat "%s" (S n)).
    change (repeat "%s" (S n)) with ("%s" :: repeat "%s" n) at 1.
    rewrite join_cons.
    change ("%s" :: repeat "%s" n) with (repeat "%s" (S n)).
    rewrite !append_assoc, bare_marker.
    rewrite (bare_skip ", ") by reflexivity. rewrite IH. reflexivity.
Qed.

Section Clauses.

Variable clause : string * pyval -> string.
Variable sep : string.

Hypothesis clause_bare :
  forall item rest,
    percent_free (fst item) = true ->
    starts_with_quote rest = false ->
    bare_markers_only (clause item ++ rest) = bare_markers_only rest.
Hypothesis sep_plain : percent_free sep = true.
Hypothesis sep_no_quote :
  forall rest, starts_with_quote (sep ++ rest) = false.

Lemma clauses_bare (items : dict) (r : string) :
  plain_names (map fst items) = true ->
  starts_with_quote r = false -> bare_markers_only r = true ->
  bare_markers_only (join sep (map clause items) ++ r) = true.
Proof.
  intros Hn Hq Hr. induction items as [|x [|y rest] IH].
  - exact Hr.
  - cbn [map join]. rewrite clause_bare; [exact Hr | | exact Hq].
    simpl in Hn. now apply andb_true_iff in Hn as [Hn _].
  - change (map clause (x :: y :: rest))
      with (clause x :: clause y :: map clause rest).
    rewrite join_cons, !append_assoc.
    cbn [map plain_names forallb] in Hn.
    apply andb_true_iff in Hn as [Hx Hn].
    rewrite clause_bare; [|exact Hx | apply sep_no_quote].
    rewrite bare_skip by exact sep_plain.
    apply IH. exact Hn.
Qed.

End Clauses.

Lemma set_clause_bare (item : string * pyval) (rest : string) :
  percent_free (fst item) = true ->
  starts_with_quote rest = false ->
  bare_markers_only (set_clause "%s" item ++ rest)
  = bare_markers_only rest.
Proof.
  intros Hn Hq. unfold set_clause. destruct (is_none (snd item)).
  - rewrite append_assoc.
    rewrite (bare_skip (quoted (fst item)))
      by now apply percent_free_quoted.
    now rewrite (bare_skip " = NULL").
  - rewrite !append_assoc.
    rewrite (bare_skip (quoted (fst item)))
      by now apply percent_free_quoted.
    rewrite (bare_skip " = ") by reflexivity.
    now rewrite bare_marker, Hq.
Qed.

Lemma where_clause_bare (item : string * pyval) (rest : string) :
  percent_free (fst item) = true ->
  starts_with_quote rest = false ->
  bare_markers_only (where_clause "%s" item ++ rest)
  = bare_markers_only rest.
Proof.
  intros Hn Hq. unfold where_clause. destruct (is_none (snd item)).
  - rewrite append_assoc.
    rewrite (bare_skip (quoted (fst item)))
      by now apply percent_free_quoted.
    now rewrite (bare_skip " IS NULL").
  - rewrite !append_assoc.
    rewrite (bare_skip (quoted (fst item)))
      by now apply percent_free_quoted.
    rewrite (bare_skip " = ") by reflexivity.
    now rewrite bare_marker, Hq.
Qed.

Lemma insert_sql_bare (table : string) (columns : list string) :
  percent_free table = true -> plain_names columns = true ->
  bare_markers_only (insert_sql table columns) = true.
Proof.
  intros Ht Hc. unfold insert_sql.
  rewrite (bare_skip "INSERT INTO ") by reflexivity.
  rewrite (bare_skip table) by exact Ht.
  rewrite (bare_skip " (") by reflexivity.
  rewrite (bare_skip (join ", " columns))
    by now apply percent_free_join.
  rewrite (bare_skip ") VALUES (") by reflexivity.
  now apply markers_bare.
Qed.

Lemma groups_bare (k m : nat) :
  bare_markers_only
    (join ", " (repeat ("(" ++ join ", " (repeat "%s" k) ++ ")")%string m))
  = true.
Proof.
  set (group := ("(" ++ join ", " (repeat "%s" k) ++ ")")%string).
  assert (Hg : forall rest,
             starts_with_quote rest = false ->
             bare_markers_only rest = true ->
             bare_markers_only (group ++ rest) = true).
  { intros rest Hq Hr. unfold group. rewrite !append_assoc.
    rewrite (bare_skip "(") by reflexivity.
    apply markers_bare; [reflexivity|].
    now rewrite (bare_skip ")"). }
  induction m as [|m IH]; [reflexivity|].
  destruct m as [|m].
  - cbn [repeat join]. rewrite <- (append_empty_r group).
    now apply Hg.
  - change (repeat group (S (S m))) with (group :: repeat group (S m)).
    change (repeat group (S m)) with (group :: repeat group m) at 1.
    rewrite join_cons.
    change (group :: repeat group m) with (repeat group (S m)).
    apply Hg; [reflexivity|].
    now rewrite (bare_skip ", ").
Qed.

Lemma bulk_insert_sql_bare (table : string) (columns : list string)
      (rows : nat) :
  percent_free table = true -> plain_names columns = true ->
  bare_markers_only (bulk_insert_sql table columns rows) = true.
Proof.
  intros Ht Hc. unfold bulk_insert_sql.
  rewrite (bare_skip "INSERT INTO ") by reflexivity.
  rewrite (bare_skip table) by exact Ht.
  rewrite (bare_skip " (") by reflexivity.
  rewrite (bare_skip (join ", " columns))
    by now apply percent_free_join.
  rewrite (bare_skip ") VALUES ") by reflexivity.
  apply groups_bare.
Qed.

Lemma where_clauses_bare (sep : string) (conditions : dict) :
  percent_free sep = true ->
  (forall rest, starts_with_quote (sep ++ rest) = false) ->
  plain_names (map fst conditions) = true ->
  bare_markers_only (join sep (map (where_clause "%s") conditions)) = true.
Proof.
  intros Hs Hq Hn.
  rewrite <- (append_empty_r (join sep _)).
  now apply (clauses_bare (where_clause "%s") sep where_clause_bare Hs Hq).
Qed.

Lemma update_sql_bare (table : string) (data where_ : dict) :
  percent_free table = true ->
  plain_names (map fst data) = true ->
  plain_names (map fst where_) = true ->
  bare_markers_only (update_sql table data where_) = true.
Proof.
  intros Ht Hd Hw. unfold update_sql.
  rewrite (bare_skip "UPDATE ") by reflexivity.
  rewrite (bare_skip (quoted table)) by now apply percent_free_quoted.
  rewrite (bare_skip " SET ") by reflexivity.
  apply (clauses_bare (set_clause "%s") ", " set_clause_bare);
    [reflexivity | reflexivity | exact Hd | reflexivity |].
  rewrite (bare_skip " WHERE ") by reflexivity.
  now apply where_clauses_bare.
Qed.

Lemma delete_sql_bare (table : string) (conditions : dict) :
  percent_free table = true ->
  plain_names (map fst conditions) = true ->
  bare_markers_only (delete_sql table conditions) = true.
Proof.
  intros Ht Hc. unfold delete_sql.
  destruct (nonempty (join " AND" (map (where_clause "%s") conditions))).
  - rewrite (bare_skip "DELETE FROM ") by reflexivity.
    rewrite (bare_skip (quoted table)) by now apply percent_free_quoted.
    rewrite (bare_skip "  WHERE ") by reflexivity.
    now apply where_clauses_bare.
  - rewrite (bare_skip "DELETE FROM ") by reflexivity.
    rewrite (bare_skip (quoted table)) by now apply percent_free_quoted.
    reflexivity.
Qed.

(** ** Counting the placeholders *)

Lemma pieces_from_drop (m : string -> option nat) (s : string) :
  forall k, pieces_from m k s = pieces_from m 0 (drop k s).
Proof.
  induction s as [|c t IH]; intros [|k]; try reflexivity.
  simpl pieces_from at 1. simpl drop. apply IH.
Qed.

Lemma count_marker (r : string) :
  count "%s" ("%s" ++ r) = S (count "%s" r).
Proof.
  unfold count, split. cbn [append].
  assert (E : literal "%s" (String "%" (String "s" r)) = Some 2).
  { unfold literal.
    change (String "%" (String "s" r)) with ("%s" ++ r)%string.
    now rewrite prefix_app. }
  cbn [pieces_from]. rewrite E. cbn [pieces_from].
  destruct (pieces_from (literal "%s") 0 r) as [p ps]. simpl. lia.
Qed.

Lemma count_other (c : ascii) (r : string) :
  Ascii.eqb c "%" = false ->
  count "%s" (String c r) = count "%s" r.
Proof.
  intros Hc. unfold count, split.
  assert (E : literal "%s" (String c r) = None).
  { unfold literal.
    destruct (prefix "%s" (String c r)) eqn:P; [|reflexivity].
    apply prefix_split in P. injection P as P _. subst c. discriminate. }
  cbn [pieces_from]. rewrite E.
  destruct (pieces_from (literal "%s") 0 r) as [p ps]. reflexivity.
Qed.

Lemma count_skip (a r : string) :
  percent_free a = true -> count "%s" (a ++ r) = count "%s" r.
Proof.
  induction a as [|c a IH]; intros H; [reflexivity|].
  simpl in H. apply andb_true_iff in H as [Hc Ha].
  apply negb_true_iff in Hc.
  change (String c a ++ r)%string with (String c (a ++ r)).
  rewrite count_other by exact Hc. now apply IH.
Qed.

Lemma count_none (a : string) :
  percent_free a = true -> count "%s" a = 0.
Proof.
  intros H. rewrite <- (append_empty_r a). now rewrite count_skip.
Qed.

Lemma markers_count (n : nat) (r : string) :
  count "%s" (join ", " (repeat "%s" n) ++ r) = n + count "%s" r.
Proof.
  induction n as [|n IH]; [reflexivity|].
  destruct n as [|n].
  - cbn [repeat join]. now rewrite count_marker.
  - change (repeat "%s" (S (S n))) with ("%s" :: repeat "%s" (S n)).
    change (repeat "%s" (S n)) with ("%s" :: repeat "%s" n) at 1.
    rewrite join_cons.
    change ("%s" :: repeat "%s" n) with (repeat "%s" (S n)).
    rewrite !append_assoc, count_marker.
    rewrite (count_skip ", ") by reflexivity. rewrite IH. lia.
Qed.

Section ClauseCounts.

Variable clause : string * pyval -> string.
Variable sep : string.

Hypothesis clause_count :
  forall item rest,
    percent_free (fst item) = true ->
    count "%s" (clause item ++ rest)
    = (if is_none (snd item) then 0 else 1) + count "%s" rest.
Hypothesis sep_plain : percent_free sep = true.

Lemma clauses_count (items : dict) (r : string) :
  plain_names (map fst items) = true ->
  count "%s" (join sep (map clause items) ++ r)
  = List.length (bound items) + count "%s" r.
Proof.
  intros Hn. induction items as [|x [|y rest] IH].
  - reflexivity.
  - cbn [map join]. rewrite clause_count.
    + unfold bound. simpl. now destruct (is_none (snd x)).
    + simpl in Hn. now apply andb_true_iff in Hn as [Hn _].
  - change (map clause (x :: y :: rest))
      with (clause x :: clause y :: map clause rest).
    rewrite join_cons, !append_assoc.
    cbn [map plain_names forallb] in Hn.
    apply andb_true_iff in Hn as [Hx Hn].
    rewrite clause_count by exact Hx.
    rewrite count_skip by exact sep_plain.
    change (clause y :: map clause rest) with (map clause (y :: rest)).
    rewrite IH by exact Hn.
    unfold bound. cbn [map filter].
    destruct (is_none (snd x)); simpl; lia.
Qed.

End ClauseCounts.

Lemma set_clause_count (item : string * pyval) (rest : string) :
  percent_free (fst item) = true ->
  count "%s" (set_clause "%s" item ++ rest)
  = (if is_none (snd item) then 0 else 1) + count "%s" rest.
Proof.
  intros Hn. unfold set_clause. destruct (is_none (snd item)).
  - rewrite append_assoc.
    rewrite (count_skip (quoted (fst item)))
      by now apply percent_free_quoted.
    now rewrite (count_skip " = NULL").
  - rewrite !append_assoc.
    rewrite (count_skip (quoted (fst item)))
      by now apply percent_free_quoted.
    rewrite (count_skip " = ") by reflexivity.
    now rewrite count_marker.
Qed.

Lemma where_clause_count (item : string * pyval) (rest : string) :
  percent_free (fst item) = true ->
  count "%s" (where_clause "%s" item ++ rest)
  = (if is_none (snd item) then 0 else 1) + count "%s" rest.
Proof.
  intros Hn. unfold where_clause. destruct (is_none (snd item)).
  - rewrite append_assoc.
    rewrite (count_skip (quoted (fst item)))
      by now apply percent_free_quoted.
    now rewrite (count_skip " IS NULL").
  - rewrite !append_assoc.
    rewrite (count_skip (quoted (fst item)))
      by now apply percent_free_quoted.
    rewrite (count_skip " = ") by reflexivity.
    now rewrite count_marker.
Qed.

Lemma insert_sql_count (table : string) (columns : list string) :
  percent_free table = true -> plain_names columns = true ->
  count "%s" (insert_sql table columns) = List.length columns.
Proof.
  intros Ht Hc. unfold insert_sql.
  rewrite (count_skip "INSERT INTO ") by reflexivity.
  rewrite (count_skip table) by exact Ht.
  rewrite (count_skip " (") by reflexivity.
  rewrite (count_skip (join ", " columns))
    by now apply percent_free_join.
  rewrite (count_skip ") VALUES (") by reflexivity.
  rewrite markers_count. rewrite (count_none ")") by reflexivity. lia.
Qed.

Lemma groups_count (k m : nat) (r : string) :
  count "%s"
    (join ", " (repeat ("(" ++ join ", " (repeat "%s" k) ++ ")")%string m)
     ++ r)
  = m * k + count "%s" r.
Proof.
  set (group := ("(" ++ join ", " (repeat "%s" k) ++ ")")%string).
  assert (Hg : forall rest,
             count "%s" (group ++ rest) = k + count "%s" rest).
  { intros rest. unfold group. rewrite !append_assoc.
    rewrite (count_skip "(") by reflexivity.
    rewrite markers_count. now rewrite (count_skip ")"). }
  induction m as [|m IH]; [reflexivity|].
  destruct m as [|m].
  - cbn [repeat join]. rewrite Hg. lia.
  - change (repeat group (S (S m))) with (group :: repeat group (S m)).
    change (repeat group (S m)) with (group :: repeat group m) at 1.
    rewrite join_cons.
    change (group :: repeat group m) with (repeat group (S m)).
    rewrite !append_assoc, Hg.
    rewrite (count_skip ", ") by reflexivity. rewrite IH. lia.
Qed.

Lemma bulk_insert_sql_count (table : string) (columns : list string)
      (rows : nat) :
  percent_free table = true -> plain_names columns = true ->
  count "%s" (bulk_insert_sql table columns rows)
  = rows * List.length columns.
Proof.
  intros Ht Hc. unfold bulk_insert_sql.
  rewrite (count_skip "INSERT INTO ") by reflexivity.
  rewrite (count_skip table) by exact Ht.
  rewrite (count_skip " (") by reflexivity.
  rewrite (count_skip (join ", " columns))
    by now apply percent_free_join.
  rewrite (count_skip ") VALUES ") by reflexivity.
  rewrite <- (append_empty_r (join ", " (repeat _ rows))).
  rewrite groups_count. change (count "%s" EmptyString) with 0.
  now rewrite Nat.add_0_r.
Qed.

Lemma where_clauses_count (sep : string) (conditions : dict) :
  percent_free sep = true ->
  plain_names (map fst conditions) = true ->
  count "%s" (join sep (map (where_clause "%s") conditions))
  = List.length (bound conditions).
Proof.
  intros Hs Hn.
  rewrite <- (append_empty_r (join sep _)).
  rewrite (clauses_count (where_clause "%s") sep where_clause_count Hs)
    by exact Hn.
  change (count "%s" EmptyString) with 0. now rewrite Nat.add_0_r.
Qed.

Lemma update_sql_count (table : string) (data where_ : dict) :
  percent_free table = true ->
  plain_names (map fst data) = true ->
  plain_names (map fst where_) = true ->
  count "%s" (update_sql table data where_)
  = List.length (bound data ++ bound where_).
Proof.
  intros Ht Hd Hw. unfold update_sql.
  rewrite (count_skip "UPDATE ") by reflexivity.
  rewrite (count_skip (quoted table)) by now apply percent_free_quoted.
  rewrite (count_skip " SET ") by reflexivity.
  rewrite (clauses_count (set_clause "%s") ", " set_clause_count)
    by (reflexivity || exact Hd).
  rewrite (count_skip " WHERE ") by reflexivity.
  rewrite where_clauses_count by (reflexivity || exact Hw).
  now rewrite length_app.
Qed.

Lemma delete_sql_count (table : string) (conditions : dict) :
  percent_free table = true ->
  plain_names (map fst conditions) = true ->
  count "%s" (delete_sql table conditions)
  = List.length (bound conditions).
Proof.
  intros Ht Hc. unfold delete_sql.
  destruct (nonempty (join " AND" (map (where_clause "%s") conditions)))
    eqn:E.
  - rewrite (count_skip "DELETE FROM ") by reflexivity.
    rewrite (count_skip (quoted table)) by now apply percent_free_quoted.
    rewrite (count_skip "  WHERE ") by reflexivity.
    now apply where_clauses_count.
  - rewrite (count_skip "DELETE FROM ") by reflexivity.
    rewrite (count_skip (quoted table)) by now apply percent_free_quoted.
    rewrite <- (where_clauses_count " AND" conditions)
      by (reflexivity || exact Hc).
    destruct (join " AND" (map (where_clause "%s") conditions));
      [reflexivity | discriminate].
Qed.

End BuilderFacts.

Section WellFormedStatements.

Variable be : Backend.

(** For a table and columns named without a percent sign, the statement
    [insert] hands to [query] has exactly as many placeholders as there
    are arguments, and [prepare] leaves it as it is: what the driver is
    given is the statement as built. *)
Theorem insert_statement_is_well_formed
        (db : Database) (table : string) (data : option dict)
        (kwargs : dict) :
  let merged := match data with
                | Some data => dict_update kwargs data
                | None => kwargs
                end in
  let sql := insert_sql table (map fst merged) in
  _placeholder db = "%s" ->
  percent_free table = true ->
  plain_names (map fst merged) = true ->
  insert be table data kwargs db
  = (_ <- query be sql (map snd merged) false false ;;
     gets affected_rows) db
  /\ Str.count "%s" sql = List.length (map snd merged)
  /\ normalize "%s" sql = sql.
Proof.
  intros merged sql Hph Ht Hn. split; [|split].
  - unfold insert. unfold bind at 1, gets at 1. rewrite Hph.
    unfold sql, insert_sql. fold merged. now rewrite !length_map.
  - unfold sql. rewrite BuilderFacts.insert_sql_count by assumption.
    now rewrite !length_map.
  - apply BuilderFacts.normalize_bare.
    now apply BuilderFacts.insert_sql_bare.
Qed.

Lemma length_concat_rows (width : nat) (values : list (list pyval)) :
  (forall row, In row values -> List.length row = width) ->
  List.length (concat values) = List.length values * width.
Proof.
  induction values as [|row values IH]; intros H; [reflexivity|].
  simpl. rewrite length_app, IH.
  - rewrite (H row); [reflexivity | now left].
  - intros r Hr. apply H. now right.
Qed.

(** For a table and columns named without a percent sign, the statement
    [bulk_insert] hands to [query] has one placeholder per column and
    row, which is the number of arguments when every row has as many
    values as there are columns, and [prepare] leaves it as it is. *)
Theorem bulk_insert_statement_is_well_formed
        (db : Database) (table : string) (columns : list string)
        (values : list (list pyval)) :
  let sql := bulk_insert_sql table columns (List.length values) in
  _placeholder db = "%s" ->
  percent_free table = true ->
  plain_names columns = true ->
  bulk_insert be table columns values db
  = (_ <- query be sql (concat values) false false ;;
     gets affected_rows) db
  /\ Str.count "%s" sql = List.length values * List.length columns
  /\ ((forall row, In row values ->
                   List.length row = List.length columns) ->
      Str.count "%s" sql = List.length (concat values))
  /\ normalize "%s" sql = sql.
Proof.
  intros sql Hph Ht Hn. split; [|split; [|split]].
  - unfold bulk_insert. unfold bind at 1, gets at 1. rewrite Hph.
    rewrite extend_loop. reflexivity.
  - unfold sql. now apply BuilderFacts.bulk_insert_sql_count.
  - intros Hrows. unfold sql.
    rewrite BuilderFacts.bulk_insert_sql_count by assumption.
    now rewrite (length_concat_rows (List.length columns)).
  - apply BuilderFacts.normalize_bare.
    now apply BuilderFacts.bulk_insert_sql_bare.
Qed.

(** For a table and fields named without a percent sign, the statement
    [update] hands to [query] has exactly as many placeholders as there
    are arguments, and [prepare] leaves it as it is. *)
Theorem update_statement_is_well_formed
        (db : Database) (table : string) (data where_ : dict) :
  let sql := update_sql table data where_ in
  let values := bound data ++ bound where_ in
  _placeholder db = "%s" ->
  percent_free table = true ->
  plain_names (map fst data) = true ->
  plain_names (map fst where_) = true ->
  update be table (ODict data) (ODict where_) db
  = (_ <- query be sql values false false ;;
     n <- gets affected_rows ;; ret (VInt n)) db
  /\ Str.count "%s" sql = List.length values
  /\ normalize "%s" sql = sql.
Proof.
  intros sql values Hph Ht Hd Hw. split; [|split].
  - unfold update. cbn [is_dict negb orb items].
    unfold bind at 1, gets at 1.
    rewrite update_statement_eq, Hph. reflexivity.
  - now apply BuilderFacts.update_sql_count.
  - apply BuilderFacts.normalize_bare.
    now apply BuilderFacts.update_sql_bare.
Qed.

Lemma delete_statement_sql (table : string) (where_ : option dict)
      (kwargs : dict) :
  let merged := match where_ with
                | Some where_ => dict_update kwargs where_
                | None => kwargs
                end in
  delete_statement "%s" table where_ kwargs
  = (delete_sql table merged, bound merged).
Proof.
  intros merged. unfold delete_statement, delete_sql. fold merged.
  rewrite where_loop. cbn [app].
  destruct (nonempty (Str.join " AND" (map (where_clause "%s") merged)));
    [|reflexivity].
  now rewrite !StrFacts.append_assoc.
Qed.

(** For a table and fields named without a percent sign, the statement
    [delete] hands to [query] has exactly as many placeholders as there
    are arguments, and [prepare] leaves it as it is. *)
Theorem delete_statement_is_well_formed
        (db : Database) (table : string) (where_ : option dict)
        (kwargs : dict) :
  let merged := match where_ with
                | Some where_ => dict_update kwargs where_
                | None => kwargs
                end in
  let sql := delete_sql table merged in
  _placeholder db = "%s" ->
  percent_free table = true ->
  plain_names (map fst merged) = true ->
  delete be table where_ kwargs db
  = (_ <- query be sql (bound merged) false false ;;
     gets affected_rows) db
  /\ Str.count "%s" sql = List.length (bound merged)
  /\ normalize "%s" sql = sql.
Proof.
  intros merged sql Hph Ht Hn. split; [|split].
  - unfold delete. unfold bind at 1, gets at 1. rewrite Hph.
    now rewrite delete_statement_sql.
  - now apply BuilderFacts.delete_sql_count.
  - apply BuilderFacts.normalize_bare.
    now apply BuilderFacts.delete_sql_bare.
Qed.

End WellFormedStatements.

Lemma insert_statement_is_well_formed_witness :
  Str.count "%s" (insert_sql "people" ["city"; "name"; "age"]) = 3
  /\ normalize "%s" (insert_sql "people" ["city"; "name"; "age"])
     = "INSERT INTO people (city, name, age) VALUES (%s, %s, %s)".
Proof.
  destruct (insert_statement_is_well_formed
              plain_backend connected "people"
              (Some [("name", VStr "ann"); ("age", VInt 30)])
              [("city", VNone); ("name", VStr "x")]
              eq_refl eq_refl eq_refl)
    as (_ & H2 & H3).
  split; [exact H2|]. exact H3.
Defined.

Lemma bulk_insert_statement_is_well_formed_witness :
  Str.count "%s" (bulk_insert_sql "t" ["a"; "b"; "c"] 2) = 6
  /\ normalize "%s" (bulk_insert_sql "t" ["a"; "b"; "c"] 2)
     = "INSERT INTO t (a, b, c) VALUES (%s, %s, %s), (%s, %s, %s)".
Proof.
  destruct (bulk_insert_statement_is_well_formed
              plain_backend connected "t" ["a"; "b"; "c"]
              [[VInt 1; VInt 2; VInt 3]; [VInt 4; VInt 5; VInt 6]]
              eq_refl eq_refl eq_refl)
    as (_ & _ & H3 & H4).
  split; [|exact H4].
  apply H3. intros row [<-|[<-|[]]]; reflexivity.
Defined.

Lemma update_statement_is_well_formed_witness :
  Str.count "%s"
    (update_sql "people" [("name", VStr "ann"); ("age", VNone)]
                [("id", VInt 7); ("city", VNone)]) = 2
  /\ normalize "%s"
       (update_sql "people" [("name", VStr "ann"); ("age", VNone)]
                   [("id", VInt 7); ("city", VNone)])
     = update_sql "people" [("name", VStr "ann"); ("age", VNone)]
                  [("id", VInt 7); ("city", VNone)].
Proof.
  destruct (update_statement_is_well_formed
              plain_backend connected "people"
              [("name", VStr "ann"); ("age", VNone)]
              [("id", VInt 7); ("city", VNone)]
              eq_refl eq_refl eq_refl eq_refl)
    as (_ & H2 & H3).
  split; [exact H2 | exact H3].
Defined.

Lemma delete_statement_is_well_formed_witness :
  Str.count "%s" (delete_sql "people" [("id", VInt 7); ("city", VNone)]) = 1
  /\ normalize "%s" (delete_sql "people" [("id", VInt 7); ("city", VNone)])
     = delete_sql "people" [("id", VInt 7); ("city", VNone)].
Proof.
  destruct (delete_statement_is_well_formed
              plain_backend connected "people"
              (Some [("id", VInt 7); ("city", VNone)]) []
              eq_refl eq_refl eq_refl)
    as (_ & H2 & H3).
  split; [exact H2 | exact H3].
Defined.

(* ================================================================== *)
(** * Edges of [prepare] and of the builders *)
(* ================================================================== *)

Section Edges.

Variable be : Backend.

(** [prepare] with no template returns [None] and touches nothing: no
    connection is made and the driver is asked nothing.  With a template
    and no arguments it always returns, having connected the session if
    need be and opened one cursor, which it neither uses nor closes. *)
Theorem prepare_opens_a_cursor_it_never_closes
        (db : Database) (sql : string) (args : list pyval) :
  prepare be None args db = (Ret None, db)
  /\ exists db',
       prepare be (Some sql) [] db
       = (Ret (Some (normalize (_placeholder db) sql)), db')
       /\ _connection db' = Some Connection
       /\ wire db' = wire (after_connect db)
                     ++ [EvCursor (cursors_opened (wire db))].
Proof.
  split; [reflexivity|].
  eexists. rewrite prepare_eq. split; [reflexivity|].
  destruct db as [conn intx sv svd lii lq le lr ar qe ts tp ph w].
  unfold after_connect. destruct conn as [[]|]; cbn -[cursors_opened];
    rewrite ?cursors_opened_connect; now split.
Qed.

(** [update] does not guard an empty mapping of conditions: where
    [delete] leaves the WHERE clause out, [update] hands [query] a
    statement that ends with [WHERE] and nothing after it. *)
Theorem update_with_no_condition (db : Database) (table : string)
        (data : dict) :
  let sql := ("UPDATE " ++ quoted table
              ++ " SET "
              ++ Str.join ", " (map (set_clause (_placeholder db)) data)
              ++ " WHERE ")%string in
  update be table (ODict data) (ODict []) db
  = (_ <- query be sql (bound data) false false ;;
     n <- gets affected_rows ;; ret (VInt n)) db
  /\ delete be table (Some []) [] db
     = (_ <- query be ("DELETE FROM " ++ quoted table ++ " ") [] false
                   false ;;
        gets affected_rows) db.
Proof.
  intros sql. split.
  - unfold update. cbn [is_dict negb orb items].
    unfold bind at 1, gets at 1.
    rewrite update_statement_eq. cbn [map Str.join bound filter].
    now rewrite app_nil_r.
  - reflexivity.
Qed.

(** On a driver whose [fetchall] raises for a statement without a result
    set, [insert] raises [NameError] although the driver ran the
    statement: the affected-row count is the cursor's and the counter of
    executed queries has gone up. *)
Theorem insert_raises_after_the_row_is_written
        (db : Database) (table : string) (data : dict) (rc : Z)
        (lid : pyval) (e : exn) (shown : string) :
  let sql := insert_sql table (map fst data) in
  let args := map snd data in
  let n := cursors_opened (wire db) in
  _placeholder db = "%s" ->
  shown_text be (normalize "%s" sql) args = Ret shown ->
  be_execute be (wire_before_execute db) (normalize "%s" sql) args
  = Ret (rc, lid) ->
  be_fetchall be (wire_before_execute db
                  ++ [EvExecute n (normalize "%s" sql) args]) = Raise e ->
  exists db',
    insert be table None data db = (Raise (NameError "exception"), db')
    /\ affected_rows db' = rc
    /\ queries_executed db' = (queries_executed db + 1)%Z.
Proof.
  intros sql args n Hph Hs He Hf. rewrite <- Hph in Hs, He, Hf.
  destruct (query_fetch_raises be db sql args false rc lid e shown Hs He Hf)
    as (db' & Hq & Har & Hqe & _).
  exists db'. split; [|now split].
  unfold insert. unfold bind at 1, gets at 1. rewrite Hph.
  unfold sql, insert_sql, args in Hq. rewrite !length_map in *.
  now rewrite (bind_raise _ _ _ _ _ Hq).
Qed.

End Edges.

Lemma insert_raises_after_the_row_is_written_witness :
  exists db',
    insert strict_backend "t" None [("a", VInt 1)] connected
    = (Raise (NameError "exception"), db')
    /\ affected_rows db' = 1%Z
    /\ queries_executed db' = 1%Z.
Proof.
  destruct (insert_raises_after_the_row_is_written
              strict_backend connected "t" [("a", VInt 1)] 1%Z VNone
              (DriverError "no results to fetch")
              "INSERT INTO t (a) VALUES (%s)"
              eq_refl eq_refl eq_refl eq_refl)
    as (db' & H1 & H2 & H3).
  exists db'. split; [exact H1|]. split; [exact H2 | exact H3].
Defined.


(* ================================================================== *)
(** * Flushing after a query *)
(* ================================================================== *)

Section FlushFacts.

Variable be : Backend.

(** After a statement has run, [flush] brings the affected-row count and
    the counter of executed queries back to zero, empties the log and
    sets the last query to the integer [0], not to [None] as at
    construction; it asks nothing of the driver, and it does not forget
    the statement's results: the last generated key is still the
    cursor's and the last result is still the one the statement left.
    Flushing once more changes nothing. *)
Theorem flush_resets_the_counters
        (db : Database) (sql : string) (args : list pyval) (one : bool)
        (rc : Z) (lid : pyval) (rv : option (list row)) (shown : string) :
  let sql' := normalize (_placeholder db) sql in
  let n := cursors_opened (wire db) in
  let W := wire_before_execute db in
  shown_text be sql' args = Ret shown ->
  be_execute be W sql' args = Ret (rc, lid) ->
  be_fetchall be (W ++ [EvExecute n sql' args]) = Ret rv ->
  exists db',
    (_ <- query be sql args false one ;; flush) db = (Ret tt, db')
    /\ affected_rows db' = 0%Z
    /\ queries_executed db' = 0%Z
    /\ saved_queries db' = []
    /\ last_error db' = EmptyString
    /\ last_query db' = VInt 0
    /\ last_insert_id db' = lid
    /\ _last_result db' = match rv with
                          | None => _last_result db
                          | Some _ => result_of one rv
                          end
    /\ wire db' = W ++ [EvExecute n sql' args; EvFetchall n; EvCursorClose n]
    /\ flush db' = (Ret tt, db').
Proof.
  intros sql' n W Hs He Hf.
  destruct (query_plain_state be db sql args one rc lid rv shown Hs He Hf)
    as (db1 & Hq & _ & Hlr & _).
  destruct (query_plain_ok be db sql args one rc lid rv shown Hs He Hf)
    as (db1' & Hq' & _ & Hli & _ & _ & Hw).
  rewrite Hq in Hq'. injection Hq' as <-.
  destruct (flush_state db1)
    as (db' & Hfl & H1 & H2 & H3 & H4 & H5 & H6 & H7 & _ & _ & H10 & H11).
  exists db'. rewrite (bind_ret _ _ _ _ _ Hq), Hfl.
  split; [reflexivity|]. split; [exact H2|]. split; [exact H3|].
  split; [exact H4|]. split; [exact H1|]. split; [exact H5|].
  split; [now rewrite H7|]. split; [now rewrite H6|].
  split; [now rewrite H10 | exact H11].
Qed.

End FlushFacts.

Lemma flush_resets_the_counters_witness :
  exists db',
    (_ <- query plain_backend "INSERT INTO t (a) VALUES (%d)" [VInt 1]
                false false ;;
     flush) saving_session = (Ret tt, db')
    /\ queries_executed db' = 0%Z
    /\ saved_queries db' = []
    /\ last_query db' = VInt 0
    /\ last_insert_id db' = VInt 7
    /\ _last_result db' = QRecords [].
Proof.
  destruct (flush_resets_the_counters
              plain_backend saving_session "INSERT INTO t (a) VALUES (%d)"
              [VInt 1] false 1%Z (VInt 7) (Some [])
              "INSERT INTO t (a) VALUES (%s)" eq_refl eq_refl eq_refl)
    as (db' & H1 & _ & H3 & H4 & _ & H6 & H7 & H8 & _).
  exists db'. split; [exact H1|]. split; [exact H3|]. split; [exact H4|].
  split; [exact H6|]. split; [exact H7 | exact H8].
Defined.
